(** * FGCU driving simulator: trial manager and dual control

    A shallow embedding of the two stateful classes of
    [manual_control_steeringwheel_Research_Base.py] that carry the
    trial logic:

    - [TrialManager] (arm / start / per-frame speed tracking / end,
      violation bookkeeping, result computation, name input), and
    - [DualControl] (keyboard and steering-wheel input turned into a
      [carla.VehicleControl] every frame),

    together with the slice of [game_loop] that drives them.  Of the
    host (CARLA and pygame) the model keeps what these classes read
    and write: the clock, the player transform, the light state, the
    commands applied, the three data files.  A further part models
    what else computes something: the trial clock on screen, the
    compass heading and the notification line of the HUD, the
    collision sensor with its graph, the weather presets, the key
    bindings read from the configuration file, the names kept from
    session to session.  Drawing, the camera and the other sensors,
    and the walker control are left out.

    Numbers.  Python floats are idealised.  The trial manager only
    compares, adds, subtracts and divides speed and clock readings, so
    they are exact rationals ([Q]), which keeps every trial function
    executable.  The controller applies [math.tan] and [math.log10];
    its floats are real numbers ([R]).  Rounding error of these float
    operations is not modelled, and a reading is never NaN.  Where
    the program turns a float into digits the rounding decides what
    is printed, so [format_time] is modelled with the binary64
    rounding of each of its operations ([TrialScreen]).  The steer of
    the keyboard is rounded to tenths on the real number: at a value
    exactly between two tenths the program, which rounds the double,
    may go the other way (see [Control.round1]). *)

From Stdlib Require Import ZArith QArith Qround Qabs List Bool String Ascii Lia.
From Stdlib Require Import Reals Psatz Zfloor.
Import ListNotations.

Set Primitive Projections.

(** ** Python exceptions and the state-and-error monad *)

Inductive exn : Type :=
| TypeError
| ZeroDivisionError
| IndexError
| KeyError
| ValueError.

Inductive result (A : Type) : Type :=
| Ok (a : A)
| Raise (e : exn).
Arguments Ok {A} a.
Arguments Raise {A} e.

(** A method of an object whose state has type [S]. *)
Definition M (S A : Type) : Type := S -> result (A * S).

Definition ret {S A} (a : A) : M S A := fun s => Ok (a, s).

Definition bind {S A B} (c : M S A) (k : A -> M S B) : M S B :=
  fun s => match c s with
           | Ok (a, s') => k a s'
           | Raise e => Raise e
           end.

Definition raise {S A} (e : exn) : M S A := fun _ => Raise e.

(** A pure computation that may raise. *)
Definition lift {S A} (r : result A) : M S A :=
  fun s => match r with
           | Ok a => Ok (a, s)
           | Raise e => Raise e
           end.

Definition gets {S A} (f : S -> A) : M S A := fun s => Ok (f s, s).

Definition modify {S} (f : S -> S) : M S unit := fun s => Ok (tt, f s).

Declare Scope py_scope.
Delimit Scope py_scope with py.
Notation "x <- c ;; k" := (bind c (fun x => k))
  (at level 61, c at next level, right associativity) : py_scope.
Notation "c ;; k" := (bind c (fun _ => k))
  (at level 61, right associativity) : py_scope.

(** [when b c]: an [if] without [else]. *)
Definition when {S} (b : bool) (c : M S unit) : M S unit :=
  if b then c else ret tt.

(** The state a method leaves behind, when it returns. *)
Definition exec {S A} (c : M S A) (s : S) : option S :=
  match c s with
  | Ok (_, s') => Some s'
  | Raise _ => None
  end.

(** ** Python list and string helpers *)

(** [xs[i]]: a negative index counts from the end; out of range raises. *)
Definition py_index {A} (xs : list A) (i : Z) : result A :=
  let n := Z.of_nat (List.length xs) in
  let j := (if i <? 0 then i + n else i)%Z in
  if ((j <? 0) || (n <=? j))%Z then Raise IndexError
  else match nth_error xs (Z.to_nat j) with
       | Some x => Ok x
       | None => Raise IndexError
       end.

(** [xs.index(x)] on a list of strings. *)
Fixpoint list_index (x : string) (xs : list string) : option Z :=
  match xs with
  | [] => None
  | y :: ys => if String.eqb x y then Some 0%Z
               else option_map Z.succ (list_index x ys)
  end.

(** [x in xs] *)
Definition str_in (x : string) (xs : list string) : bool :=
  existsb (String.eqb x) xs.

(** [a % b] on ints; the sign follows the divisor, as [Z.modulo] does. *)
Definition py_mod (a b : Z) : result Z :=
  if (b =? 0)%Z then Raise ZeroDivisionError else Ok (a mod b)%Z.

(** [c.isspace()].  A character of a string is a code point below
    256; those that [str.strip] takes for white space are 9 to 13, 28
    to 31, the space, U+0085 and U+00A0. *)
Definition is_space (c : ascii) : bool :=
  let n := nat_of_ascii c in
  ((n =? 32) || ((9 <=? n) && (n <=? 13)) || ((28 <=? n) && (n <=? 31))
   || (n =? 133) || (n =? 160))%nat.

(** Truth value of [s.strip()]: some character is not white space. *)
Definition strip_nonempty (s : string) : bool :=
  existsb (fun c => negb (is_space c)) (list_ascii_of_string s).

(** [s[:-1]] *)
Definition drop_last (s : string) : string :=
  string_of_list_ascii (removelast (list_ascii_of_string s)).

(** A Python [dict] with string keys, in insertion order. *)
Definition dict (V : Type) : Type := list (string * V).

(** [d[k]] *)
Fixpoint dict_get {V} (k : string) (d : dict V) : result V :=
  match d with
  | [] => Raise KeyError
  | (k', v) :: rest => if String.eqb k k' then Ok v else dict_get k rest
  end.

(** [d[k] = v] *)
Fixpoint dict_set {V} (k : string) (v : V) (d : dict V) : dict V :=
  match d with
  | [] => [(k, v)]
  | (k', v') :: rest =>
      if String.eqb k k' then (k', v) :: rest
      else (k', v') :: dict_set k v rest
  end.

(** ** pygame key codes (pygame 2, SDL2 key symbols) *)

Definition K_BACKSPACE : Z := 8.
Definition K_TAB : Z := 9.
Definition K_RETURN : Z := 13.
Definition K_ESCAPE : Z := 27.
Definition K_SPACE : Z := 32.
Definition K_COMMA : Z := 44.
Definition K_PERIOD : Z := 46.
Definition K_SLASH : Z := 47.
Definition K_0 : Z := 48.
Definition K_9 : Z := 57.
Definition K_BACKQUOTE : Z := 96.
Definition K_a : Z := 97.
Definition K_b : Z := 98.
Definition K_c : Z := 99.
Definition K_d : Z := 100.
Definition K_h : Z := 104.
Definition K_i : Z := 105.
Definition K_l : Z := 108.
Definition K_m : Z := 109.
Definition K_o : Z := 111.
Definition K_p : Z := 112.
Definition K_q : Z := 113.
Definition K_r : Z := 114.
Definition K_s : Z := 115.
Definition K_w : Z := 119.
Definition K_x : Z := 120.
Definition K_F1 : Z := 1073741882.
Definition K_RIGHT : Z := 1073741903.
Definition K_LEFT : Z := 1073741904.
Definition K_DOWN : Z := 1073741905.
Definition K_UP : Z := 1073741906.
Definition K_KP1 : Z := 1073741913.

(** [pygame.key.get_pressed()] *)
Definition Keys : Type := Z -> bool.

Definition no_keys : Keys := fun _ => false.

Definition holding (ks : list Z) : Keys :=
  fun k => existsb (Z.eqb k) ks.

(** ** The trial manager *)

Module Trial.
Local Open Scope Q_scope.

(** *** Numbers *)

(** [a > b] on floats *)
Definition Qgtb (a b : Q) : bool := negb (Qle_bool a b).

(** [a >= b] on floats *)
Definition Qgeb (a b : Q) : bool := Qle_bool b a.

(** [max(a, b)]: the first argument wins a tie. *)
Definition py_max (a b : Q) : Q := if Qgtb b a then b else a.

(** [min(a, b)] where [a] may be [float('inf')], written [None]. *)
Definition py_min_inf (a : option Q) (b : Q) : option Q :=
  match a with
  | None => Some b
  | Some a' => if Qgtb a' b then Some b else Some a'
  end.

(** [int(x)]: truncation towards zero. *)
Definition py_int (x : Q) : Z := Z.quot (Qnum x) (Zpos (Qden x)).

(** Nearest integer, ties to the even one. *)
Definition round_half_even (x : Q) : Z :=
  let f := Qfloor x in
  match Qcompare (x - inject_Z f) (1 # 2) with
  | Lt => f
  | Gt => (f + 1)%Z
  | Eq => if Z.even f then f else (f + 1)%Z
  end.

(** [round(x, 2)] *)
Definition round2 (x : Q) : Q := inject_Z (round_half_even (x * 100)) / 100.

(** [sum(xs)] *)
Definition py_sum (xs : list Q) : Q := fold_left Qplus xs 0.

(** [a / b] *)
Definition py_div (a b : Q) : result Q :=
  if Qeq_bool b 0 then Raise ZeroDivisionError else Ok (a / b).

(** *** Data *)

Record Location := { loc_x : Q; loc_y : Q; loc_z : Q }.
Record Rotation := { pitch : Q; yaw : Q; roll : Q }.
Record Transform := { location : Location; rotation : Rotation }.

(** The dictionary [trial_results]. *)
Module Results.
Record t := {
  trial_duration : Q;
  avg_speed : Q;
  avg_violation_duration : Q;
  violation_count : nat
}.
End Results.

Inductive Cardinal := North | East | South | West.

(** A row of the daily runs file; the user, session and vehicle labels
    that the source also writes are fixed for the session. *)
Record RunRow := {
  run_trial_code : option string;
  run_timestamp : Z;
  run_elapsed : Q;
  run_speed : Q;
  run_pose : Transform;
  run_heading : Cardinal
}.

(** A row of the events file. *)
Record EventRow := {
  ev_trial_code : option string;
  ev_timestamp : Z;
  ev_type : string;
  ev_duration : Q;
  ev_pose : Transform
}.

(** A row of the totals file, before the time fields are formatted. *)
Record TotalsRow := {
  tot_user_name : string;
  tot_trial_code : option string;
  tot_start : Q;
  tot_duration : Q;
  tot_avg_speed : Q;
  tot_max_speed : Q;
  tot_min_speed : option Q;
  tot_violation_count : nat;
  tot_avg_violation_duration : Q
}.

(** The attributes of a [TrialManager] object.  [min_speed_during_run]
    is [None] while it still holds [float('inf')]; [trial_results] is
    [None] while it is the empty dictionary. *)
Record TrialManager := {
  trial_active : bool;
  start_time : option Q;
  end_time : option Q;
  violation_start : option Q;
  violation_durations : list (Q * Q);
  violation_count : nat;
  trial_settings : Transform;
  max_speed : Q;
  trial_results : option Results.t;
  display_results : bool;
  start_screen : bool;
  current_speed : Q;
  speeding_warning : bool;
  max_speed_during_run : Q;
  min_speed_during_run : option Q;
  session_code : string;
  trial_code : option string;
  user_name : string;
  new_user_name : string;
  user_names : list string;
  active_input : bool;
  dropdown_open : bool;
  selected_name_index : Z;
  data_to_write : list RunRow
}.

(** What the object reaches outside itself: the wall clock
    ([time.time()], the [reads]-th call returns [wall reads]), the
    random generator behind [generate_code], the player actor, the HUD
    and the files under [scripts/data]. *)
Record Host := {
  wall : nat -> Q;
  reads : nat;
  codes : nat -> string;
  draws : nat;
  player : Transform;
  notifications : list string;
  events_csv : list EventRow;
  runs_csv : list RunRow;
  totals_csv : list TotalsRow;
  memory_file : option (list string)
}.

(** *** Attribute assignment

    [set_f v o] is [o.f = v]: every other attribute is kept. *)

Definition set_trial_active (v : bool) (o : TrialManager) : TrialManager :=
  let 'Build_TrialManager _ a1 a2 a3 a4 a5 a6 a7 a8 a9 a10 a11 a12 a13 a14
    a15 a16 a17 a18 a19 a20 a21 a22 a23 := o in
  Build_TrialManager v a1 a2 a3 a4 a5 a6 a7 a8 a9 a10 a11 a12 a13 a14 a15
    a16 a17 a18 a19 a20 a21 a22 a23.

Definition set_start_time (v : option Q) (o : TrialManager) : TrialManager :=
  let 'Build_TrialManager a0 _ a2 a3 a4 a5 a6 a7 a8 a9 a10 a11 a12 a13 a14
    a15 a16 a17 a18 a19 a20 a21 a22 a23 := o in
  Build_TrialManager a0 v a2 a3 a4 a5 a6 a7 a8 a9 a10 a11 a12 a13 a14 a15
    a16 a17 a18 a19 a20 a21 a22 a23.

Definition set_end_time (v : option Q) (o : TrialManager) : TrialManager :=
  let 'Build_TrialManager a0 a1 _ a3 a4 a5 a6 a7 a8 a9 a10 a11 a12 a13 a14
    a15 a16 a17 a18 a19 a20 a21 a22 a23 := o in
  Build_TrialManager a0 a1 v a3 a4 a5 a6 a7 a8 a9 a10 a11 a12 a13 a14 a15
    a16 a17 a18 a19 a20 a21 a22 a23.

Definition set_violation_start (v : option Q) (o : TrialManager) : TrialManager :=
  let 'Build_TrialManager a0 a1 a2 _ a4 a5 a6 a7 a8 a9 a10 a11 a12 a13 a14
    a15 a16 a17 a18 a19 a20 a21 a22 a23 := o in
  Build_TrialManager a0 a1 a2 v a4 a5 a6 a7 a8 a9 a10 a11 a12 a13 a14 a15
    a16 a17 a18 a19 a20 a21 a22 a23.

Definition set_violation_durations (v : list (Q * Q)) (o : TrialManager) : TrialManager :=
  let 'Build_TrialManager a0 a1 a2 a3 _ a5 a6 a7 a8 a9 a10 a11 a12 a13 a14
    a15 a16 a17 a18 a19 a20 a21 a22 a23 := o in
  Build_TrialManager a0 a1 a2 a3 v a5 a6 a7 a8 a9 a10 a11 a12 a13 a14 a15
    a16 a17 a18 a19 a20 a21 a22 a23.

Definition set_violation_count (v : nat) (o : TrialManager) : TrialManager :=
  let 'Build_TrialManager a0 a1 a2 a3 a4 _ a6 a7 a8 a9 a10 a11 a12 a13 a14
    a15 a16 a17 a18 a19 a20 a21 a22 a23 := o in
  Build_TrialManager a0 a1 a2 a3 a4 v a6 a7 a8 a9 a10 a11 a12 a13 a14 a15
    a16 a17 a18 a19 a20 a21 a22 a23.

Definition set_trial_results (v : option Results.t) (o : TrialManager) : TrialManager :=
  let 'Build_TrialManager a0 a1 a2 a3 a4 a5 a6 a7 _ a9 a10 a11 a12 a13 a14
    a15 a16 a17 a18 a19 a20 a21 a22 a23 := o in
  Build_TrialManager a0 a1 a2 a3 a4 a5 a6 a7 v a9 a10 a11 a12 a13 a14 a15
    a16 a17 a18 a19 a20 a21 a22 a23.

Definition set_display_results (v : bool) (o : TrialManager) : TrialManager :=
  let 'Build_TrialManager a0 a1 a2 a3 a4 a5 a6 a7 a8 _ a10 a11 a12 a13 a14
    a15 a16 a17 a18 a19 a20 a21 a22 a23 := o in
  Build_TrialManager a0 a1 a2 a3 a4 a5 a6 a7 a8 v a10 a11 a12 a13 a14 a15
    a16 a17 a18 a19 a20 a21 a22 a23.

Definition set_start_screen (v : bool) (o : TrialManager) : TrialManager :=
  let 'Build_TrialManager a0 a1 a2 a3 a4 a5 a6 a7 a8 a9 _ a11 a12 a13 a14
    a15 a16 a17 a18 a19 a20 a21 a22 a23 := o in
  Build_TrialManager a0 a1 a2 a3 a4 a5 a6 a7 a8 a9 v a11 a12 a13 a14 a15 a16
    a17 a18 a19 a20 a21 a22 a23.

Definition set_current_speed (v : Q) (o : TrialManager) : TrialManager :=
  let 'Build_TrialManager a0 a1 a2 a3 a4 a5 a6 a7 a8 a9 a10 _ a12 a13 a14
    a15 a16 a17 a18 a19 a20 a21 a22 a23 := o in
  Build_TrialManager a0 a1 a2 a3 a4 a5 a6 a7 a8 a9 a10 v a12 a13 a14 a15 a16
    a17 a18 a19 a20 a21 a22 a23.

Definition set_speeding_warning (v : bool) (o : TrialManager) : TrialManager :=
  let 'Build_TrialManager a0 a1 a2 a3 a4 a5 a6 a7 a8 a9 a10 a11 _ a13 a14
    a15 a16 a17 a18 a19 a20 a21 a22 a23 := o in
  Build_TrialManager a0 a1 a2 a3 a4 a5 a6 a7 a8 a9 a10 a11 v a13 a14 a15 a16
    a17 a18 a19 a20 a21 a22 a23.

Definition set_max_speed_during_run (v : Q) (o : TrialManager) : TrialManager :=
  let 'Build_TrialManager a0 a1 a2 a3 a4 a5 a6 a7 a8 a9 a10 a11 a12 _ a14
    a15 a16 a17 a18 a19 a20 a21 a22 a23 := o in
  Build_TrialManager a0 a1 a2 a3 a4 a5 a6 a7 a8 a9 a10 a11 a12 v a14 a15 a16
    a17 a18 a19 a20 a21 a22 a23.

Definition set_min_speed_during_run (v : option Q) (o : TrialManager) : TrialManager :=
  let 'Build_TrialManager a0 a1 a2 a3 a4 a5 a6 a7 a8 a9 a10 a11 a12 a13 _
    a15 a16 a17 a18 a19 a20 a21 a22 a23 := o in
  Build_TrialManager a0 a1 a2 a3 a4 a5 a6 a7 a8 a9 a10 a11 a12 a13 v a15 a16
    a17 a18 a19 a20 a21 a22 a23.

Definition set_trial_code (v : option string) (o : TrialManager) : TrialManager :=
  let 'Build_TrialManager a0 a1 a2 a3 a4 a5 a6 a7 a8 a9 a10 a11 a12 a13 a14
    a15 _ a17 a18 a19 a20 a21 a22 a23 := o in
  Build_TrialManager a0 a1 a2 a3 a4 a5 a6 a7 a8 a9 a10 a11 a12 a13 a14 a15 v
    a17 a18 a19 a20 a21 a22 a23.

Definition set_user_name (v : string) (o : TrialManager) : TrialManager :=
  let 'Build_TrialManager a0 a1 a2 a3 a4 a5 a6 a7 a8 a9 a10 a11 a12 a13 a14
    a15 a16 _ a18 a19 a20 a21 a22 a23 := o in
  Build_TrialManager a0 a1 a2 a3 a4 a5 a6 a7 a8 a9 a10 a11 a12 a13 a14 a15
    a16 v a18 a19 a20 a21 a22 a23.

Definition set_new_user_name (v : string) (o : TrialManager) : TrialManager :=
  let 'Build_TrialManager a0 a1 a2 a3 a4 a5 a6 a7 a8 a9 a10 a11 a12 a13 a14
    a15 a16 a17 _ a19 a20 a21 a22 a23 := o in
  Build_TrialManager a0 a1 a2 a3 a4 a5 a6 a7 a8 a9 a10 a11 a12 a13 a14 a15
    a16 a17 v a19 a20 a21 a22 a23.

Definition set_user_names (v : list string) (o : TrialManager) : TrialManager :=
  let 'Build_TrialManager a0 a1 a2 a3 a4 a5 a6 a7 a8 a9 a10 a11 a12 a13 a14
    a15 a16 a17 a18 _ a20 a21 a22 a23 := o in
  Build_TrialManager a0 a1 a2 a3 a4 a5 a6 a7 a8 a9 a10 a11 a12 a13 a14 a15
    a16 a17 a18 v a20 a21 a22 a23.

Definition set_active_input (v : bool) (o : TrialManager) : TrialManager :=
  let 'Build_TrialManager a0 a1 a2 a3 a4 a5 a6 a7 a8 a9 a10 a11 a12 a13 a14
    a15 a16 a17 a18 a19 _ a21 a22 a23 := o in
  Build_TrialManager a0 a1 a2 a3 a4 a5 a6 a7 a8 a9 a10 a11 a12 a13 a14 a15
    a16 a17 a18 a19 v a21 a22 a23.

Definition set_dropdown_open (v : bool) (o : TrialManager) : TrialManager :=
  let 'Build_TrialManager a0 a1 a2 a3 a4 a5 a6 a7 a8 a9 a10 a11 a12 a13 a14
    a15 a16 a17 a18 a19 a20 _ a22 a23 := o in
  Build_TrialManager a0 a1 a2 a3 a4 a5 a6 a7 a8 a9 a10 a11 a12 a13 a14 a15
    a16 a17 a18 a19 a20 v a22 a23.

Definition set_selected_name_index (v : Z) (o : TrialManager) : TrialManager :=
  let 'Build_TrialManager a0 a1 a2 a3 a4 a5 a6 a7 a8 a9 a10 a11 a12 a13 a14
    a15 a16 a17 a18 a19 a20 a21 _ a23 := o in
  Build_TrialManager a0 a1 a2 a3 a4 a5 a6 a7 a8 a9 a10 a11 a12 a13 a14 a15
    a16 a17 a18 a19 a20 a21 v a23.

Definition set_data_to_write (v : list RunRow) (o : TrialManager) : TrialManager :=
  let 'Build_TrialManager a0 a1 a2 a3 a4 a5 a6 a7 a8 a9 a10 a11 a12 a13 a14
    a15 a16 a17 a18 a19 a20 a21 a22 _ := o in
  Build_TrialManager a0 a1 a2 a3 a4 a5 a6 a7 a8 a9 a10 a11 a12 a13 a14 a15
    a16 a17 a18 a19 a20 a21 a22 v.

Definition set_reads (v : nat) (o : Host) : Host :=
  let 'Build_Host a0 _ a2 a3 a4 a5 a6 a7 a8 a9 := o in
  Build_Host a0 v a2 a3 a4 a5 a6 a7 a8 a9.

Definition set_draws (v : nat) (o : Host) : Host :=
  let 'Build_Host a0 a1 a2 _ a4 a5 a6 a7 a8 a9 := o in
  Build_Host a0 a1 a2 v a4 a5 a6 a7 a8 a9.

Definition set_player (v : Transform) (o : Host) : Host :=
  let 'Build_Host a0 a1 a2 a3 _ a5 a6 a7 a8 a9 := o in
  Build_Host a0 a1 a2 a3 v a5 a6 a7 a8 a9.

Definition set_notifications (v : list string) (o : Host) : Host :=
  let 'Build_Host a0 a1 a2 a3 a4 _ a6 a7 a8 a9 := o in
  Build_Host a0 a1 a2 a3 a4 v a6 a7 a8 a9.

Definition set_events_csv (v : list EventRow) (o : Host) : Host :=
  let 'Build_Host a0 a1 a2 a3 a4 a5 _ a7 a8 a9 := o in
  Build_Host a0 a1 a2 a3 a4 a5 v a7 a8 a9.

Definition set_runs_csv (v : list RunRow) (o : Host) : Host :=
  let 'Build_Host a0 a1 a2 a3 a4 a5 a6 _ a8 a9 := o in
  Build_Host a0 a1 a2 a3 a4 a5 a6 v a8 a9.

Definition set_totals_csv (v : list TotalsRow) (o : Host) : Host :=
  let 'Build_Host a0 a1 a2 a3 a4 a5 a6 a7 _ a9 := o in
  Build_Host a0 a1 a2 a3 a4 a5 a6 a7 v a9.

Definition set_memory_file (v : option (list string)) (o : Host) : Host :=
  let 'Build_Host a0 a1 a2 a3 a4 a5 a6 a7 a8 _ := o in
  Build_Host a0 a1 a2 a3 a4 a5 a6 a7 a8 v.

Record Sim := { self : TrialManager; host : Host }.

Definition Py := M Sim.

Local Open Scope py_scope.

(** [self.f] *)
Definition attr {A} (f : TrialManager -> A) : Py A :=
  gets (fun s => f (self s)).

(** [self.f = v], given as the setter applied to the value *)
Definition assign (f : TrialManager -> TrialManager) : Py unit :=
  modify (fun s => {| self := f (self s); host := host s |}).

Definition on_host (f : Host -> Host) : Py unit :=
  modify (fun s => {| self := self s; host := f (host s) |}).

(** [time.time()] *)
Definition time_time : Py Q :=
  h <- gets host ;;
  on_host (set_reads (S (reads h))) ;;
  ret (wall h (reads h)).

(** [player.get_transform()] *)
Definition get_transform : Py Transform := gets (fun s => player (host s)).

(** *** Methods *)

(** The object that [__init__] builds, given the configured speed
    limit and start pose, the session code it drew and the names found
    in the memory file. *)
Definition init (limit : Q) (pose : Transform) (session : string)
    (names : list string) : TrialManager :=
  let last := (Z.of_nat (List.length names) - 1)%Z in
  {| trial_active := false;
     start_time := None;
     end_time := None;
     violation_start := None;
     violation_durations := [];
     violation_count := 0;
     trial_settings := pose;
     max_speed := limit;
     trial_results := None;
     display_results := false;
     start_screen := false;
     current_speed := 0;
     speeding_warning := false;
     max_speed_during_run := 0;
     min_speed_during_run := None;
     session_code := session;
     trial_code := None;
     user_name := (if (0 <=? last)%Z then nth (Z.to_nat last) names EmptyString
                   else EmptyString);
     new_user_name := EmptyString;
     user_names := names;
     active_input := false;
     dropdown_open := false;
     selected_name_index := last;
     data_to_write := [] |}.

Definition record_event (event_type : string) (violation_duration : Q)
    (pose : Transform) : Py unit :=
  now <- time_time ;;
  code <- attr trial_code ;;
  h <- gets host ;;
  on_host (set_events_csv
             (events_csv h ++
              [{| ev_trial_code := code;
                  ev_timestamp := py_int now;
                  ev_type := event_type;
                  ev_duration := violation_duration;
                  ev_pose := pose |}])).

Definition generate_code : Py string :=
  h <- gets host ;;
  on_host (set_draws (S (draws h))) ;;
  ret (codes h (draws h)).

Definition save_user_name (name : string) : Py unit :=
  names <- attr user_names ;;
  when (negb (String.eqb name EmptyString) && negb (str_in name names))
    (assign (set_user_names (names ++ [name])) ;;
     on_host (set_memory_file (Some (names ++ [name])))) ;;
  assign (set_user_name name) ;;
  names' <- attr user_names ;;
  match list_index name names' with
  | Some i => assign (set_selected_name_index i)
  | None => raise ValueError
  end.

(** [start_trial(player)]; the player is the host's one actor. *)
Definition start_trial : Py unit :=
  assign (set_start_screen true) ;;
  assign (set_trial_active false) ;;
  h <- gets host ;;
  on_host (set_notifications
             (notifications h ++ ["Press Enter to Start Run"%string])) ;;
  pose <- attr trial_settings ;;
  on_host (set_player pose).

Definition initiate_trial : Py unit :=
  assign (set_trial_active true) ;;
  now <- time_time ;;
  assign (set_start_time (Some now)) ;;
  assign (set_violation_start None) ;;
  assign (set_violation_durations []) ;;
  assign (set_violation_count 0) ;;
  assign (set_display_results false) ;;
  assign (set_start_screen false) ;;
  assign (set_speeding_warning false) ;;
  assign (set_max_speed_during_run 0) ;;
  assign (set_min_speed_during_run None) ;;
  code <- generate_code ;;
  assign (set_trial_code (Some code)).

Definition calculate_results : Py unit :=
  e <- attr end_time ;;
  b <- attr start_time ;;
  match e, b with
  | Some end_t, Some start_t =>
      let trial_duration := end_t - start_t in
      vd <- attr violation_durations ;;
      let n := inject_Z (Z.of_nat (List.length vd)) in
      avg_speed <-
        match vd with
        | [] => ret 0
        | _ :: _ => lift (py_div (py_sum (map snd vd)) n)
        end ;;
      avg_violation_duration <-
        match vd with
        | [] => ret 0
        | _ :: _ => lift (py_div (py_sum (map fst vd)) n)
        end ;;
      count <- attr violation_count ;;
      assign (set_trial_results
                (Some {| Results.trial_duration := trial_duration;
                         Results.avg_speed := avg_speed;
                         Results.avg_violation_duration := avg_violation_duration;
                         Results.violation_count := count |}))
  | _, _ => raise TypeError
  end.

Definition write_totals_to_csv : Py unit :=
  o <- gets self ;;
  h <- gets host ;;
  match start_time o, trial_results o with
  | None, _ => raise TypeError
  | Some _, None => raise KeyError
  | Some start_t, Some r =>
      on_host (set_totals_csv
                 (totals_csv h ++
                  [{| tot_user_name := user_name o;
                      tot_trial_code := trial_code o;
                      tot_start := start_t;
                      tot_duration := Results.trial_duration r;
                      tot_avg_speed := round2 (Results.avg_speed r);
                      tot_max_speed := round2 (max_speed_during_run o);
                      tot_min_speed :=
                        option_map round2 (min_speed_during_run o);
                      tot_violation_count := Results.violation_count r;
                      tot_avg_violation_duration :=
                        Results.avg_violation_duration r |}]))
  end.

Definition end_trial : Py unit :=
  assign (set_trial_active false) ;;
  now <- time_time ;;
  assign (set_end_time (Some now)) ;;
  calculate_results ;;
  assign (set_display_results true) ;;
  rows <- attr data_to_write ;;
  h <- gets host ;;
  on_host (set_runs_csv (runs_csv h ++ rows)) ;;
  assign (set_data_to_write []) ;;
  write_totals_to_csv.

Definition calculate_heading_cardinal (yaw : Q) : Cardinal :=
  if Qgtb 45 (Qabs yaw) then North
  else if Qgeb yaw 45 && Qgtb 135 yaw then East
  else if Qgeb (Qabs yaw) 135 then South
  else West.

(** The speed-limit test of [track_speed]: a violation opens when the
    speed first exceeds [max_speed], and closes when it no longer does. *)
Definition check_violation (speed : Q) : Py unit :=
  limit <- attr max_speed ;;
  vs <- attr violation_start ;;
  if Qgtb speed limit then
    match vs with
    | None =>
        now <- time_time ;;
        assign (set_violation_start (Some now)) ;;
        count <- attr violation_count ;;
        assign (set_violation_count (count + 1))
    | Some _ => ret tt
    end ;;
    assign (set_speeding_warning true)
  else
    match vs with
    | Some opened =>
        violation_end <- time_time ;;
        let violation_duration := violation_end - opened in
        pose <- get_transform ;;
        vd <- attr violation_durations ;;
        assign (set_violation_durations
                  (vd ++ [(violation_duration, speed)])) ;;
        record_event "violation" violation_duration pose ;;
        assign (set_violation_start None)
    | None => ret tt
    end ;;
    assign (set_speeding_warning false).

(** The sampler of [track_speed]: a row every 500 milliseconds. *)
Definition collect_data (speed : Q) : Py unit :=
  now <- time_time ;;
  b <- attr start_time ;;
  match b with
  | None => raise TypeError
  | Some start_t =>
      rows <- attr data_to_write ;;
      when (Qgeb (now - start_t)
              (inject_Z (Z.of_nat (List.length rows)) * 0.5))
        (pose <- get_transform ;;
         stamp <- time_time ;;
         elapsed <- time_time ;;
         code <- attr trial_code ;;
         assign (set_data_to_write
                   (rows ++
                    [{| run_trial_code := code;
                        run_timestamp := py_int stamp;
                        run_elapsed := round2 (elapsed - start_t);
                        run_speed := speed;
                        run_pose := pose;
                        run_heading :=
                          calculate_heading_cardinal
                            (yaw (rotation pose)) |}])))
  end.

(** [track_speed(speed, player)]; the transform of the player is read
    from the host. *)
Definition track_speed (speed : Q) : Py unit :=
  assign (set_current_speed speed) ;;
  active <- attr trial_active ;;
  when active
    (hi <- attr max_speed_during_run ;;
     assign (set_max_speed_during_run (py_max hi speed)) ;;
     lo <- attr min_speed_during_run ;;
     assign (set_min_speed_during_run (py_min_inf lo speed)) ;;
     check_violation speed ;;
     collect_data speed).

(** *** Events *)

(** The pygame events that [parse_events] passes to [handle_event]. *)
Inductive Event :=
| KEYDOWN (key : Z) (unicode : string)
| MOUSEBUTTONDOWN (pos : Z * Z).

(** [pygame.Rect(left, top, width, height).collidepoint(pos)] *)
Definition collidepoint (left top width height : Z) (pos : Z * Z) : bool :=
  let (x, y) := pos in
  ((left <=? x) && (x <? left + width) && (top <=? y) && (y <? top + height))%Z.

(** The first block of [handle_event]: the trial keys.  The result is
    [true] when the method returns from inside the block. *)
Definition handle_trial_keys (key : Z) : Py bool :=
  if (key =? K_RETURN)%Z then
    shown <- attr display_results ;;
    if shown then
      assign (set_display_results false) ;;
      ret true
    else
      armed <- attr start_screen ;;
      when armed initiate_trial ;;
      ret false
  else
    active <- attr trial_active ;;
    when ((key =? K_SPACE)%Z && active) end_trial ;;
    ret false.

(** The second block: clicks on the name box, the Add button and the
    drop-down list. *)
Definition handle_mouse (pos : Z * Z) : Py unit :=
  names <- attr user_names ;;
  opened <- attr dropdown_open ;;
  let rows := Z.of_nat (List.length names) in
  if collidepoint (640 - 100) (360 + 50) 200 32 pos then
    assign (set_active_input true) ;;
    assign (set_dropdown_open (negb opened))
  else if collidepoint (640 - 100 + 210) (360 + 50) 80 32 pos then
    typed <- attr new_user_name ;;
    when (strip_nonempty typed)
      (save_user_name typed ;;
       assign (set_new_user_name EmptyString)) ;;
    assign (set_dropdown_open false)
  else if collidepoint (640 - 100) (360 + 82) 200 (rows * 32) pos && opened then
    let relative_y := (snd pos - (360 + 82))%Z in
    let i := (relative_y / 32)%Z in
    assign (set_selected_name_index i) ;;
    name <- lift (py_index names i) ;;
    assign (set_user_name name) ;;
    assign (set_dropdown_open false)
  else
    assign (set_active_input false) ;;
    assign (set_dropdown_open false).

(** The third block: typing a name, moving in the drop-down list. *)
Definition handle_name_keys (key : Z) (unicode : string) : Py unit :=
  typing <- attr active_input ;;
  opened <- attr dropdown_open ;;
  if typing then
    typed <- attr new_user_name ;;
    if (key =? K_RETURN)%Z then
      when (strip_nonempty typed)
        (save_user_name typed ;;
         assign (set_new_user_name EmptyString)) ;;
      assign (set_active_input false)
    else if (key =? K_BACKSPACE)%Z then
      assign (set_new_user_name (drop_last typed))
    else
      assign (set_new_user_name (typed ++ unicode)%string)
  else if opened then
    names <- attr user_names ;;
    i <- attr selected_name_index ;;
    let n := Z.of_nat (List.length names) in
    if (key =? K_DOWN)%Z then
      j <- lift (py_mod (i + 1) n) ;;
      assign (set_selected_name_index j) ;;
      name <- lift (py_index names j) ;;
      assign (set_user_name name)
    else if (key =? K_UP)%Z then
      j <- lift (py_mod (i - 1) n) ;;
      assign (set_selected_name_index j) ;;
      name <- lift (py_index names j) ;;
      assign (set_user_name name)
    else ret tt
  else ret tt.

Definition handle_event (event : Event) : Py unit :=
  match event with
  | KEYDOWN key unicode =>
      returned <- handle_trial_keys key ;;
      if returned then ret tt else handle_name_keys key unicode
  | MOUSEBUTTONDOWN pos => handle_mouse pos
  end.

(** *** The trial part of one pass of the loop in [game_loop] *)

(** The four tests on the pressed keys that follow [parse_events]. *)
Definition poll_trial_keys (keys : Keys) : Py unit :=
  when (keys K_KP1) start_trial ;;
  armed <- attr start_screen ;;
  when (keys K_RETURN && armed) initiate_trial ;;
  active <- attr trial_active ;;
  when (keys K_SPACE && active) end_trial ;;
  shown <- attr display_results ;;
  when (keys K_RETURN && shown) start_trial.

(** *** A whole trial *)

(** The samples of the frames between the start and the end of a
    trial: where the player is, and how fast. *)
Fixpoint track_all (samples : list (Transform * Q)) : Py unit :=
  match samples with
  | [] => ret tt
  | (pose, speed) :: rest =>
      on_host (set_player pose) ;;
      track_speed speed ;;
      track_all rest
  end.

(** Arm, start, the frames, end. *)
Definition run_trial (samples : list (Transform * Q)) : Py unit :=
  start_trial ;;
  initiate_trial ;;
  track_all samples ;;
  end_trial.

(** One press of a key as the trial manager sees it: the [KEYDOWN]
    event in [parse_events], then the key found pressed by the loop. *)
Definition press (key : Z) (unicode : string) : Py unit :=
  handle_event (KEYDOWN key unicode) ;;
  poll_trial_keys (holding [key]).

(** *** Violation windows of a run of samples

    A window is open while the speed exceeds the limit.  These count
    the windows of a sequence of speeds directly, [open] telling
    whether a window is open before the first sample. *)

Fixpoint windows_opened (limit : Q) (open : bool) (speeds : list Q) : nat :=
  match speeds with
  | [] => 0
  | v :: rest =>
      if Qgtb v limit
      then (if open then 0 else 1) + windows_opened limit true rest
      else windows_opened limit false rest
  end.

Fixpoint windows_closed (limit : Q) (open : bool) (speeds : list Q) : nat :=
  match speeds with
  | [] => 0
  | v :: rest =>
      if Qgtb v limit
      then windows_closed limit true rest
      else (if open then 1 else 0) + windows_closed limit false rest
  end.

Fixpoint open_at_end (limit : Q) (open : bool) (speeds : list Q) : bool :=
  match speeds with
  | [] => open
  | v :: rest => open_at_end limit (Qgtb v limit) rest
  end.

(** The speeds measured at the closing ticks, in order: a tick closes
    a window when its speed is not above the limit and a window is
    open. *)
Fixpoint closing_speeds (limit : Q) (open : bool) (speeds : list Q)
    : list Q :=
  match speeds with
  | [] => []
  | v :: rest =>
      if Qgtb v limit then closing_speeds limit true rest
      else (if open then [v] else []) ++ closing_speeds limit false rest
  end.

(** [self.violation_start is not None] *)
Definition is_open (o : TrialManager) : bool :=
  match violation_start o with
  | Some _ => true
  | None => false
  end.

(** A recorded pair whose speed is at or below the limit. *)
Definition within (limit : Q) (p : Q * Q) : Prop := snd p <= limit.

(** The trial state proper: activity, start time, trial code, the
    violation counters and the buffered rows. *)
Definition trial_state (o : TrialManager)
    : bool * option Q * option string * option Q * list (Q * Q) * nat
      * list RunRow :=
  (trial_active o, start_time o, trial_code o, violation_start o,
   violation_durations o, violation_count o, data_to_write o).

(** Everything a trial-lifecycle action can touch: the trial state,
    the arming flag, the end time and results, the clock and code
    draws, the three files and the player. *)
Definition lifecycle (s : Sim) :=
  (trial_state (self s), start_screen (self s), end_time (self s),
   trial_results (self s),
   (max_speed_during_run (self s), min_speed_during_run (self s)),
   (reads (host s), draws (host s)),
   (events_csv (host s), runs_csv (host s), totals_csv (host s)),
   (player (host s), notifications (host s))).

End Trial.

(** ** The controller *)

Module Control.
Local Open Scope R_scope.
Local Open Scope py_scope.

(** *** Numbers *)

(** [a > b] on floats *)
Definition Rgtb (a b : R) : bool := if Rlt_dec b a then true else false.

(** [max(a, b)] and [min(a, b)]: the first argument wins a tie. *)
Definition py_max (a b : R) : R := if Rgtb b a then b else a.
Definition py_min (a b : R) : R := if Rgtb a b then b else a.

(** Nearest integer, ties to the even one. *)
Definition round_half_even (x : R) : Z :=
  let f := Zfloor x in
  let d := x - IZR f in
  if Rlt_dec d (1 / 2) then f
  else if Rlt_dec (1 / 2) d then (f + 1)%Z
  else if Z.even f then f else (f + 1)%Z.

(** [round(x, 1)], on the real number.  Python rounds the double:
    where [x] lies exactly between two tenths (0.05, 0.15, ...), the
    double nearest to it lies to one side and decides, so there the
    program may give the other tenth.  Away from these ties the two
    agree. *)
Definition round1 (x : R) : R := IZR (round_half_even (x * 10)) / 10.

(** [math.log10(x)]: a domain error off the positive reals. *)
Definition math_log10 (x : R) : result R :=
  if Rlt_dec 0 x then Ok (ln x / ln 10) else Raise ValueError.

(** [math.tan(x)] *)
Definition math_tan (x : R) : R := tan x.

(** *** Data *)

(** [carla.VehicleControl] *)
Record VehicleControl := {
  throttle : R;
  steer : R;
  brake : R;
  hand_brake : bool;
  reverse : bool;
  manual_gear_shift : bool;
  gear : Z
}.

(** [carla.VehicleControl()] *)
Definition VehicleControl_default : VehicleControl :=
  {| throttle := 0; steer := 0; brake := 0; hand_brake := false;
     reverse := false; manual_gear_shift := false; gear := 0 |}.

(** [axis_mapping[name]['joystick']] for each control: an axis or
    button number, or [None].  [load_config] starts from a dict for
    each of the seven controls and fills it from the [joy_] options,
    so none is missing; a configuration that replaces one of the dicts
    by a flat option of the same name is left out. *)
Module Axis.
Record t := {
  steering : option Z;
  throttle : option Z;
  brake : option Z;
  reverse : option Z;
  handbrake : option Z;
  hide_hud : option Z;
  toggle_headlights : option Z
}.
End Axis.

(** [key_mapping]: a dict from the name of a control to its key, each
    value already resolved to the key code [pygame.K_<value>], [None]
    when the value names no key.  It holds what the configuration file
    supplies: an entry may be missing. *)
Module KeyMap.
Definition t : Type := dict (option Z).
End KeyMap.

Record DualControl := {
  _autopilot_enabled : bool;
  _control : VehicleControl;
  _steer_cache : R;
  axis_mapping : Axis.t;
  key_mapping : KeyMap.t;
  steering_damping : R;
  throttle_damping : R;
  brake_damping : R;
  joystick : bool
}.

(** [carla.VehicleLightState] bits *)
Definition vls_NONE : Z := 0.
Definition vls_Position : Z := 1.
Definition vls_LowBeam : Z := 2.
Definition vls_HighBeam : Z := 4.
Definition vls_Brake : Z := 8.
Definition vls_Reverse : Z := 64.

(** Calls into the host that leave no trace in the modelled state. *)
Inductive HostCall :=
| Restart
| ToggleInfo
| ToggleHelp
| ToggleCamera
| NextWeather (backwards : bool)
| NextSensor
| SetSensor (index : Z)
| ToggleRecording
| SetAutopilot (on : bool)
| Notification (text : string).

(** The [World] object and the player actor behind it: the actor's
    light state, the gear the actor reports, the commands applied. *)
Record World := {
  headlights_on : bool;
  light_state : Z;
  player_gear : Z;
  applied : list VehicleControl;
  calls : list HostCall
}.

Record Cab := { controller : DualControl; world : World }.

Definition Py := M Cab.

(** *** Attribute assignment *)

Definition set_throttle (v : R) (c : VehicleControl) : VehicleControl :=
  let 'Build_VehicleControl _ a1 a2 a3 a4 a5 a6 := c in
  Build_VehicleControl v a1 a2 a3 a4 a5 a6.

Definition set_steer (v : R) (c : VehicleControl) : VehicleControl :=
  let 'Build_VehicleControl a0 _ a2 a3 a4 a5 a6 := c in
  Build_VehicleControl a0 v a2 a3 a4 a5 a6.

Definition set_brake (v : R) (c : VehicleControl) : VehicleControl :=
  let 'Build_VehicleControl a0 a1 _ a3 a4 a5 a6 := c in
  Build_VehicleControl a0 a1 v a3 a4 a5 a6.

Definition set_hand_brake (v : bool) (c : VehicleControl) : VehicleControl :=
  let 'Build_VehicleControl a0 a1 a2 _ a4 a5 a6 := c in
  Build_VehicleControl a0 a1 a2 v a4 a5 a6.

Definition set_reverse (v : bool) (c : VehicleControl) : VehicleControl :=
  let 'Build_VehicleControl a0 a1 a2 a3 _ a5 a6 := c in
  Build_VehicleControl a0 a1 a2 a3 v a5 a6.

Definition set_manual_gear_shift (v : bool) (c : VehicleControl)
    : VehicleControl :=
  let 'Build_VehicleControl a0 a1 a2 a3 a4 _ a6 := c in
  Build_VehicleControl a0 a1 a2 a3 a4 v a6.

Definition set_gear (v : Z) (c : VehicleControl) : VehicleControl :=
  let 'Build_VehicleControl a0 a1 a2 a3 a4 a5 _ := c in
  Build_VehicleControl a0 a1 a2 a3 a4 a5 v.

Definition set__autopilot_enabled (v : bool) (d : DualControl) : DualControl :=
  let 'Build_DualControl _ a1 a2 a3 a4 a5 a6 a7 a8 := d in
  Build_DualControl v a1 a2 a3 a4 a5 a6 a7 a8.

Definition set__control (v : VehicleControl) (d : DualControl) : DualControl :=
  let 'Build_DualControl a0 _ a2 a3 a4 a5 a6 a7 a8 := d in
  Build_DualControl a0 v a2 a3 a4 a5 a6 a7 a8.

Definition set__steer_cache (v : R) (d : DualControl) : DualControl :=
  let 'Build_DualControl a0 a1 _ a3 a4 a5 a6 a7 a8 := d in
  Build_DualControl a0 a1 v a3 a4 a5 a6 a7 a8.

Definition set_headlights_on (v : bool) (w : World) : World :=
  let 'Build_World _ a1 a2 a3 a4 := w in Build_World v a1 a2 a3 a4.

Definition set_light_state (v : Z) (w : World) : World :=
  let 'Build_World a0 _ a2 a3 a4 := w in Build_World a0 v a2 a3 a4.

Definition set_applied (v : list VehicleControl) (w : World) : World :=
  let 'Build_World a0 a1 a2 _ a4 := w in Build_World a0 a1 a2 v a4.

Definition set_calls (v : list HostCall) (w : World) : World :=
  let 'Build_World a0 a1 a2 a3 _ := w in Build_World a0 a1 a2 a3 v.

(** [self.f] and [self._control.f] *)
Definition attr {A} (f : DualControl -> A) : Py A :=
  gets (fun s => f (controller s)).

Definition ctl {A} (f : VehicleControl -> A) : Py A :=
  gets (fun s => f (_control (controller s))).

Definition assign (f : DualControl -> DualControl) : Py unit :=
  modify (fun s => {| controller := f (controller s); world := world s |}).

(** [self._control.f = v] *)
Definition assign_ctl (f : VehicleControl -> VehicleControl) : Py unit :=
  assign (fun d => set__control (f (_control d)) d).

Definition on_world (f : World -> World) : Py unit :=
  modify (fun s => {| controller := controller s; world := f (world s) |}).

Definition call (c : HostCall) : Py unit :=
  on_world (fun w => set_calls (calls w ++ [c]) w).

(** *** Methods of [World] *)

(** [restart] spawns a new player actor; of that, the model keeps
    [init_vehicle_lights]. *)
Definition init_vehicle_lights : Py unit :=
  on_world (set_light_state (Z.lor vls_NONE vls_Position)).

Definition restart : Py unit :=
  call Restart ;;
  init_vehicle_lights.

Definition toggle_headlights : Py unit :=
  on <- gets (fun s => headlights_on (world s)) ;;
  on_world (set_headlights_on (negb on)) ;;
  ls <- gets (fun s => light_state (world s)) ;;
  if negb on then on_world (set_light_state (Z.lor ls vls_LowBeam))
  else on_world (set_light_state (Z.land ls (Z.lnot vls_LowBeam))).

Definition set_vehicle_light_state (brake_light reverse_light : bool)
    : Py unit :=
  ls <- gets (fun s => light_state (world s)) ;;
  let ls1 := if brake_light then Z.lor ls vls_Brake
             else Z.land ls (Z.lnot vls_Brake) in
  let ls2 := if reverse_light then Z.lor ls1 vls_Reverse
             else Z.land ls1 (Z.lnot vls_Reverse) in
  on_world (set_light_state ls2).

(** [world.player.apply_control(control)] *)
Definition apply_control (c : VehicleControl) : Py unit :=
  on_world (fun w => set_applied (applied w ++ [c]) w).

(** *** Methods of [DualControl] *)

(** The object that [__init__] builds for a vehicle. *)
Definition init (start_in_autopilot : bool) (axes : Axis.t) (keys : KeyMap.t)
    (sd td bd : R) (has_joystick : bool) : DualControl :=
  {| _autopilot_enabled := start_in_autopilot;
     _control := VehicleControl_default;
     _steer_cache := 0;
     axis_mapping := axes;
     key_mapping := keys;
     steering_damping := sd;
     throttle_damping := td;
     brake_damping := bd;
     joystick := has_joystick |}.

(** [m is not None and x == m] *)
Definition bound_to (m : option Z) (x : Z) : bool :=
  match m with
  | Some k => (x =? k)%Z
  | None => false
  end.

Definition KMOD_SHIFT : Z := 3.
Definition KMOD_CTRL : Z := 192.

(** [mods & mask] as a truth value *)
Definition has_mod (mods mask : Z) : bool := negb (Z.land mods mask =? 0)%Z.

(** [self._control.gear = 1 if self._control.reverse else -1] *)
Definition flip_gear : Py unit :=
  r <- ctl reverse ;;
  assign_ctl (set_gear (if r then 1 else -1)%Z).

Definition update_vehicle_lights : Py unit :=
  b <- ctl brake ;;
  g <- ctl gear ;;
  set_vehicle_light_state (Rgtb b 0) (g <? 0)%Z.

Definition _handle_joystick_button (button : Z) : Py unit :=
  axes <- attr axis_mapping ;;
  if bound_to (Axis.reverse axes) button then flip_gear
  else if bound_to (Axis.handbrake axes) button then
    h <- ctl hand_brake ;;
    assign_ctl (set_hand_brake (negb h))
  else if bound_to (Axis.hide_hud axes) button then call ToggleInfo
  else if bound_to (Axis.toggle_headlights axes) button then toggle_headlights
  else if (button =? 0)%Z then restart
  else if (button =? 1)%Z then call ToggleInfo
  else if (button =? 2)%Z then call ToggleCamera
  else if (button =? 3)%Z then call (NextWeather false)
  else if (button =? 23)%Z then call NextSensor
  else ret tt.

Definition _toggle_vehicle_lights : Py unit :=
  ls <- gets (fun s => light_state (world s)) ;;
  if negb (Z.land ls vls_HighBeam =? 0)%Z then
    on_world (set_light_state (Z.land ls (Z.lnot vls_HighBeam)))
  else
    on_world (set_light_state (Z.lor ls vls_HighBeam)).

(** [self.key_mapping[name]] *)
Definition key_for (name : string) : Py (option Z) :=
  keys <- attr key_mapping ;;
  lift (dict_get name keys).

(** The tests of [_handle_key] on [key_mapping], in their order: each
    looks its entry up and compares the key with it. *)
Definition _handle_bound_key (key : Z) : Py unit :=
  k <- key_for "reverse" ;;
  if bound_to k key then flip_gear
  else
    k <- key_for "handbrake" ;;
    if bound_to k key then
      h <- ctl hand_brake ;;
      assign_ctl (set_hand_brake (negb h))
    else
      k <- key_for "hide_hud" ;;
      if bound_to k key then call ToggleInfo
      else
        k <- key_for "toggle_headlights" ;;
        if bound_to k key then toggle_headlights
        else ret tt.

(** The first [if] statement of [_handle_key]: the keys of the world,
    then the bound keys. *)
Definition _handle_world_key (key mods : Z) : Py unit :=
  if (key =? K_BACKSPACE)%Z then restart
  else if (key =? K_F1)%Z then call ToggleInfo
  else if (key =? K_h)%Z || ((key =? K_SLASH)%Z && has_mod mods KMOD_SHIFT)
    then call ToggleHelp
  else if (key =? K_TAB)%Z then call ToggleCamera
  else if (key =? K_c)%Z && has_mod mods KMOD_SHIFT
    then call (NextWeather true)
  else if (key =? K_c)%Z then call (NextWeather false)
  else if (key =? K_BACKQUOTE)%Z then call NextSensor
  else if (K_0 <? key)%Z && (key <=? K_9)%Z
    then call (SetSensor (key - 1 - K_0))
  else if (key =? K_r)%Z then call ToggleRecording
  else _handle_bound_key key.

(** The second [if] statement: the keys of a vehicle. *)
Definition _handle_vehicle_key (key : Z) : Py unit :=
  manual <- ctl manual_gear_shift ;;
  if (key =? K_q)%Z then flip_gear
  else if (key =? K_m)%Z then
    g <- gets (fun s => player_gear (world s)) ;;
    if manual then
      assign_ctl (set_manual_gear_shift false) ;;
      assign_ctl (set_gear g) ;;
      call (Notification "Automatic Transmission")
    else
      assign_ctl (set_manual_gear_shift true) ;;
      assign_ctl (set_gear g) ;;
      call (Notification "Manual Transmission")
  else if manual && (key =? K_COMMA)%Z then
    g <- ctl gear ;;
    assign_ctl (set_gear (Z.max (-1) (g - 1)))
  else if manual && (key =? K_PERIOD)%Z then
    g <- ctl gear ;;
    assign_ctl (set_gear (g + 1))
  else if (key =? K_p)%Z then
    auto <- attr _autopilot_enabled ;;
    assign (set__autopilot_enabled (negb auto)) ;;
    call (SetAutopilot (negb auto)) ;;
    call (Notification (if negb auto then "Autopilot On" else "Autopilot Off"))
  else if (key =? K_l)%Z then _toggle_vehicle_lights
  else ret tt.

Definition _handle_key (key mods : Z) : Py unit :=
  _handle_world_key key mods ;;
  _handle_vehicle_key key.

Definition _parse_vehicle_keys (keys : Keys) (milliseconds : Z) : Py unit :=
  assign_ctl (set_throttle (if keys K_UP || keys K_w then 1 else 0)) ;;
  let steer_increment := 5e-4 * IZR milliseconds in
  cache <- attr _steer_cache ;;
  (if keys K_LEFT || keys K_a then
     assign (set__steer_cache (cache - steer_increment))
   else if keys K_RIGHT || keys K_d then
     assign (set__steer_cache (cache + steer_increment))
   else
     assign (set__steer_cache 0)) ;;
  cache <- attr _steer_cache ;;
  assign (set__steer_cache (py_min 0.7 (py_max (-0.7) cache))) ;;
  cache <- attr _steer_cache ;;
  assign_ctl (set_steer (round1 cache)) ;;
  assign_ctl (set_brake (if keys K_DOWN || keys K_s then 1 else 0)) ;;
  assign_ctl (set_hand_brake (keys K_SPACE)).

(** The pedal curve of [_parse_vehicle_wheel], before the clamp. *)
Definition pedal_curve (damping raw : R) : result R :=
  match math_log10 (-0.7 * raw + 1.4) with
  | Ok l => Ok (damping * (1.6 + (2.05 * l - 1.2) / 0.92))
  | Raise e => Raise e
  end.

(** [max(0, min(1, x))] *)
Definition clamp01 (x : R) : R := py_max 0 (py_min 1 x).

(** The steering, throttle and brake axes, when none of them is
    [None]. *)
Definition wheel_axes (axes : Axis.t) : option (Z * Z * Z) :=
  match Axis.steering axes, Axis.throttle axes, Axis.brake axes with
  | Some steering_axis, Some throttle_axis, Some brake_axis =>
      Some (steering_axis, throttle_axis, brake_axis)
  | _, _, _ => None
  end.

Definition _parse_vehicle_wheel (jsInputs : list R) : Py unit :=
  axes <- attr axis_mapping ;;
  match wheel_axes axes with
  | Some (steering_axis, throttle_axis, brake_axis) =>
      sd <- attr steering_damping ;;
      td <- attr throttle_damping ;;
      bd <- attr brake_damping ;;
      s <- lift (py_index jsInputs steering_axis) ;;
      let steerCmd := sd * math_tan (1.1 * s) in
      t <- lift (py_index jsInputs throttle_axis) ;;
      throttleCmd <- lift (pedal_curve td t) ;;
      b <- lift (py_index jsInputs brake_axis) ;;
      brakeCmd <- lift (pedal_curve bd b) ;;
      let throttleCmd := clamp01 throttleCmd in
      let brakeCmd := clamp01 brakeCmd in
      assign_ctl (set_steer steerCmd) ;;
      assign_ctl (set_brake brakeCmd) ;;
      assign_ctl (set_throttle throttleCmd)
  | None => ret tt
  end.

Definition _is_quit_shortcut (key mods : Z) : bool :=
  (key =? K_ESCAPE)%Z || ((key =? K_q)%Z && has_mod mods KMOD_CTRL).

(** The keys that [_handle_key] takes in its first tests, before it
    looks at [key_mapping]. *)
Definition fixed_key (key mods : Z) : bool :=
  (key =? K_BACKSPACE)%Z || (key =? K_F1)%Z || (key =? K_h)%Z
  || ((key =? K_SLASH)%Z && has_mod mods KMOD_SHIFT)
  || (key =? K_TAB)%Z || (key =? K_c)%Z || (key =? K_BACKQUOTE)%Z
  || ((K_0 <? key)%Z && (key <=? K_9)%Z) || (key =? K_r)%Z.

(** The entries of [key_mapping] that [_handle_key] looks up, in its
    order. *)
Definition bindings : list string :=
  ["reverse"; "handbrake"; "hide_hud"; "toggle_headlights"]%string.

(** All of them are there. *)
Definition configured (keys : KeyMap.t) : bool :=
  forallb (fun name => match dict_get name keys with
                       | Ok _ => true
                       | Raise _ => false
                       end) bindings.

(** What the handling of a press leaves alone: no command goes to the
    host, the configuration, the [reverse] flag and the gear reported
    by the vehicle stay, and the gear stays at -1 or above. *)
Definition press_keeps (s s' : Cab) : Prop :=
  applied (world s') = applied (world s)
  /\ player_gear (world s') = player_gear (world s)
  /\ key_mapping (controller s') = key_mapping (controller s)
  /\ reverse (_control (controller s')) = reverse (_control (controller s))
  /\ ((-1 <= gear (_control (controller s)))%Z ->
      (-1 <= player_gear (world s))%Z ->
      (-1 <= gear (_control (controller s')))%Z).

(** Going through [names] for [key], a missing entry comes before an
    entry bound to [key]. *)
Fixpoint meets_missing (names : list string) (keys : KeyMap.t) (key : Z)
    : bool :=
  match names with
  | [] => false
  | name :: rest =>
      match dict_get name keys with
      | Raise _ => true
      | Ok k => if bound_to k key then false else meets_missing rest keys key
      end
  end.

(** What the per-frame update only reads: the configuration. *)
Definition settings (d : DualControl) :=
  (_autopilot_enabled d, axis_mapping d, key_mapping d,
   steering_damping d, throttle_damping d, brake_damping d, joystick d).

(** Digital mode: no joystick, or an unmapped wheel axis. *)
Definition digital (d : DualControl) : bool :=
  negb (joystick d)
  || match wheel_axes (axis_mapping d) with
     | Some _ => false
     | None => true
     end.

(** The part of [parse_events] that follows the event loop: the
    per-frame update of the command and its hand-over to the host. *)
Definition update_control (keys : Keys) (milliseconds : Z)
    (jsInputs : list R) : Py unit :=
  auto <- attr _autopilot_enabled ;;
  when (negb auto)
    (_parse_vehicle_keys keys milliseconds ;;
     has_joystick <- attr joystick ;;
     when has_joystick (_parse_vehicle_wheel jsInputs) ;;
     g <- ctl gear ;;
     assign_ctl (set_reverse (g <? 0)%Z) ;;
     c <- attr _control ;;
     apply_control c ;;
     update_vehicle_lights).

End Control.

(** ** The loop of [game_loop] *)

Module Game.
Local Open Scope py_scope.

Record State := { cab : Control.Cab; trial : Trial.Sim }.

Definition Py := M State.

(** Run a controller method, or a trial-manager method, on its part of
    the state. *)
Definition in_cab {A} (c : Control.Py A) : Py A :=
  fun s => match c (cab s) with
           | Ok (a, k) => Ok (a, {| cab := k; trial := trial s |})
           | Raise e => Raise e
           end.

Definition in_trial {A} (c : Trial.Py A) : Py A :=
  fun s => match c (trial s) with
           | Ok (a, t) => Ok (a, {| cab := cab s; trial := t |})
           | Raise e => Raise e
           end.

(** [pygame.event.get()] *)
Inductive Event :=
| QUIT
| JOYBUTTONDOWN (button : Z)
| KEYUP (key mods : Z)
| KEYDOWN (key : Z) (unicode : string)
| MOUSEBUTTONDOWN (pos : Z * Z)
| OTHER.

(** The [for] loop of [parse_events]; [true] is its [return True]. *)
Fixpoint event_loop (evs : list Event) : Py bool :=
  match evs with
  | [] => ret false
  | QUIT :: _ => ret true
  | JOYBUTTONDOWN button :: rest =>
      in_cab (Control._handle_joystick_button button) ;;
      event_loop rest
  | KEYUP key mods :: rest =>
      if Control._is_quit_shortcut key mods then ret true
      else in_cab (Control._handle_key key mods) ;; event_loop rest
  | KEYDOWN key unicode :: rest =>
      in_trial (Trial.handle_event (Trial.KEYDOWN key unicode)) ;;
      event_loop rest
  | MOUSEBUTTONDOWN pos :: rest =>
      in_trial (Trial.handle_event (Trial.MOUSEBUTTONDOWN pos)) ;;
      event_loop rest
  | OTHER :: rest => event_loop rest
  end.

(** What the host and the devices supply for one frame. *)
Record Frame := {
  events : list Event;
  pressed : Keys;
  milliseconds : Z;
  jsInputs : list R;
  pose : Trial.Transform;
  speed : Q
}.

Definition parse_events (f : Frame) : Py bool :=
  quit <- event_loop (events f) ;;
  if quit then ret true
  else
    in_cab (Control.update_control (pressed f) (milliseconds f) (jsInputs f)) ;;
    ret false.

(** One pass of the [while True] loop; [true] leaves the loop. *)
Definition game_frame (f : Frame) : Py bool :=
  quit <- parse_events f ;;
  if quit then ret true
  else
    in_trial (Trial.poll_trial_keys (pressed f)) ;;
    in_trial (Trial.on_host (Trial.set_player (pose f))) ;;
    in_trial (Trial.track_speed (speed f)) ;;
    ret false.

Fixpoint game_loop (fs : list Frame) : Py unit :=
  match fs with
  | [] => ret tt
  | f :: rest =>
      quit <- game_frame f ;;
      if quit then ret tt else game_loop rest
  end.

End Game.


(** ** Concrete states *)

Module Demo.
Import Trial.
Local Open Scope Q_scope.

(** The defaults of [ConfigHandler.load_config]. *)
Definition start_pose : Transform :=
  {| location := {| loc_x := 246.3; loc_y := -27; loc_z := 1 |};
     rotation := {| pitch := 0; yaw := -86.76; roll := 0 |} |}.

Definition speed_limit : Q := 45.

(** A host whose clock advances one second per reading. *)
Definition quiet_host : Host :=
  {| wall := fun n => inject_Z (Z.of_nat n);
     reads := 0;
     codes := fun _ => "a1B2c3D4"%string;
     draws := 0;
     player := start_pose;
     notifications := [];
     events_csv := [];
     runs_csv := [];
     totals_csv := [];
     memory_file := None |}.

(** A session that has just begun: Idle. *)
Definition idle : Sim :=
  {| self := init speed_limit start_pose "Zx9Yw8Vu" []; host := quiet_host |}.

Definition after (c : Py unit) (s : Sim) : Sim :=
  match exec c s with
  | Some s' => s'
  | None => s
  end.

(** Armed and started: Running. *)
Definition running : Sim := after (start_trial ;; initiate_trial)%py idle.

(** Running, with a violation window open. *)
Definition speeding : Sim := after (track_speed 50) running.

(** Ended: Finished. *)
Definition finished : Sim := after end_trial running.

End Demo.

Module DemoCab.
Import Control.
Local Open Scope R_scope.

(** No [KeyMapping] section: the [key_mapping] that [load_config]
    starts from. *)
Definition no_keymap : KeyMap.t := [].

(** A [KeyMapping] section with the four entries: reverse on X, the
    handbrake on B, the HUD on I, the headlights on O. *)
Definition bound_keys : KeyMap.t :=
  [("reverse", Some K_x); ("handbrake", Some K_b);
   ("hide_hud", Some K_i); ("toggle_headlights", Some K_o)]%string.

(** No axis or button configured: the defaults of [load_config]. *)
Definition no_axes : Axis.t :=
  {| Axis.steering := None; Axis.throttle := None; Axis.brake := None;
     Axis.reverse := None; Axis.handbrake := None; Axis.hide_hud := None;
     Axis.toggle_headlights := None |}.

(** A wheel: steering on axis 0, the pedals on axes 1 and 2, reverse
    and handbrake on buttons 5 and 4. *)
Definition wheel : Axis.t :=
  {| Axis.steering := Some 0%Z; Axis.throttle := Some 1%Z;
     Axis.brake := Some 2%Z; Axis.reverse := Some 5%Z;
     Axis.handbrake := Some 4%Z; Axis.hide_hud := None;
     Axis.toggle_headlights := None |}.

(** A pad with buttons only: handbrake on button 4. *)
Definition buttons : Axis.t :=
  {| Axis.steering := None; Axis.throttle := None; Axis.brake := None;
     Axis.reverse := Some 5%Z; Axis.handbrake := Some 4%Z;
     Axis.hide_hud := None; Axis.toggle_headlights := None |}.

Definition new_world : World :=
  {| headlights_on := false;
     light_state := vls_Position;
     player_gear := 0;
     applied := [];
     calls := [] |}.

(** Keyboard only, default dampings. *)
Definition keyboard_cab : Cab :=
  {| controller := init false no_axes no_keymap 0.5 1 1 false;
     world := new_world |}.

(** Keyboard only, with the four keys bound. *)
Definition bound_cab : Cab :=
  {| controller := init false no_axes bound_keys 0.5 1 1 false;
     world := new_world |}.

(** A mapped wheel, with [steering_damping] set to 1. *)
Definition wheel_cab : Cab :=
  {| controller := init false wheel no_keymap 1 1 1 true;
     world := new_world |}.

(** A joystick whose wheel axes are not mapped. *)
Definition pad_cab : Cab :=
  {| controller := init false buttons no_keymap 0.5 1 1 true;
     world := new_world |}.

End DemoCab.

(** ** More of the program *)

From Stdlib Require Import DecimalString Qpower.

(** A wall clock that never runs backwards. *)
Definition monotone (w : nat -> Q) : Prop :=
  forall i j, (i <= j)%nat -> (w i <= w j)%Q.

(** *** A run of frames of the controller *)

Module Drive.
Import Control.
Local Open Scope py_scope.

(** What the devices supply for one frame with no event: the keys
    held, the frame time in milliseconds, the axis readings. *)
Definition Frame : Type := Keys * Z * list R.

(** The per-frame update of [parse_events], frame after frame. *)
Fixpoint update_all (frames : list Frame) : Py unit :=
  match frames with
  | [] => ret tt
  | (keys, milliseconds, jsInputs) :: rest =>
      update_control keys milliseconds jsInputs ;;
      update_all rest
  end.

(** The time the frames take together. *)
Definition total_ms (frames : list Frame) : Z :=
  fold_right (fun f acc => (snd (fst f) + acc)%Z) 0%Z frames.

(** A frame with a left-turn key held, and one with a right-turn key
    and no left-turn key held (left wins in [_parse_vehicle_keys]). *)
Definition steers_left (f : Frame) : Prop :=
  let keys := fst (fst f) in
  keys K_LEFT || keys K_a = true /\ (0 <= snd (fst f))%Z.

Definition steers_right (f : Frame) : Prop :=
  let keys := fst (fst f) in
  keys K_LEFT || keys K_a = false
  /\ keys K_RIGHT || keys K_d = true
  /\ (0 <= snd (fst f))%Z.

End Drive.

(** *** Leaving the loop *)

Module Loop.
Import Game.

(** An event that makes [parse_events] return [True]. *)
Definition quits (ev : Event) : Prop :=
  match ev with
  | QUIT => True
  | KEYUP key mods => Control._is_quit_shortcut key mods = true
  | _ => False
  end.






End Loop.

(** *** The trial clock on screen *)

Module TrialScreen.
Import Trial.
Local Open Scope Q_scope.

(** **** Doubles

    A double is read as the rational number it stands for.  An
    operation on doubles gives the double nearest to the exact
    result. *)

(** The exponent of a rational that is not zero: the [e] with
    [2 ^ e <= |x| < 2 ^ (e + 1)]. *)
Definition ilog2 (x : Q) : Z :=
  let g := (Z.log2 (Z.abs (Qnum x)) - Z.log2 (Zpos (Qden x)))%Z in
  if Qle_bool (2 ^ g) (Qabs x) then g else (g - 1)%Z.

(** The double nearest to [x], ties to the even mantissa: 53 bits,
    exponents from -1074 up; overflow is left out. *)
Definition b64 (x : Q) : Q :=
  if Qeq_bool x 0 then 0
  else
    let e := Z.max (ilog2 x - 52) (-1074) in
    inject_Z (round_half_even (x / 2 ^ e)) * 2 ^ e.

(** [2 ^ 53]: up to here every whole number is a double. *)
Definition two53 : Q := 9007199254740992.

(** C's [fmod(a, b)]: exact, with the sign of [a]. *)
Definition fmod (a b : Q) : Q := a - b * inject_Z (py_int (a / b)).

(** [a % b] on floats, for a positive [b], as CPython computes it: a
    negative remainder is brought up by [b], with the rounding of
    that sum. *)
Definition py_fmod (a b : Q) : Q :=
  let r := fmod a b in
  if Qgtb 0 r then b64 (r + b) else r.

(** [a // b] on floats, for a positive [b], as CPython computes it:
    the quotient of [a] less the remainder, one less for a negative
    remainder, snapped to the nearest whole number. *)
Definition py_floordiv (a b : Q) : Q :=
  let r := fmod a b in
  let div := b64 (b64 (a - r) / b) in
  let div := if Qgtb 0 r then b64 (div - 1) else div in
  let floordiv := inject_Z (Qfloor div) in
  if Qgtb (b64 (div - floordiv)) (1 # 2) then b64 (floordiv + 1)
  else floordiv.

(** **** The text *)

(** The decimal digits of a natural number. *)
Definition digits (n : N) : string :=
  NilZero.string_of_uint (N.to_uint n).

(** [f"{n:02}"]: at least two characters, padded with zeros; the sign
    of a negative number counts as one. *)
Definition fmt02 (n : Z) : string :=
  if (n <? 0)%Z then ("-" ++ digits (Z.to_N (- n)))%string
  else
    let d := digits (Z.to_N n) in
    if (String.length d <? 2)%nat then ("0" ++ d)%string else d.

(** The three numbers that [format_time] prints, for a double
    [seconds]. *)
Definition time_fields (seconds : Q) : Z * Z * Z :=
  let milliseconds := py_int (b64 (py_fmod seconds 1 * 100)) in
  let minutes := py_int (py_floordiv seconds 60) in
  let seconds := py_int (py_fmod seconds 60) in
  (minutes, seconds, milliseconds).

Definition format_time (seconds : Q) : string :=
  let '(minutes, seconds, milliseconds) := time_fields seconds in
  (fmt02 minutes ++ ":" ++ fmt02 seconds ++ ":" ++ fmt02 milliseconds)%string.

(** The doubles written [0.03] and [83.4567] in Python. *)
Definition double_0_03 : Q := 1080863910568919 # 36028797018963968.
Definition double_83_4567 : Q := 5872743172212051 # 70368744177664.

End TrialScreen.

(** *** The head-up display *)

Module Hud.
Import Trial.
Local Open Scope Q_scope.

(** The compass letters of [HUD.tick]. *)
Definition heading (yaw : Q) : string :=
  let heading := if Qgtb 89.5 (Qabs yaw) then "N"%string else EmptyString in
  let heading :=
    (heading ++ if Qgtb (Qabs yaw) 90.5 then "S" else EmptyString)%string in
  let heading :=
    (heading ++ if Qgtb 179.5 yaw && Qgtb yaw 0.5
                then "E" else EmptyString)%string in
  (heading ++ if Qgtb (-0.5) yaw && Qgtb yaw (-179.5)
              then "W" else EmptyString)%string.

(** The letter that [calculate_heading_cardinal] returns. *)
Definition letter (c : Cardinal) : ascii :=
  match c with
  | North => "N"%char
  | East => "E"%char
  | South => "S"%char
  | West => "W"%char
  end.

(** [c in s] for a character. *)
Fixpoint occurs (c : ascii) (s : string) : bool :=
  match s with
  | EmptyString => false
  | String a rest => Ascii.eqb a c || occurs c rest
  end.

(** [FadingText]: the notification line.  [alpha] is what the surface
    was last given by [set_alpha], [None] for a surface that has not
    been given any. *)
Record FadingText := {
  text : string;
  seconds_left : Q;
  alpha : option Q
}.

(** [FadingText.set_text(text, seconds=seconds)], which makes a new
    surface. *)
Definition set_text (new_text : string) (seconds : Q) (self : FadingText)
    : FadingText :=
  {| text := new_text; seconds_left := seconds; alpha := None |}.

(** [FadingText.tick(_, clock)], with [clock.get_time()] in
    milliseconds. *)
Definition tick (get_time : Z) (self : FadingText) : FadingText :=
  let delta_seconds := 0.001 * inject_Z get_time in
  let left := py_max 0 (seconds_left self - delta_seconds) in
  {| text := text self; seconds_left := left; alpha := Some (500 * left) |}.

(** The ticks of a run of frames. *)
Definition ticks (times : list Z) (self : FadingText) : FadingText :=
  fold_left (fun t ms => tick ms t) times self.

End Hud.

(** *** The collision sensor and its graph *)

Module Collision.
Import Control.
Local Open Scope R_scope.

Record Vector3D := { x : R; y : R; z : R }.

(** [carla.CollisionEvent]; [other_actor] is the display name of the
    actor hit. *)
Record CollisionEvent := {
  frame : Z;
  other_actor : string;
  normal_impulse : Vector3D
}.

(** [CollisionSensor]: the history, and the actor names notified to
    the HUD. *)
Record CollisionSensor := {
  history : list (Z * R);
  notified : list string
}.

Definition new_sensor : CollisionSensor :=
  {| history := []; notified := [] |}.

(** The intensity that [_on_collision] records. *)
Definition intensity (event : CollisionEvent) : R :=
  let impulse := normal_impulse event in
  sqrt (x impulse ^ 2 + y impulse ^ 2 + z impulse ^ 2).

(** What one event is recorded as. *)
Definition entry (event : CollisionEvent) : Z * R :=
  (frame event, intensity event).

Definition _on_collision (event : CollisionEvent) (self : CollisionSensor)
    : CollisionSensor :=
  let appended := history self ++ [entry event] in
  {| history := if (4000 <? List.length appended)%nat
                then tl appended else appended;
     notified := notified self ++ [other_actor event] |}.

(** The events of a session, oldest first. *)
Definition collisions (events : list CollisionEvent) (self : CollisionSensor)
    : CollisionSensor :=
  fold_left (fun s e => _on_collision e s) events self.

(** [get_collision_history()]: a [defaultdict(int)], read as a total
    function that is 0 off the recorded frames. *)
Definition get_collision_history (self : CollisionSensor) : Z -> R :=
  fold_left
    (fun (history : Z -> R) (entry : Z * R) =>
       let '(frame, intensity) := entry in
       fun k => if (k =? frame)%Z then history k + intensity else history k)
    (history self) (fun _ => 0).

(** The intensities recorded for frame [k], added up. *)
Definition total_at (k : Z) (h : list (Z * R)) : R :=
  fold_right Rplus 0 (map snd (filter (fun p => (fst p =? k)%Z) h)).

(** [max(xs)] of a list: the first of the largest elements. *)
Definition py_max_list (xs : list R) : result R :=
  match xs with
  | [] => Raise ValueError
  | first :: rest =>
      Ok (fold_left (fun m v => if Rgtb v m then v else m) rest first)
  end.

(** [a / b] on floats *)
Definition py_div (a b : R) : result R :=
  if Req_dec_T b 0 then Raise ZeroDivisionError else Ok (a / b).

(** [[f(x) for x in xs]] for an [f] that may raise. *)
Fixpoint comprehension {A B} (f : A -> result B) (xs : list A)
    : result (list B) :=
  match xs with
  | [] => Ok []
  | v :: rest =>
      match f v with
      | Raise e => Raise e
      | Ok b =>
          match comprehension f rest with
          | Raise e => Raise e
          | Ok bs => Ok (b :: bs)
          end
      end
  end.

(** The collision graph of [HUD.tick]: the last 200 frames before
    [frame], scaled by their maximum when that exceeds 1. *)
Definition collision_graph (colhist : Z -> R) (hud_frame : Z)
    : result (list R) :=
  let collision :=
    map (fun i => colhist (Z.of_nat i + hud_frame - 200)%Z) (seq 0 200) in
  match py_max_list collision with
  | Raise e => Raise e
  | Ok m =>
      let max_col := py_max 1 m in
      comprehension (fun v => py_div v max_col) collision
  end.

End Collision.

(** *** The weather presets *)

Module Weather.
Local Open Scope py_scope.

(** The part of [World] that [next_weather] uses, and what it hands to
    the HUD and to the simulator; [WeatherParameters] stands for
    [carla.WeatherParameters]. *)
Record World (WeatherParameters : Type) := {
  _weather_presets : list (WeatherParameters * string);
  _weather_index : Z;
  notified : list string;
  weather : option WeatherParameters
}.
Arguments _weather_presets {WeatherParameters} _.
Arguments _weather_index {WeatherParameters} _.
Arguments notified {WeatherParameters} _.
Arguments weather {WeatherParameters} _.

Definition next_weather {WeatherParameters : Type} (reverse : bool)
    : M (World WeatherParameters) unit :=
  modify (fun w =>
    {| _weather_presets := _weather_presets w;
       _weather_index := (_weather_index w + if reverse then -1 else 1)%Z;
       notified := notified w; weather := weather w |}) ;;
  i <- gets _weather_index ;;
  presets <- gets _weather_presets ;;
  i <- lift (py_mod i (Z.of_nat (List.length presets))) ;;
  modify (fun w =>
    {| _weather_presets := _weather_presets w;
       _weather_index := i;
       notified := notified w; weather := weather w |}) ;;
  preset <- lift (py_index presets i) ;;
  modify (fun w =>
    {| _weather_presets := _weather_presets w;
       _weather_index := _weather_index w;
       notified := notified w ++ [("Weather: " ++ snd preset)%string];
       weather := Some (fst preset) |}).

End Weather.

(** *** The configured key bindings *)

Module Config.
Local Open Scope string_scope.

(** [option[4:]] *)
Definition from4 (option : string) : string :=
  substring 4 (String.length option - 4) option.

(** The [KeyMapping] part of [load_config].  [section] holds the
    options of the section and their values as [ConfigParser] has
    read them, and is [None] when the file has no such section. *)
Definition load_key_mapping (section : option (list (string * string)))
    : dict string :=
  match section with
  | None => []
  | Some options =>
      fold_left
        (fun key_mapping (entry : string * string) =>
           let (option, value) := entry in
           if String.prefix "key_" option
           then dict_set (from4 option) value key_mapping
           else key_mapping)
        options []
  end.

Section Bindings.

(** [getattr(pygame, f'K_{name}', None)] *)
Variable K : string -> option Z.

(** The entries resolved to key codes, as [Control.KeyMap.t] holds
    them. *)
Definition resolve (key_mapping : dict string) : Control.KeyMap.t :=
  map (fun entry : string * string => (fst entry, K (snd entry))) key_mapping.

End Bindings.

End Config.

(** *** The stored names, from session to session *)

Module Names.
Import Trial.

(** What [load_user_names] reads: the names in the memory file, none
    when there is no file. *)
Definition load_user_names (h : Host) : list string :=
  match memory_file h with
  | Some names => names
  | None => []
  end.

(** The trial manager that [__init__] builds on a host, for the
    configured speed limit and start pose: it draws the session code
    and loads the names. *)
Definition new_session (limit : Q) (pose : Transform) (h : Host) : Sim :=
  {| self := init limit pose (codes h (draws h)) (load_user_names h);
     host := set_draws (S (draws h)) h |}.

(** The drop-down list and the memory file hold the same names. *)
Definition in_step (s : Sim) : Prop :=
  load_user_names (host s) = user_names (self s).

(** A step that leaves the names and the memory file alone. *)
Definition keeps_names (s s' : Sim) : Prop :=
  user_names (self s') = user_names (self s)
  /\ memory_file (host s') = memory_file (host s).

End Names.

(** * Properties *)

(** ** Trial manager: one speed sample *)

Module TrialFacts.
Import Trial.
Local Open Scope Q_scope.

Ltac run :=
  cbv [bind ret gets modify when raise lift attr assign on_host
       time_time get_transform record_event generate_code];
  cbn.

Ltac open_state s :=
  let o := fresh "o" in
  let h := fresh "h" in
  destruct s as [o h]; destruct o, h; cbn in *.

Lemma track_speed_idle (v : Q) (s : Sim) :
  trial_active (self s) = false ->
  track_speed v s
  = Ok (tt, {| self := set_current_speed v (self s); host := host s |}).
Proof.
  open_state s. intros ->. reflexivity.
Qed.

(** What one sample does to a running trial. *)
Lemma track_speed_running (v : Q) (s : Sim) (t0 : Q) :
  trial_active (self s) = true ->
  start_time (self s) = Some t0 ->
  exists s',
    track_speed v s = Ok (tt, s')
    /\ trial_active (self s') = true
    /\ start_time (self s') = Some t0
    /\ max_speed (self s') = max_speed (self s)
    /\ wall (host s') = wall (host s)
    /\ if Qgtb v (max_speed (self s)) then
         is_open (self s') = true
         /\ violation_count (self s')
            = (violation_count (self s)
               + if is_open (self s) then 0 else 1)%nat
         /\ violation_durations (self s') = violation_durations (self s)
         /\ events_csv (host s') = events_csv (host s)
       else
         violation_start (self s') = None
         /\ violation_count (self s') = violation_count (self s)
         /\ match violation_start (self s) with
            | Some opened =>
                exists row,
                  violation_durations (self s')
                  = violation_durations (self s)
                    ++ [(wall (host s) (reads (host s)) - opened, v)]
                  /\ events_csv (host s') = events_csv (host s) ++ [row]
                  /\ ev_duration row
                     = wall (host s) (reads (host s)) - opened
            | None =>
                violation_durations (self s') = violation_durations (self s)
                /\ events_csv (host s') = events_csv (host s)
            end.
Proof.
  open_state s. intros -> ->.
  unfold track_speed, check_violation, collect_data, is_open. run.
  destruct (Qgtb v max_speed0) eqn:Ev; cbn;
    destruct violation_start0 as [opened|]; cbn;
    match goal with
    | |- context [Qgeb ?a ?b] => destruct (Qgeb a b)
    end;
    eexists; (split; [reflexivity|]); cbn; repeat split; eauto.
Qed.

Lemma Qgtb_false_le (a b : Q) : Qgtb a b = false -> a <= b.
Proof.
  unfold Qgtb. intros H. apply Qle_bool_iff.
  destruct (Qle_bool a b); [reflexivity | discriminate].
Qed.

Lemma Qgtb_true_lt (a b : Q) : Qgtb a b = true -> b < a.
Proof.
  unfold Qgtb. intros H. apply Qnot_le_lt. intros Hle.
  apply Qle_bool_iff in Hle. rewrite Hle in H. discriminate.
Qed.

Lemma Qgtb_eq (a b : Q) : a == b -> Qgtb a b = false.
Proof.
  intros H. unfold Qgtb.
  assert (Hle : Qle_bool a b = true).
  { apply Qle_bool_iff. rewrite H. apply Qle_refl. }
  rewrite Hle. reflexivity.
Qed.

(** Opened windows are the closed ones and the one still open. *)
Lemma windows_opened_closed (limit : Q) (speeds : list Q) :
  forall open,
    (windows_opened limit open speeds + (if open then 1 else 0)
     = windows_closed limit open speeds
       + (if open_at_end limit open speeds then 1 else 0))%nat.
Proof.
  induction speeds as [|v rest IH]; intros open; cbn.
  - reflexivity.
  - destruct (Qgtb v limit).
    + specialize (IH true). cbn in IH. destruct open; lia.
    + specialize (IH false). cbn in IH. destruct open; lia.
Qed.

(** ** Trial manager: a whole trial *)

Lemma set_player_then (pose : Transform) (c : Py unit) (s : Sim) :
  (on_host (set_player pose) ;; c)%py s
  = c {| self := self s; host := set_player pose (host s) |}.
Proof. reflexivity. Qed.

Lemma track_all_running (samples : list (Transform * Q)) :
  forall (s : Sim) (t0 : Q),
    trial_active (self s) = true ->
    start_time (self s) = Some t0 ->
    exists s',
      track_all samples s = Ok (tt, s')
      /\ trial_active (self s') = true
      /\ start_time (self s') = Some t0
      /\ max_speed (self s') = max_speed (self s)
      /\ violation_count (self s')
         = (violation_count (self s)
            + windows_opened (max_speed (self s)) (is_open (self s))
                (map snd samples))%nat
      /\ List.length (violation_durations (self s'))
         = (List.length (violation_durations (self s))
            + windows_closed (max_speed (self s)) (is_open (self s))
                (map snd samples))%nat
      /\ List.length (events_csv (host s'))
         = (List.length (events_csv (host s))
            + windows_closed (max_speed (self s)) (is_open (self s))
                (map snd samples))%nat
      /\ is_open (self s')
         = open_at_end (max_speed (self s)) (is_open (self s))
             (map snd samples)
      /\ (forall P : Q * Q -> Prop,
             (forall d v,
                 In v (map snd samples) ->
                 v <= max_speed (self s) ->
                 P (d, v)) ->
             Forall P (violation_durations (self s)) ->
             Forall P (violation_durations (self s'))).
Proof.
  induction samples as [|[pose v] rest IH]; intros s t0 Ha Hs.
  - exists s. cbn. repeat split; auto; lia.
  - cbn [track_all]. rewrite set_player_then.
    set (s1 := {| self := self s; host := set_player pose (host s) |}).
    destruct (track_speed_running v s1 t0 Ha Hs)
      as (s2 & E2 & Ha2 & Hs2 & Hm2 & _ & Hstep).
    destruct (IH s2 t0 Ha2 Hs2)
      as (s3 & E3 & Ha3 & Hs3 & Hm3 & Hc3 & Hd3 & He3 & Ho3 & Hw3).
    exists s3. unfold bind at 1. rewrite E2.
    split; [exact E3|].
    change (max_speed (self s1)) with (max_speed (self s)) in *.
    change (violation_start (self s1)) with (violation_start (self s)) in *.
    change (violation_durations (self s1))
      with (violation_durations (self s)) in *.
    change (violation_count (self s1)) with (violation_count (self s)) in *.
    change (is_open (self s1)) with (is_open (self s)) in *.
    assert (Hev1 : events_csv (host s1) = events_csv (host s)).
    { subst s1. destruct s as [o h]. destruct h. reflexivity. }
    rewrite Hev1 in Hstep. clear Hev1.
    rewrite Hm2 in *.
    cbn [map snd windows_opened windows_closed open_at_end].
    destruct (Qgtb v (max_speed (self s))) eqn:Ev.
    + destruct Hstep as (Hop & Hcnt & Hdur & Hevs).
      rewrite Hop, Hcnt, Hdur, Hevs in *.
      repeat split; auto; try lia.
      intros P HP HF. apply (Hw3 P); [|exact HF].
      intros d v' Hin Hle. apply HP; [right; exact Hin | exact Hle].
    + destruct Hstep as (Hvs & Hcnt & Hrest).
      assert (Hop : is_open (self s2) = false)
        by (unfold is_open; rewrite Hvs; reflexivity).
      rewrite Hop, Hcnt in *.
      unfold is_open in *.
      destruct (violation_start (self s)) as [opened|].
      * destruct Hrest as (row & Hdur & Hevs & _).
        rewrite Hdur, Hevs in *. rewrite !length_app in *. cbn in *.
        repeat split; auto; try lia.
        intros P HP HF. apply (Hw3 P).
        { intros d v' Hin Hle. apply HP; [right; exact Hin | exact Hle]. }
        apply Forall_app. split; [exact HF|].
        constructor; [|constructor].
        apply HP; [left; reflexivity | apply Qgtb_false_le; exact Ev].
      * destruct Hrest as (Hdur & Hevs).
        rewrite Hdur, Hevs in *.
        repeat split; auto; try lia.
        intros P HP HF. apply (Hw3 P); [|exact HF].
        intros d v' Hin Hle. apply HP; [right; exact Hin | exact Hle].
Qed.

(** Arming and starting, from any state. *)
Lemma arm_start (s : Sim) :
  exists s1,
    (start_trial ;; initiate_trial)%py s = Ok (tt, s1)
    /\ trial_active (self s1) = true
    /\ start_time (self s1) = Some (wall (host s) (reads (host s)))
    /\ max_speed (self s1) = max_speed (self s)
    /\ violation_start (self s1) = None
    /\ violation_durations (self s1) = []
    /\ violation_count (self s1) = 0%nat
    /\ events_csv (host s1) = events_csv (host s).
Proof.
  open_state s. unfold start_trial, initiate_trial. run.
  eexists. split; [reflexivity|]. cbn. repeat split.
Qed.

(** [calculate_results] returns on every list of violations. *)
Lemma calculate_results_ok (s : Sim) (b e : Q) :
  start_time (self s) = Some b ->
  end_time (self s) = Some e ->
  exists avg dur,
    calculate_results s
    = Ok (tt, {| self :=
                   set_trial_results
                     (Some {| Results.trial_duration := e - b;
                              Results.avg_speed := avg;
                              Results.avg_violation_duration := dur;
                              Results.violation_count :=
                                violation_count (self s) |})
                     (self s);
                 host := host s |})
    /\ match violation_durations (self s) with
       | [] => avg = 0 /\ dur = 0
       | _ :: _ =>
           let n := inject_Z (Z.of_nat
                                (List.length (violation_durations (self s)))) in
           avg = py_sum (map snd (violation_durations (self s))) / n
           /\ dur = py_sum (map fst (violation_durations (self s))) / n
       end.
Proof.
  open_state s. intros -> ->. unfold calculate_results. run.
  destruct violation_durations0 as [|p rest]; cbn.
  - do 2 eexists. split; [reflexivity|]. split; reflexivity.
  - do 2 eexists. split; [reflexivity|]. split; reflexivity.
Qed.

(** Ending a trial that was started. *)
Lemma end_trial_started (s : Sim) (b : Q) :
  start_time (self s) = Some b ->
  exists s' r,
    end_trial s = Ok (tt, s')
    /\ trial_results (self s') = Some r
    /\ Results.violation_count r = violation_count (self s)
    /\ trial_active (self s') = false
    /\ display_results (self s') = true
    /\ violation_count (self s') = violation_count (self s)
    /\ violation_durations (self s') = violation_durations (self s)
    /\ violation_start (self s') = violation_start (self s)
    /\ max_speed (self s') = max_speed (self s)
    /\ events_csv (host s') = events_csv (host s)
    /\ match violation_durations (self s) with
       | [] =>
           Results.avg_speed r = 0 /\ Results.avg_violation_duration r = 0
       | _ :: _ =>
           let n := inject_Z (Z.of_nat
                                (List.length (violation_durations (self s)))) in
           Results.avg_speed r
           = py_sum (map snd (violation_durations (self s))) / n
           /\ Results.avg_violation_duration r
              = py_sum (map fst (violation_durations (self s))) / n
       end.
Proof.
  intros Hb. unfold end_trial.
  set (s1 := {| self := set_end_time (Some (wall (host s) (reads (host s))))
                          (set_trial_active false (self s));
                host := set_reads (S (reads (host s))) (host s) |}).
  assert (Hb1 : start_time (self s1) = Some b).
  { subst s1. open_state s. exact Hb. }
  assert (He1 : end_time (self s1) = Some (wall (host s) (reads (host s)))).
  { subst s1. open_state s. reflexivity. }
  destruct (calculate_results_ok s1 b _ Hb1 He1) as (avg & dur & Ec & Havg).
  assert (Hvd : violation_durations (self s1) = violation_durations (self s)).
  { subst s1. open_state s. reflexivity. }
  rewrite Hvd in Havg.
  assert (E1 : forall k : unit -> Py unit,
             (assign (set_trial_active false) ;;
              now <- time_time ;;
              assign (set_end_time (Some now)) ;; k tt)%py s = k tt s1).
  { intros k. reflexivity. }
  rewrite (E1 (fun _ => (calculate_results ;; _)%py)).
  unfold bind at 1. rewrite Ec.
  subst s1. clear Ec E1 Hb1 He1 Hvd.
  open_state s. subst. unfold write_totals_to_csv. run.
  do 2 eexists. split; [reflexivity|]. cbn.
  repeat split; try reflexivity.
  destruct violation_durations0; exact Havg.
Qed.

Example speeding_has_an_open_window :
  trial_active (self Demo.speeding) = true
  /\ is_open (self Demo.speeding) = true
  /\ violation_count (self Demo.speeding) = 1%nat.
Proof. repeat split. Qed.

Lemma inject_S (n : nat) :
  inject_Z (Z.of_nat (S n)) == 1 + inject_Z (Z.of_nat n).
Proof.
  rewrite Nat2Z.inj_succ. unfold Z.succ. rewrite inject_Z_plus.
  change (inject_Z 1) with 1. ring.
Qed.

(** A sum of values bounded by [limit]. *)
Lemma fold_Qplus_bound (limit : Q) (xs : list Q) :
  Forall (fun x => x <= limit) xs ->
  forall a,
    fold_left Qplus xs a
    <= a + inject_Z (Z.of_nat (List.length xs)) * limit.
Proof.
  induction 1 as [|x rest Hx _ IH]; intros a.
  - cbn [fold_left List.length Z.of_nat]. change (inject_Z 0) with 0. lra.
  - cbn [fold_left List.length]. rewrite inject_S.
    specialize (IH (a + x)). lra.
Qed.

(** The mean of recorded speeds, all within the limit. *)
Lemma mean_within (limit : Q) (vd : list (Q * Q)) :
  Forall (within limit) vd ->
  vd <> [] ->
  py_sum (map snd vd) / inject_Z (Z.of_nat (List.length vd)) <= limit.
Proof.
  intros HF Hne.
  assert (Hpos : 0 < inject_Z (Z.of_nat (List.length vd))).
  { destruct vd as [|p rest]; [congruence|].
    cbn [List.length]. rewrite inject_S.
    assert (0 <= inject_Z (Z.of_nat (List.length rest))).
    { change 0 with (inject_Z 0). rewrite <- Zle_Qle. lia. }
    lra. }
  apply Qle_shift_div_r; [exact Hpos|].
  unfold py_sum.
  assert (HF' : Forall (fun x => x <= limit) (map snd vd)).
  { apply Forall_map. exact HF. }
  pose proof (fold_Qplus_bound limit (map snd vd) HF' 0) as Hb.
  rewrite length_map in Hb. lra.
Qed.

(** ** Trial manager: the claims *)

(** C1, as the code has it.  For every trial (arm, start, any samples,
    end) the [violation_count] of the summary is the number of windows
    that were opened: the closed ones, and one more when a window is
    still open at the end.  The open window leaves no entry in
    [violation_durations] and no event, but its increment of
    [violation_count] stays. *)
Theorem C1_summary_counts_opened_windows
    (s : Sim) (samples : list (Transform * Q)) :
  let limit := max_speed (self s) in
  let speeds := map snd samples in
  exists s' r,
    run_trial samples s = Ok (tt, s')
    /\ trial_results (self s') = Some r
    /\ Results.violation_count r
       = (windows_closed limit false speeds
          + if open_at_end limit false speeds then 1 else 0)%nat
    /\ List.length (violation_durations (self s'))
       = windows_closed limit false speeds
    /\ List.length (events_csv (host s'))
       = (List.length (events_csv (host s))
          + windows_closed limit false speeds)%nat.
Proof.
  intros limit speeds. unfold run_trial.
  destruct (arm_start s)
    as (s1 & E1 & Ha1 & Hs1 & Hm1 & Hv1 & Hd1 & Hc1 & He1).
  destruct (track_all_running samples s1 _ Ha1 Hs1)
    as (s2 & E2 & Ha2 & Hs2 & Hm2 & Hc2 & Hd2 & He2 & Ho2 & _).
  destruct (end_trial_started s2 _ Hs2)
    as (s3 & r & E3 & Hr & Hrc & _ & _ & Hc3 & Hd3 & _ & _ & He3 & _).
  exists s3, r.
  assert (Hopen1 : is_open (self s1) = false)
    by (unfold is_open; rewrite Hv1; reflexivity).
  rewrite Hopen1, Hm1 in *. rewrite Hc1, Hd1, He1 in *.
  fold limit speeds in Hc2, Hd2, He2, Ho2.
  split.
  { change ((start_trial ;; initiate_trial ;; track_all samples ;; end_trial)%py s)
      with (match (start_trial ;; initiate_trial)%py s with
            | Ok (_, a) => (track_all samples ;; end_trial)%py a
            | Raise e => Raise e
            end).
    rewrite E1. unfold bind at 1. rewrite E2. exact E3. }
  split; [exact Hr|].
  pose proof (windows_opened_closed limit speeds false) as Hoc.
  cbn in Hoc, Hc2, Hd2.
  rewrite Hrc, Hd3, He3, Hd2, He2, Hc2.
  repeat split; lia.
Qed.

(** C1, as stated, fails: one sample above the limit, then the end.
    No window was closed, the summary counts one violation. *)
Lemma C1_open_window_is_counted :
  exists s' r,
    run_trial [(Demo.start_pose, 50)] Demo.idle = Ok (tt, s')
    /\ trial_results (self s') = Some r
    /\ windows_closed Demo.speed_limit false [50] = 0%nat
    /\ violation_durations (self s') = []
    /\ events_csv (host s') = []
    /\ Results.violation_count r = 1%nat.
Proof.
  do 2 eexists. split; [vm_compute; reflexivity|].
  repeat split.
Qed.

(** C5.  A sample exactly at the limit, while the trial runs: no
    window is open afterwards, [violation_count] is unchanged, and a
    window that was open is closed with one recorded pair. *)
Theorem C5_speed_at_limit_is_no_violation (v : Q) (s : Sim) (t0 : Q) :
  trial_active (self s) = true ->
  start_time (self s) = Some t0 ->
  v == max_speed (self s) ->
  exists s',
    track_speed v s = Ok (tt, s')
    /\ violation_start (self s') = None
    /\ violation_count (self s') = violation_count (self s)
    /\ match violation_start (self s) with
       | Some opened =>
           violation_durations (self s')
           = violation_durations (self s)
             ++ [(wall (host s) (reads (host s)) - opened, v)]
       | None =>
           violation_durations (self s') = violation_durations (self s)
       end.
Proof.
  intros Ha Hs Hv.
  destruct (track_speed_running v s t0 Ha Hs)
    as (s' & E & _ & _ & _ & _ & Hstep).
  rewrite (Qgtb_eq _ _ Hv) in Hstep.
  destruct Hstep as (Hvs & Hc & Hrest).
  exists s'. repeat split; auto.
  destruct (violation_start (self s)).
  - destruct Hrest as (row & Hd & _). exact Hd.
  - apply Hrest.
Qed.

Lemma C5_speed_at_limit_witness :
  exists s',
    track_speed 45 Demo.speeding = Ok (tt, s')
    /\ violation_start (self s') = None
    /\ violation_count (self s') = violation_count (self Demo.speeding)
    /\ match violation_start (self Demo.speeding) with
       | Some opened =>
           violation_durations (self s')
           = violation_durations (self Demo.speeding)
             ++ [(wall (host Demo.speeding) (reads (host Demo.speeding))
                  - opened, 45)]
       | None =>
           violation_durations (self s')
           = violation_durations (self Demo.speeding)
       end.
Proof.
  apply (C5_speed_at_limit_is_no_violation 45 Demo.speeding 0).
  - reflexivity.
  - reflexivity.
  - reflexivity.
Defined.

(** The speeds recorded by a run of samples are those of the closing
    ticks. *)
Lemma track_all_closing_speeds (samples : list (Transform * Q)) :
  forall (s s' : Sim) (t0 : Q),
    trial_active (self s) = true ->
    start_time (self s) = Some t0 ->
    track_all samples s = Ok (tt, s') ->
    map snd (violation_durations (self s'))
    = map snd (violation_durations (self s))
      ++ closing_speeds (max_speed (self s)) (is_open (self s))
           (map snd samples).
Proof.
  induction samples as [|[pose v] rest IH]; intros s s' t0 Ha Hs E.
  - cbn in E. injection E as <-. cbn. rewrite app_nil_r. reflexivity.
  - cbn [track_all] in E. rewrite set_player_then in E.
    set (s1 := {| self := self s; host := set_player pose (host s) |}) in E.
    destruct (track_speed_running v s1 t0 Ha Hs)
      as (s2 & E2 & Ha2 & Hs2 & Hm2 & _ & Hstep).
    unfold bind in E at 1. rewrite E2 in E.
    rewrite (IH s2 s' t0 Ha2 Hs2 E). rewrite Hm2.
    change (max_speed (self s1)) with (max_speed (self s)) in *.
    change (violation_start (self s1)) with (violation_start (self s)) in *.
    change (violation_durations (self s1))
      with (violation_durations (self s)) in *.
    cbn [map snd closing_speeds].
    destruct (Qgtb v (max_speed (self s))) eqn:Ev.
    + destruct Hstep as (Hop & _ & Hdur & _). rewrite Hop, Hdur. reflexivity.
    + destruct Hstep as (Hvs & _ & Hrest).
      assert (Hop : is_open (self s2) = false)
        by (unfold is_open; rewrite Hvs; reflexivity).
      rewrite Hop. unfold is_open.
      destruct (violation_start (self s)) as [opened|].
      * destruct Hrest as (row & Hdur & _). rewrite Hdur, map_app.
        cbn [map snd]. rewrite <- app_assoc. reflexivity.
      * destruct Hrest as (Hdur & _). rewrite Hdur. reflexivity.
Qed.

(** C9.  In every trial the speeds recorded in [violation_durations]
    are exactly the speeds measured at the closing ticks, in order:
    each window that closes leaves one pair, and the pair carries the
    speed of the tick that closed it, not a speed from inside the
    window.  Each of these speeds is at or below the limit; so the
    average speed of the summary, when there is a pair at all, is a
    mean of speeds at or below the limit. *)
Theorem C9_recorded_speeds_are_within_limit
    (s : Sim) (samples : list (Transform * Q)) :
  exists s' r,
    run_trial samples s = Ok (tt, s')
    /\ trial_results (self s') = Some r
    /\ map snd (violation_durations (self s'))
       = closing_speeds (max_speed (self s)) false (map snd samples)
    /\ Forall (fun p => within (max_speed (self s)) p
                        /\ In (snd p) (map snd samples))
         (violation_durations (self s'))
    /\ (violation_durations (self s') <> [] ->
        Results.avg_speed r
        = py_sum (map snd (violation_durations (self s')))
          / inject_Z (Z.of_nat (List.length (violation_durations (self s'))))
        /\ Results.avg_speed r <= max_speed (self s)).
Proof.
  unfold run_trial.
  destruct (arm_start s)
    as (s1 & E1 & Ha1 & Hs1 & Hm1 & Hv1 & Hd1 & Hc1 & He1).
  destruct (track_all_running samples s1 _ Ha1 Hs1)
    as (s2 & E2 & Ha2 & Hs2 & Hm2 & _ & _ & _ & _ & HF).
  pose proof (track_all_closing_speeds samples s1 s2 _ Ha1 Hs1 E2) as Hcl.
  destruct (end_trial_started s2 _ Hs2)
    as (s3 & r & E3 & Hr & _ & _ & _ & _ & Hd3 & _ & _ & _ & Havg).
  exists s3, r.
  rewrite Hd1, Hm1 in HF.
  assert (Hopen1 : is_open (self s1) = false)
    by (unfold is_open; rewrite Hv1; reflexivity).
  rewrite Hd1, Hm1, Hopen1 in Hcl. cbn [map app] in Hcl.
  specialize (HF (fun p => within (max_speed (self s)) p
                           /\ In (snd p) (map snd samples))).
  assert (HF' : Forall (fun p => within (max_speed (self s)) p
                                 /\ In (snd p) (map snd samples))
                  (violation_durations (self s2))).
  { apply HF; [|constructor].
    intros d v Hin Hle. split; [exact Hle | exact Hin]. }
  clear HF.
  split.
  { change ((start_trial ;; initiate_trial ;; track_all samples ;; end_trial)%py s)
      with (match (start_trial ;; initiate_trial)%py s with
            | Ok (_, a) => (track_all samples ;; end_trial)%py a
            | Raise e => Raise e
            end).
    rewrite E1. unfold bind at 1. rewrite E2. exact E3. }
  split; [exact Hr|].
  rewrite Hd3. split; [exact Hcl|]. split; [exact HF'|].
  intros Hne.
  destruct (violation_durations (self s2)) as [|p rest] eqn:Evd;
    [congruence|].
  destruct Havg as (Havg & _).
  split; [exact Havg|].
  rewrite Havg. apply mean_within; [|congruence].
  eapply Forall_impl; [|exact HF']. intros q (Hq & _). exact Hq.
Qed.

(** A trial with two windows that close: the speeds recorded are those
    of the two closing ticks, 40 and 45, and their mean is the average
    speed of the summary. *)
Lemma C9_recorded_speeds_witness :
  let samples := [(Demo.start_pose, 50); (Demo.start_pose, 40);
                  (Demo.start_pose, 60); (Demo.start_pose, 45);
                  (Demo.start_pose, 30)] in
  exists s' r,
    run_trial samples Demo.idle = Ok (tt, s')
    /\ trial_results (self s') = Some r
    /\ map snd (violation_durations (self s')) = [40; 45]
    /\ Results.avg_speed r == 42.5.
Proof.
  intros samples.
  destruct (C9_recorded_speeds_are_within_limit Demo.idle samples)
    as (s' & r & E & Hr & Hcl & _ & Havg).
  exists s', r. split; [exact E|]. split; [exact Hr|].
  change (closing_speeds (max_speed (self Demo.idle)) false (map snd samples))
    with [40; 45] in Hcl.
  split; [exact Hcl|].
  assert (Hne : violation_durations (self s') <> []).
  { intros E0. rewrite E0 in Hcl. discriminate Hcl. }
  destruct (Havg Hne) as (Hmean & _).
  assert (Hlen : List.length (violation_durations (self s')) = 2%nat).
  { rewrite <- (length_map snd), Hcl. reflexivity. }
  rewrite Hmean, Hcl, Hlen. reflexivity.
Defined.

(** C10.  Ending a trial whose violation list is empty divides by
    nothing: [calculate_results] returns, and both averages of the
    summary are 0. *)
Theorem C10_empty_violation_list_needs_no_division (s : Sim) (b : Q) :
  start_time (self s) = Some b ->
  violation_durations (self s) = [] ->
  (forall e,
      end_time (self s) = Some e ->
      calculate_results s
      = Ok (tt, {| self :=
                     set_trial_results
                       (Some {| Results.trial_duration := e - b;
                                Results.avg_speed := 0;
                                Results.avg_violation_duration := 0;
                                Results.violation_count :=
                                  violation_count (self s) |})
                       (self s);
                   host := host s |}))
  /\ exists s' r,
       end_trial s = Ok (tt, s')
       /\ trial_results (self s') = Some r
       /\ Results.avg_speed r = 0
       /\ Results.avg_violation_duration r = 0.
Proof.
  intros Hb Hvd. split.
  - intros e He.
    destruct (calculate_results_ok s b e Hb He) as (avg & dur & E & Hz).
    rewrite Hvd in Hz. destruct Hz as (-> & ->). exact E.
  - destruct (end_trial_started s b Hb)
      as (s' & r & E & Hr & _ & _ & _ & _ & _ & _ & _ & _ & Havg).
    rewrite Hvd in Havg. destruct Havg as (Ha & Hd).
    exists s', r. repeat split; assumption.
Qed.

Lemma C10_empty_violation_list_witness :
  exists s' r,
    end_trial Demo.running = Ok (tt, s')
    /\ trial_results (self s') = Some r
    /\ Results.avg_speed r = 0
    /\ Results.avg_violation_duration r = 0.
Proof.
  apply (C10_empty_violation_list_needs_no_division Demo.running 0).
  - reflexivity.
  - reflexivity.
Defined.

(** ** Trial manager: key presses *)


Lemma list_index_found (name : string) (names : list string) :
  str_in name names = true -> exists i, list_index name names = Some i.
Proof.
  induction names as [|y rest IH]; cbn; [discriminate|].
  destruct (String.eqb name y); cbn.
  - intros _. eexists. reflexivity.
  - intros H. destruct (IH H) as (i & ->). eexists. reflexivity.
Qed.

Lemma list_index_appended (name : string) (names : list string) :
  exists i, list_index name (names ++ [name]) = Some i.
Proof.
  apply list_index_found. unfold str_in. rewrite existsb_app. cbn.
  rewrite String.eqb_refl. rewrite orb_true_r. reflexivity.
Qed.

Lemma strip_nonempty_not_empty (name : string) :
  strip_nonempty name = true -> String.eqb name EmptyString = false.
Proof. destruct name; [discriminate | reflexivity]. Qed.

#[local] Arguments str_in : simpl never.
#[local] Arguments list_index : simpl never.
#[local] Arguments strip_nonempty : simpl never.

(** Saving a typed name leaves the lifecycle alone. *)
Lemma save_user_name_lifecycle (name : string) (s : Sim) :
  strip_nonempty name = true ->
  exists s',
    save_user_name name s = Ok (tt, s')
    /\ lifecycle s' = lifecycle s
    /\ display_results (self s') = display_results (self s)
    /\ active_input (self s') = active_input (self s)
    /\ dropdown_open (self s') = dropdown_open (self s).
Proof.
  intros Hn. apply strip_nonempty_not_empty in Hn.
  open_state s. unfold save_user_name. run. rewrite Hn. cbn.
  destruct (str_in name user_names0) eqn:Ein; cbn.
  - destruct (list_index_found _ _ Ein) as (i & ->).
    eexists. split; [reflexivity|]. repeat split.
  - destruct (list_index_appended name user_names0) as (i & ->).
    eexists. split; [reflexivity|]. repeat split.
Qed.

#[local] Arguments save_user_name : simpl never.

(** Typing RETURN or SPACE into the name box, or next to it. *)
Lemma handle_name_keys_lifecycle (key : Z) (unicode : string) (s : Sim) :
  key = K_RETURN \/ key = K_SPACE ->
  exists s',
    handle_name_keys key unicode s = Ok (tt, s')
    /\ lifecycle s' = lifecycle s
    /\ display_results (self s') = display_results (self s).
Proof.
  intros Hk. unfold handle_name_keys.
  destruct (active_input (self s)) eqn:Eai.
  - destruct Hk as [-> | ->].
    + destruct (strip_nonempty (new_user_name (self s))) eqn:Es.
      * destruct (save_user_name_lifecycle _ s Es)
          as (s1 & E1 & Hl & Hd & _).
        exists {| self := set_active_input false
                            (set_new_user_name EmptyString (self s1));
                  host := host s1 |}.
        split; [|split; [exact Hl | exact Hd]].
        run. open_state s. subst. cbn in *.
        rewrite Es. cbn. rewrite E1. reflexivity.
      * exists {| self := set_active_input false (self s); host := host s |}.
        split; [|split; reflexivity].
        open_state s. subst. run. rewrite Es. reflexivity.
    + exists {| self := set_new_user_name (new_user_name (self s) ++ unicode)
                          (self s);
                host := host s |}.
      split; [|split; reflexivity].
      open_state s. subst. reflexivity.
  - exists s. split; [|split; reflexivity].
    open_state s. subst. run.
    destruct dropdown_open0; destruct Hk as [-> | ->]; reflexivity.
Qed.

Lemma lifecycle_flags (s s' : Sim) :
  lifecycle s' = lifecycle s ->
  trial_active (self s') = trial_active (self s)
  /\ start_screen (self s') = start_screen (self s).
Proof.
  unfold lifecycle, trial_state. intros H. injection H. intros. auto.
Qed.

Lemma lifecycle_trial_state (s s' : Sim) :
  lifecycle s' = lifecycle s ->
  trial_state (self s') = trial_state (self s).
Proof.
  intros H.
  exact (f_equal (fun t => match t with (a, _, _, _, _, _, _, _) => a end) H).
Qed.

(** The loop's four key tests, when none of them applies. *)
Lemma poll_trial_keys_idle (keys : Keys) (s : Sim) :
  keys K_KP1 = false ->
  keys K_RETURN && start_screen (self s) = false ->
  keys K_SPACE && trial_active (self s) = false ->
  keys K_RETURN && display_results (self s) = false ->
  poll_trial_keys keys s = Ok (tt, s).
Proof.
  intros H1 H2 H3 H4. unfold poll_trial_keys. run.
  open_state s. rewrite H1. cbn. rewrite H2. cbn. rewrite H3. cbn.
  rewrite H4. reflexivity.
Qed.

(** The start key, pressed while no trial is armed. *)
Lemma press_return_unarmed (unicode : string) (s : Sim) :
  start_screen (self s) = false ->
  exists s',
    press K_RETURN unicode s = Ok (tt, s')
    /\ lifecycle s' = lifecycle s
    /\ display_results (self s') = false.
Proof.
  intros Hs. unfold press, handle_event, handle_trial_keys.
  destruct (display_results (self s)) eqn:Ed.
  - exists {| self := set_display_results false (self s); host := host s |}.
    split; [|split; reflexivity].
    open_state s. subst. reflexivity.
  - destruct (handle_name_keys_lifecycle K_RETURN unicode s (or_introl eq_refl))
      as (s1 & E1 & Hl & Hd).
    exists s1. split; [|split; [exact Hl | congruence]].
    destruct (lifecycle_flags _ _ Hl) as (_ & Hs1).
    assert (Ep : poll_trial_keys (holding [K_RETURN]) s1 = Ok (tt, s1)).
    { apply poll_trial_keys_idle; try reflexivity.
      - rewrite Hs1, Hs. reflexivity.
      - rewrite Hd, Ed. reflexivity. }
    run. open_state s. subst. cbn in *. rewrite E1. exact Ep.
Qed.

(** The end key, pressed while no trial runs. *)
Lemma press_space_inactive (unicode : string) (s : Sim) :
  trial_active (self s) = false ->
  exists s',
    press K_SPACE unicode s = Ok (tt, s')
    /\ lifecycle s' = lifecycle s
    /\ display_results (self s') = display_results (self s).
Proof.
  intros Ha. unfold press, handle_event, handle_trial_keys.
  destruct (handle_name_keys_lifecycle K_SPACE unicode s (or_intror eq_refl))
    as (s1 & E1 & Hl & Hd).
  exists s1. split; [|split; assumption].
  destruct (lifecycle_flags _ _ Hl) as (Ha1 & _).
  assert (Ep : poll_trial_keys (holding [K_SPACE]) s1 = Ok (tt, s1)).
  { apply poll_trial_keys_idle; try reflexivity.
    rewrite Ha1, Ha. reflexivity. }
  run. open_state s. subst. cbn in *. rewrite E1. exact Ep.
Qed.

(** C7, as the code has it.  The start key while no trial is armed,
    and the end key while no trial runs, are ignored: the press
    returns without an error and leaves the trial state (activity,
    start time, trial code, violation counters, buffered rows)
    and everything else of the lifecycle as it was. *)
Theorem C7_start_and_end_are_gated (key : Z) (unicode : string) (s : Sim) :
  (key = K_RETURN /\ start_screen (self s) = false)
  \/ (key = K_SPACE /\ trial_active (self s) = false) ->
  exists s',
    press key unicode s = Ok (tt, s')
    /\ trial_state (self s') = trial_state (self s)
    /\ lifecycle s' = lifecycle s.
Proof.
  intros [(-> & Hs) | (-> & Ha)].
  - destruct (press_return_unarmed unicode s Hs) as (s' & E & Hl & _).
    exists s'. repeat split; try assumption.
    apply lifecycle_trial_state. exact Hl.
  - destruct (press_space_inactive unicode s Ha) as (s' & E & Hl & _).
    exists s'. repeat split; try assumption.
    apply lifecycle_trial_state. exact Hl.
Qed.

Lemma C7_start_and_end_witness :
  exists s',
    press K_SPACE " " Demo.idle = Ok (tt, s')
    /\ trial_state (self s') = trial_state (self Demo.idle)
    /\ lifecycle s' = lifecycle Demo.idle.
Proof.
  apply (C7_start_and_end_are_gated K_SPACE " " Demo.idle).
  right. split; reflexivity.
Defined.

(** C7, as stated, fails for arming: the arm key found pressed while a
    trial runs is not ignored, the trial stops being active. *)
Lemma C7_arm_while_running_is_not_ignored :
  trial_active (self Demo.running) = true
  /\ exists s',
       poll_trial_keys (holding [K_KP1]) Demo.running = Ok (tt, s')
       /\ trial_active (self s') = false
       /\ start_screen (self s') = true
       /\ trial_state (self s') <> trial_state (self Demo.running).
Proof.
  split; [reflexivity|].
  eexists. split; [vm_compute; reflexivity|].
  repeat split. discriminate.
Qed.

(** C8.  From Finished, one press of the dismiss key clears the
    results display and nothing else; a second press changes no trial
    state, and neither arms nor starts a trial.  Unless a name is
    being typed into the name box, the second press changes nothing
    at all. *)
Theorem C8_dismiss_results_twice (u1 u2 : string) (s : Sim) :
  display_results (self s) = true ->
  start_screen (self s) = false ->
  trial_active (self s) = false ->
  let s1 := {| self := set_display_results false (self s);
               host := host s |} in
  exists s2,
    press K_RETURN u1 s = Ok (tt, s1)
    /\ press K_RETURN u2 s1 = Ok (tt, s2)
    /\ lifecycle s2 = lifecycle s1
    /\ display_results (self s2) = false
    /\ start_screen (self s2) = false
    /\ trial_active (self s2) = false
    /\ (active_input (self s) = false -> s2 = s1).
Proof.
  intros Hd Hs Ha s1.
  assert (E1 : press K_RETURN u1 s = Ok (tt, s1)).
  { subst s1. open_state s. subst. reflexivity. }
  assert (Hs1 : start_screen (self s1) = false).
  { subst s1. open_state s. exact Hs. }
  assert (Ha1 : trial_active (self s1) = false).
  { subst s1. open_state s. exact Ha. }
  destruct (press_return_unarmed u2 s1 Hs1) as (s2 & E2 & Hl & Hd2).
  exists s2.
  destruct (lifecycle_flags _ _ Hl) as (Ha2 & Hs2).
  split; [exact E1|].
  split; [exact E2|].
  split; [exact Hl|].
  split; [exact Hd2|].
  split; [congruence|].
  split; [congruence|].
  intros Hai.
  assert (E2' : press K_RETURN u2 s1 = Ok (tt, s1)).
  { subst s1. clear E1 E2 Hl Hd2 Ha2 Hs2 Hs1 Ha1.
    open_state s. subst. unfold press, handle_event, handle_trial_keys,
      handle_name_keys, poll_trial_keys. run.
    destruct dropdown_open0; reflexivity. }
  rewrite E2' in E2. injection E2 as <-. reflexivity.
Qed.

Lemma C8_dismiss_results_witness :
  let s1 := {| self := set_display_results false (self Demo.finished);
               host := host Demo.finished |} in
  exists s2,
    press K_RETURN "" Demo.finished = Ok (tt, s1)
    /\ press K_RETURN "" s1 = Ok (tt, s2)
    /\ lifecycle s2 = lifecycle s1
    /\ display_results (self s2) = false
    /\ start_screen (self s2) = false
    /\ trial_active (self s2) = false
    /\ (active_input (self Demo.finished) = false -> s2 = s1).
Proof.
  apply (C8_dismiss_results_twice "" "" Demo.finished).
  - reflexivity.
  - reflexivity.
  - reflexivity.
Defined.

End TrialFacts.

(** ** Controller: the per-frame update *)

Module ControlFacts.
Import Control.
Local Open Scope R_scope.

#[local] Arguments py_index : simpl never.
#[local] Arguments pedal_curve : simpl never.
#[local] Arguments clamp01 : simpl never.
#[local] Arguments round1 : simpl never.
#[local] Arguments py_min : simpl never.
#[local] Arguments py_max : simpl never.
#[local] Arguments math_tan : simpl never.
#[local] Arguments Rgtb : simpl never.
#[local] Arguments IZR : simpl never.
#[local] Arguments Z.lor : simpl never.
#[local] Arguments Z.land : simpl never.
#[local] Arguments Z.lnot : simpl never.
#[local] Arguments Z.ltb : simpl never.

Ltac run :=
  cbv [bind ret gets modify when raise lift attr ctl assign assign_ctl
       on_world call apply_control update_vehicle_lights
       set_vehicle_light_state];
  cbn.

Ltac open_cab s :=
  let d := fresh "d" in
  let w := fresh "w" in
  let c := fresh "c" in
  destruct s as [d w]; destruct d as [? c ? ? ? ? ? ? ?], w; destruct c;
  cbn in *.

(** The clamps. *)
Lemma clamp01_range (x : R) : 0 <= clamp01 x <= 1.
Proof.
  unfold clamp01, py_max, py_min, Rgtb.
  destruct (Rlt_dec x 1); destruct (Rlt_dec 0 _); lra.
Qed.

Lemma steer_clamp_range (x : R) :
  -0.7 <= py_min 0.7 (py_max (-0.7) x) <= 0.7.
Proof.
  unfold py_max, py_min, Rgtb.
  destruct (Rlt_dec (-0.7) x); destruct (Rlt_dec _ 0.7); lra.
Qed.

Lemma steer_clamp_inside (x : R) :
  -0.7 <= x <= 0.7 -> py_min 0.7 (py_max (-0.7) x) = x.
Proof.
  intros H. unfold py_max, py_min, Rgtb.
  destruct (Rlt_dec (-0.7) x); destruct (Rlt_dec _ 0.7); lra.
Qed.

(** Rounding to the nearest integer stays between integer bounds. *)
Lemma round_half_even_between (a b : Z) (x : R) :
  IZR a <= x <= IZR b -> (a <= round_half_even x <= b)%Z.
Proof.
  intros [Ha Hb]. unfold round_half_even.
  pose proof (Zfloor_bound x) as [Hf1 Hf2].
  assert (Hfa : (a <= Zfloor x)%Z) by (apply Zfloor_lub; exact Ha).
  assert (Hfb : (Zfloor x <= b)%Z) by (apply le_IZR; lra).
  destruct (Rlt_dec (x - IZR (Zfloor x)) (1 / 2)) as [Hlt|Hge]; [lia|].
  assert (Hne : Zfloor x <> b).
  { intros E. rewrite E in Hge. lra. }
  destruct (Rlt_dec (1 / 2) (x - IZR (Zfloor x))); [lia|].
  destruct (Z.even (Zfloor x)); lia.
Qed.

Lemma round1_range (x : R) : -0.7 <= x <= 0.7 -> -0.7 <= round1 x <= 0.7.
Proof.
  intros H. unfold round1.
  assert (Hb : (-7 <= round_half_even (x * 10) <= 7)%Z).
  { apply round_half_even_between. lra. }
  destruct Hb as [H1 H2]. apply IZR_le in H1, H2. lra.
Qed.

(** [_parse_vehicle_keys] in closed form. *)
Lemma parse_vehicle_keys_eq (keys : Keys) (ms : Z) (s : Cab) :
  let cache :=
    py_min 0.7
      (py_max (-0.7)
         (if keys K_LEFT || keys K_a
          then _steer_cache (controller s) - 5e-4 * IZR ms
          else if keys K_RIGHT || keys K_d
               then _steer_cache (controller s) + 5e-4 * IZR ms
               else 0)) in
  _parse_vehicle_keys keys ms s
  = Ok (tt,
        {| controller :=
             set__control
               {| throttle := if keys K_UP || keys K_w then 1 else 0;
                  steer := round1 cache;
                  brake := if keys K_DOWN || keys K_s then 1 else 0;
                  hand_brake := keys K_SPACE;
                  reverse := reverse (_control (controller s));
                  manual_gear_shift :=
                    manual_gear_shift (_control (controller s));
                  gear := gear (_control (controller s)) |}
               (set__steer_cache cache (controller s));
           world := world s |}).
Proof.
  open_cab s. unfold _parse_vehicle_keys. run.
  destruct (keys K_LEFT || keys K_a); [|destruct (keys K_RIGHT || keys K_d)];
    reflexivity.
Qed.

(** What [_parse_vehicle_wheel] writes when it returns. *)
Lemma parse_vehicle_wheel_inv (js : list R) (s s' : Cab) :
  _parse_vehicle_wheel js s = Ok (tt, s') ->
  match wheel_axes (axis_mapping (controller s)) with
  | Some (steering_axis, throttle_axis, brake_axis) =>
      exists raw t b,
        py_index js steering_axis = Ok raw
        /\ s' = {| controller :=
                     set__control
                       (set_throttle (clamp01 t)
                          (set_brake (clamp01 b)
                             (set_steer
                                (steering_damping (controller s)
                                 * math_tan (1.1 * raw))
                                (_control (controller s)))))
                       (controller s);
                   world := world s |}
  | None => s' = s
  end.
Proof.
  open_cab s. destruct axis_mapping0 as [st th br rv hb hh tl].
  unfold _parse_vehicle_wheel, wheel_axes.
  destruct st as [i|]; [|run; intros [= <-]; reflexivity].
  destruct th as [j|]; [|run; intros [= <-]; reflexivity].
  destruct br as [k|]; [|run; intros [= <-]; reflexivity].
  run.
  destruct (py_index js i) as [raw|] eqn:Ei; [|discriminate].
  destruct (py_index js j) as [rt|]; [|discriminate].
  destruct (pedal_curve throttle_damping0 rt) as [t|]; [|discriminate].
  destruct (py_index js k) as [rb|]; [|discriminate].
  destruct (pedal_curve brake_damping0 rb) as [b|]; [|discriminate].
  intros [= <-]. exists raw, t, b. split; reflexivity.
Qed.

#[local] Arguments _parse_vehicle_keys : simpl never.
#[local] Arguments _parse_vehicle_wheel : simpl never.

(** The brake and reverse lights leave the beam bits alone. *)
Lemma brake_reverse_keep_beams (ls : Z) (b r : bool) (n : Z) :
  n = 1%Z \/ n = 2%Z ->
  Z.testbit
    (if r
     then Z.lor (if b then Z.lor ls vls_Brake
                 else Z.land ls (Z.lnot vls_Brake)) vls_Reverse
     else Z.land (if b then Z.lor ls vls_Brake
                  else Z.land ls (Z.lnot vls_Brake)) (Z.lnot vls_Reverse))
    n
  = Z.testbit ls n.
Proof.
  intros [-> | ->]; destruct r, b;
    repeat first [ rewrite Z.lor_spec | rewrite Z.land_spec
                 | rewrite Z.lnot_spec by lia ];
    match goal with
    | |- context [Z.testbit ls ?n] => generalize (Z.testbit ls n)
    end;
    intros t; destruct t; reflexivity.
Qed.

(** What one per-frame update leaves behind, when it returns. *)
Lemma update_control_spec (keys : Keys) (ms : Z) (js : list R) (s s' : Cab) :
  _autopilot_enabled (controller s) = false ->
  update_control keys ms js s = Ok (tt, s') ->
  let c := _control (controller s') in
  applied (world s') = applied (world s) ++ [c]
  /\ settings (controller s') = settings (controller s)
  /\ headlights_on (world s') = headlights_on (world s)
  /\ (forall n, n = 1%Z \/ n = 2%Z ->
      Z.testbit (light_state (world s')) n
      = Z.testbit (light_state (world s)) n)
  /\ gear c = gear (_control (controller s))
  /\ manual_gear_shift c = manual_gear_shift (_control (controller s))
  /\ reverse c = (gear c <? 0)%Z
  /\ hand_brake c = keys K_SPACE
  /\ _steer_cache (controller s')
     = py_min 0.7
         (py_max (-0.7)
            (if keys K_LEFT || keys K_a
             then _steer_cache (controller s) - 5e-4 * IZR ms
             else if keys K_RIGHT || keys K_d
                  then _steer_cache (controller s) + 5e-4 * IZR ms
                  else 0))
  /\ 0 <= throttle c <= 1
  /\ 0 <= brake c <= 1
  /\ if digital (controller s)
     then steer c = round1 (_steer_cache (controller s'))
          /\ throttle c = (if keys K_UP || keys K_w then 1 else 0)
          /\ brake c = (if keys K_DOWN || keys K_s then 1 else 0)
     else exists steering_axis throttle_axis brake_axis raw,
            wheel_axes (axis_mapping (controller s))
            = Some (steering_axis, throttle_axis, brake_axis)
            /\ py_index js steering_axis = Ok raw
            /\ steer c
               = steering_damping (controller s) * math_tan (1.1 * raw).
Proof.
  intros Ha E. revert E.
  assert (Hk01 : 0 <= (if keys K_UP || keys K_w then 1 else 0) <= 1)
    by (destruct (keys K_UP || keys K_w); lra).
  assert (Hk02 : 0 <= (if keys K_DOWN || keys K_s then 1 else 0) <= 1)
    by (destruct (keys K_DOWN || keys K_s); lra).
  open_cab s. subst. unfold update_control, digital. run.
  rewrite parse_vehicle_keys_eq. cbn.
  destruct joystick0; cbn.
  - match goal with
    | |- context [_parse_vehicle_wheel js ?S] =>
        destruct (_parse_vehicle_wheel js S) as [[[] s2]|] eqn:E2;
          [|discriminate];
        pose proof (parse_vehicle_wheel_inv js S s2 E2) as Hwheel
    end.
    cbn in Hwheel.
    destruct (wheel_axes axis_mapping0) as [[[i j] k]|].
    + destruct Hwheel as (raw & t & b & Hi & ->).
      intros [= <-]. cbn.
      repeat split; auto using brake_reverse_keep_beams;
        try apply clamp01_range.
      exists i, j, k, raw. auto.
    + subst s2. intros [= <-]. cbn.
      repeat split; auto using brake_reverse_keep_beams; lra.
  - intros [= <-]. cbn.
    repeat split; auto using brake_reverse_keep_beams; lra.
Qed.

(** The update returns in digital mode. *)
Lemma update_control_digital_returns
    (keys : Keys) (ms : Z) (js : list R) (s : Cab) :
  digital (controller s) = true ->
  exists s', update_control keys ms js s = Ok (tt, s').
Proof.
  open_cab s. unfold update_control, digital. cbn. intros Hd. run.
  destruct _autopilot_enabled0; cbn; [eexists; reflexivity|].
  rewrite parse_vehicle_keys_eq. cbn.
  destruct joystick0; cbn; [|eexists; reflexivity].
  cbn in Hd.
  unfold _parse_vehicle_wheel. run.
  destruct (wheel_axes axis_mapping0); [discriminate|].
  cbn. eexists. reflexivity.
Qed.

(** The pedal curve is defined on every raw value below 2. *)
Lemma pedal_curve_defined (damping raw : R) :
  raw < 2 ->
  pedal_curve damping raw
  = Ok (damping
        * (1.6 + (2.05 * (ln (-0.7 * raw + 1.4) / ln 10) - 1.2) / 0.92)).
Proof.
  intros H. unfold pedal_curve, math_log10.
  destruct (Rlt_dec 0 (-0.7 * raw + 1.4)); [reflexivity | lra].
Qed.

(** The update returns in analog mode when the mapped axes exist and
    the pedal readings are below 2. *)
Lemma update_control_wheel_returns
    (keys : Keys) (ms : Z) (js : list R) (s : Cab)
    (i j k : Z) (raw rt rb : R) :
  wheel_axes (axis_mapping (controller s)) = Some (i, j, k) ->
  py_index js i = Ok raw ->
  py_index js j = Ok rt ->
  py_index js k = Ok rb ->
  rt < 2 ->
  rb < 2 ->
  exists s', update_control keys ms js s = Ok (tt, s').
Proof.
  open_cab s. unfold update_control. intros Hw Hi Hj Hk Ht Hb. run.
  destruct _autopilot_enabled0; cbn; [eexists; reflexivity|].
  rewrite parse_vehicle_keys_eq. cbn.
  destruct joystick0; cbn; [|eexists; reflexivity].
  unfold _parse_vehicle_wheel. run.
  rewrite Hw. cbn. rewrite Hi, Hj. cbn.
  rewrite (pedal_curve_defined _ _ Ht). cbn. rewrite Hk. cbn.
  rewrite (pedal_curve_defined _ _ Hb). cbn.
  eexists. reflexivity.
Qed.

Lemma settings_digital (d d' : DualControl) :
  settings d' = settings d ->
  digital d' = digital d /\ _autopilot_enabled d' = _autopilot_enabled d.
Proof.
  destruct d, d'. unfold settings, digital. cbn.
  intros [= -> -> _ _ _ _ ->]. split; reflexivity.
Qed.

Lemma round1_near_zero (x : R) : -0.05 < x < 0.05 -> round1 x = 0.
Proof.
  intros [H1 H2]. unfold round1, round_half_even.
  destruct (Rlt_dec (x * 10) 0) as [Hneg|Hpos].
  - assert (Ef : Zfloor (x * 10) = (-1)%Z) by (apply Zfloor_eq; lra).
    rewrite Ef.
    destruct (Rlt_dec (x * 10 - -1) (1 / 2)); [lra|].
    destruct (Rlt_dec (1 / 2) (x * 10 - -1)); [|lra].
    cbn. lra.
  - assert (Ef : Zfloor (x * 10) = 0%Z) by (apply Zfloor_eq; lra).
    rewrite Ef.
    destruct (Rlt_dec (x * 10 - 0) (1 / 2)); [|lra].
    lra.
Qed.

Lemma not_appended {A} (l : list A) (x : A) : l <> l ++ [x].
Proof.
  intros E. apply (f_equal (@List.length A)) in E.
  rewrite length_app in E. cbn in E. lia.
Qed.

(** ** Controller: the claims *)

(** C2, as the code has it.  Every command that the per-frame update
    hands to the host has throttle and brake in [[0,1]], in both
    modes.  In digital mode its steer is in [[-1,1]] (indeed in
    [[-0.7,0.7]]).  In analog mode its steer is
    [steering_damping * tan(1.1 * raw)], handed over unclamped. *)
Theorem C2_commands_handed_to_host
    (keys : Keys) (ms : Z) (js : list R) (s s' : Cab) (c : VehicleControl) :
  update_control keys ms js s = Ok (tt, s') ->
  applied (world s') = applied (world s) ++ [c] ->
  0 <= throttle c <= 1
  /\ 0 <= brake c <= 1
  /\ (digital (controller s) = true ->
      -0.7 <= steer c <= 0.7 /\ -1 <= steer c <= 1)
  /\ (digital (controller s) = false ->
      exists steering_axis throttle_axis brake_axis raw,
        wheel_axes (axis_mapping (controller s))
        = Some (steering_axis, throttle_axis, brake_axis)
        /\ py_index js steering_axis = Ok raw
        /\ steer c = steering_damping (controller s) * math_tan (1.1 * raw)).
Proof.
  intros E Happ.
  destruct (_autopilot_enabled (controller s)) eqn:Ha.
  - exfalso. revert E Happ. open_cab s. subst. unfold update_control. run.
    intros [= <-]. cbn. apply not_appended.
  - destruct (update_control_spec keys ms js s s' Ha E)
      as (Happ' & _ & _ & _ & _ & _ & _ & _ & Hcache & Ht & Hb & Hmode).
    rewrite Happ in Happ'. apply app_inv_head in Happ'.
    injection Happ' as ->.
    split; [exact Ht|]. split; [exact Hb|].
    destruct (digital (controller s)).
    + split; [|discriminate]. intros _.
      destruct Hmode as (Hs & _). rewrite Hs.
      assert (Hr : -0.7 <= round1 (_steer_cache (controller s')) <= 0.7).
      { apply round1_range. rewrite Hcache. apply steer_clamp_range. }
      lra.
    + split; [discriminate|]. intros _. exact Hmode.
Qed.

Lemma C2_commands_handed_witness :
  exists s' c,
    update_control (holding [K_LEFT]) 16 [] DemoCab.keyboard_cab = Ok (tt, s')
    /\ applied (world s') = applied (world DemoCab.keyboard_cab) ++ [c]
    /\ 0 <= throttle c <= 1
    /\ 0 <= brake c <= 1
    /\ -1 <= steer c <= 1.
Proof.
  destruct (update_control_digital_returns (holding [K_LEFT]) 16 []
              DemoCab.keyboard_cab eq_refl) as (s' & E).
  destruct (update_control_spec _ _ _ DemoCab.keyboard_cab _ eq_refl E)
    as (Happ & _).
  exists s', (_control (controller s')).
  split; [exact E|]. split; [exact Happ|].
  destruct (C2_commands_handed_to_host _ _ _ _ _ _ E Happ)
    as (Ht & Hb & Hd & _).
  split; [exact Ht|]. split; [exact Hb|].
  apply Hd. reflexivity.
Defined.

Lemma tan_1_1_above_1 : 1 < tan 1.1.
Proof.
  rewrite <- tan_PI4.
  pose proof PI_4 as H4. pose proof PI2_3_2 as H32.
  apply tan_increasing; lra.
Qed.

(** C2, as stated, fails in analog mode: with [steering_damping] 1 and
    the wheel fully turned, the command handed to the host has a steer
    above 1. *)
Lemma C2_wheel_steer_exceeds_one :
  exists s' c,
    update_control no_keys 16 [1; 1; 1] DemoCab.wheel_cab = Ok (tt, s')
    /\ applied (world s') = [c]
    /\ 1 < steer c.
Proof.
  destruct (update_control_wheel_returns no_keys 16 [1; 1; 1]
              DemoCab.wheel_cab 0 1 2 1 1 1
              eq_refl eq_refl eq_refl eq_refl) as (s' & E); try lra.
  destruct (update_control_spec _ _ _ DemoCab.wheel_cab _ eq_refl E)
    as (Happ & _ & _ & _ & _ & _ & _ & _ & _ & _ & _ & Hmode).
  exists s', (_control (controller s')).
  split; [exact E|]. split; [exact Happ|].
  cbn in Hmode.
  destruct Hmode as (i & j & k & raw & Hw & Hi & Hs).
  injection Hw as <- <- <-.
  change (py_index [1; 1; 1] 0) with (@Ok R 1) in Hi.
  injection Hi as <-.
  rewrite Hs. unfold math_tan.
  replace (1.1 * 1) with 1.1 by lra.
  pose proof tan_1_1_above_1. lra.
Qed.

(** C4.  For a raw axis value in [[-1,1]] and a positive damping, the
    pedal curve is defined (its logarithm has a positive argument) and
    the clamp brings it into [[0,1]]. *)
Theorem C4_pedal_command_in_unit_interval (raw damping : R) :
  -1 <= raw <= 1 ->
  0 < damping ->
  exists v,
    pedal_curve damping raw = Ok v
    /\ v = damping
           * (1.6 + (2.05 * (ln (-0.7 * raw + 1.4) / ln 10) - 1.2) / 0.92)
    /\ 0 <= clamp01 v <= 1.
Proof.
  intros Hraw Hd. eexists. split.
  - apply pedal_curve_defined. lra.
  - split; [reflexivity | apply clamp01_range].
Qed.

Lemma C4_pedal_command_witness :
  exists v,
    pedal_curve 1 1 = Ok v
    /\ v = 1 * (1.6 + (2.05 * (ln (-0.7 * 1 + 1.4) / ln 10) - 1.2) / 0.92)
    /\ 0 <= clamp01 v <= 1.
Proof.
  apply (C4_pedal_command_in_unit_interval 1 1).
  - lra.
  - lra.
Defined.

(** C6.  In digital mode, from a zero steer accumulator, three frames
    of 16 ms with only the left-turn key held leave the accumulator at
    -3 * 5e-4 * 16 = -0.024, inside the clamp, and the steer handed to
    the host in the third frame is 0. *)
Theorem C6_three_frames_of_left_key (js1 js2 js3 : list R) (s : Cab) :
  _autopilot_enabled (controller s) = false ->
  digital (controller s) = true ->
  _steer_cache (controller s) = 0 ->
  exists s3 c3,
    (update_control (holding [K_LEFT]) 16 js1 ;;
     update_control (holding [K_LEFT]) 16 js2 ;;
     update_control (holding [K_LEFT]) 16 js3)%py s = Ok (tt, s3)
    /\ _steer_cache (controller s3) = -3 * 5e-4 * 16
    /\ _steer_cache (controller s3) = -0.024
    /\ last (applied (world s3)) c3 = _control (controller s3)
    /\ steer (_control (controller s3)) = 0.
Proof.
  intros Ha Hd Hc.
  destruct (update_control_digital_returns (holding [K_LEFT]) 16 js1 s Hd)
    as (s1 & E1).
  destruct (update_control_spec _ _ _ _ _ Ha E1)
    as (_ & Hset1 & _ & _ & _ & _ & _ & _ & Hc1 & _).
  destruct (settings_digital _ _ Hset1) as (Hd1 & Ha1).
  rewrite Hd in Hd1. rewrite Ha in Ha1.
  destruct (update_control_digital_returns (holding [K_LEFT]) 16 js2 s1 Hd1)
    as (s2 & E2).
  destruct (update_control_spec _ _ _ _ _ Ha1 E2)
    as (_ & Hset2 & _ & _ & _ & _ & _ & _ & Hc2 & _).
  destruct (settings_digital _ _ Hset2) as (Hd2 & Ha2).
  rewrite Hd1 in Hd2. rewrite Ha1 in Ha2.
  destruct (update_control_digital_returns (holding [K_LEFT]) 16 js3 s2 Hd2)
    as (s3 & E3).
  destruct (update_control_spec _ _ _ _ _ Ha2 E3)
    as (Happ3 & _ & _ & _ & _ & _ & _ & _ & Hc3 & _ & _ & Hm3).
  rewrite Hd2 in Hm3. destruct Hm3 as (Hs3 & _).
  change (holding [K_LEFT] K_LEFT || holding [K_LEFT] K_a) with true
    in Hc1, Hc2, Hc3.
  cbv iota in Hc1, Hc2, Hc3.
  rewrite Hc in Hc1.
  rewrite steer_clamp_inside in Hc1 by lra.
  rewrite Hc1 in Hc2.
  rewrite steer_clamp_inside in Hc2 by lra.
  rewrite Hc2 in Hc3.
  rewrite steer_clamp_inside in Hc3 by lra.
  exists s3, (_control (controller s3)).
  split.
  { unfold bind. rewrite E1, E2. exact E3. }
  split; [rewrite Hc3; lra|].
  split; [rewrite Hc3; lra|].
  split; [rewrite Happ3; apply last_last|].
  rewrite Hs3. apply round1_near_zero. rewrite Hc3. lra.
Qed.

Lemma C6_three_frames_witness :
  exists s3 c3,
    (update_control (holding [K_LEFT]) 16 [] ;;
     update_control (holding [K_LEFT]) 16 [] ;;
     update_control (holding [K_LEFT]) 16 [])%py DemoCab.keyboard_cab
    = Ok (tt, s3)
    /\ _steer_cache (controller s3) = -3 * 5e-4 * 16
    /\ _steer_cache (controller s3) = -0.024
    /\ last (applied (world s3)) c3 = _control (controller s3)
    /\ steer (_control (controller s3)) = 0.
Proof.
  apply (C6_three_frames_of_left_key [] [] [] DemoCab.keyboard_cab).
  - reflexivity.
  - reflexivity.
  - reflexivity.
Defined.

(** The handbrake button toggles [hand_brake] on; the update of a
    frame with SPACE not held sets it from the SPACE key again. *)
Lemma pad_handbrake_toggle_then_update :
  exists s1 s2,
    _handle_joystick_button 4 DemoCab.pad_cab = Ok (tt, s1)
    /\ hand_brake (_control (controller s1)) = true
    /\ update_control no_keys 16 [] s1 = Ok (tt, s2)
    /\ hand_brake (_control (controller s2)) = false
    /\ last (applied (world s2)) VehicleControl_default
       = _control (controller s2).
Proof.
  eexists. 
  assert (E1 : _handle_joystick_button 4 DemoCab.pad_cab
               = Ok (tt, {| controller :=
                              set__control
                                (set_hand_brake true VehicleControl_default)
                                (controller DemoCab.pad_cab);
                            world := world DemoCab.pad_cab |}))
    by reflexivity.
  match type of E1 with _ = Ok (tt, ?S) => set (s1 := S) in * end.
  destruct (update_control_digital_returns no_keys 16 [] s1 eq_refl)
    as (s2 & E2).
  destruct (update_control_spec _ _ _ s1 _ eq_refl E2)
    as (Happ & _ & _ & _ & _ & _ & _ & Hhb & _).
  exists s2.
  split; [exact E1|]. split; [reflexivity|]. split; [exact E2|].
  split; [exact Hhb|].
  rewrite Happ. apply last_last.
Qed.

(** The same for the key bound to the handbrake: its release toggles
    [hand_brake] on, the update sets it from the SPACE key. *)
Lemma key_handbrake_toggle_then_update :
  exists s1 s2,
    _handle_key K_b 0 DemoCab.bound_cab = Ok (tt, s1)
    /\ hand_brake (_control (controller s1)) = true
    /\ update_control no_keys 16 [] s1 = Ok (tt, s2)
    /\ hand_brake (_control (controller s2)) = false
    /\ applied (world s2) = [_control (controller s2)].
Proof.
  eexists.
  assert (E1 : _handle_key K_b 0 DemoCab.bound_cab
               = Ok (tt, {| controller :=
                              set__control
                                (set_hand_brake true VehicleControl_default)
                                (controller DemoCab.bound_cab);
                            world := world DemoCab.bound_cab |}))
    by reflexivity.
  match type of E1 with _ = Ok (tt, ?S) => set (s1 := S) in * end.
  destruct (update_control_digital_returns no_keys 16 [] s1 eq_refl)
    as (s2 & E2).
  destruct (update_control_spec _ _ _ s1 _ eq_refl E2)
    as (Happ & _ & _ & _ & _ & _ & _ & Hhb & _).
  exists s2.
  split; [exact E1|]. split; [reflexivity|]. split; [exact E2|].
  split; [exact Hhb | exact Happ].
Qed.

End ControlFacts.

(** ** The loop: a key press as one frame *)

Module GameFacts.
Local Open Scope py_scope.


(** C3.  The toggle of the handbrake does not hold.  A press of the
    handbrake button, or the release of the key bound to the
    handbrake, toggles [hand_brake], once per press, as the claim
    says; but the per-frame update that follows in the same call of
    [parse_events] sets [hand_brake] from the SPACE key.  With the
    button or key pressed and SPACE not held, the handler switches
    [hand_brake] on and the update switches it off: the toggle state
    is changed by a tick without a press, and already in the frame of
    the press the command handed to the host has the handbrake off. *)
Lemma C3_hand_brake_is_polled_every_frame :
  (exists s1 s2,
      Control._handle_joystick_button 4 DemoCab.pad_cab = Ok (tt, s1)
      /\ Control.hand_brake (Control._control (Control.controller s1)) = true
      /\ Control.update_control no_keys 16 [] s1 = Ok (tt, s2)
      /\ Control.hand_brake (Control._control (Control.controller s2))
         = false)
  /\ (exists g c,
         Game.parse_events
           {| Game.events := [Game.JOYBUTTONDOWN 4];
              Game.pressed := no_keys;
              Game.milliseconds := 16;
              Game.jsInputs := [];
              Game.pose := Demo.start_pose;
              Game.speed := 0 |}
           {| Game.cab := DemoCab.pad_cab; Game.trial := Demo.idle |}
         = Ok (false, g)
         /\ Control.applied (Control.world (Game.cab g)) = [c]
         /\ Control.hand_brake c = false)
  /\ (exists s1,
         Control._handle_key K_b 0 DemoCab.bound_cab = Ok (tt, s1)
         /\ Control.hand_brake (Control._control (Control.controller s1))
            = true)
  /\ (exists g c,
         Game.parse_events
           {| Game.events := [Game.KEYUP K_b 0];
              Game.pressed := no_keys;
              Game.milliseconds := 16;
              Game.jsInputs := [];
              Game.pose := Demo.start_pose;
              Game.speed := 0 |}
           {| Game.cab := DemoCab.bound_cab; Game.trial := Demo.idle |}
         = Ok (false, g)
         /\ Control.applied (Control.world (Game.cab g)) = [c]
         /\ Control.hand_brake c = false).
Proof.
  destruct ControlFacts.pad_handbrake_toggle_then_update
    as (s1 & s2 & E1 & Hon & E2 & Hhb & _).
  destruct ControlFacts.key_handbrake_toggle_then_update
    as (k1 & k2 & K1 & Kon & K2 & Khb & Kapp).
  split.
  { exists s1, s2. repeat split; assumption. }
  split.
  { assert (Ha : Control._autopilot_enabled (Control.controller s1) = false).
    { revert E1. intros [= <-]. reflexivity. }
    destruct (ControlFacts.update_control_spec _ _ _ _ _ Ha E2)
      as (Happ & _).
    assert (Hw : Control.applied (Control.world s1) = []).
    { revert E1. intros [= <-]. reflexivity. }
    rewrite Hw in Happ.
    exists {| Game.cab := s2; Game.trial := Demo.idle |}.
    exists (Control._control (Control.controller s2)).
    split; [|split; [exact Happ | exact Hhb]].
    unfold Game.parse_events.
    cbn [Game.events Game.pressed Game.milliseconds Game.jsInputs
         Game.event_loop].
    unfold bind, ret, Game.in_cab. cbn [Game.cab Game.trial].
    rewrite E1. cbn [Game.cab Game.trial]. rewrite E2. reflexivity. }
  split.
  { exists k1. split; assumption. }
  exists {| Game.cab := k2; Game.trial := Demo.idle |}.
  exists (Control._control (Control.controller k2)).
  split; [|split; [exact Kapp | exact Khb]].
  unfold Game.parse_events.
  cbn [Game.events Game.pressed Game.milliseconds Game.jsInputs
       Game.event_loop].
  change (Control._is_quit_shortcut K_b 0) with false. cbv iota.
  unfold bind, ret, Game.in_cab. cbn [Game.cab Game.trial].
  rewrite K1. cbn [Game.cab Game.trial]. rewrite K2. reflexivity.
Qed.

End GameFacts.

(** ** Trial manager: more about a trial *)

Module TrialMore.
Import Trial.
Local Open Scope Q_scope.

Ltac run :=
  cbv [bind ret gets modify when raise lift attr assign on_host
       time_time get_transform record_event generate_code];
  cbn.

Ltac open_state s :=
  let o := fresh "o" in
  let h := fresh "h" in
  destruct s as [o h]; destruct o, h; cbn in *.

(** Everything one sample writes in a running trial. *)
Lemma track_speed_detail (v : Q) (s : Sim) (t0 : Q) :
  trial_active (self s) = true ->
  start_time (self s) = Some t0 ->
  exists s',
    track_speed v s = Ok (tt, s')
    /\ (trial_active (self s') = true
        /\ start_time (self s') = Some t0
        /\ max_speed (self s') = max_speed (self s)
        /\ trial_code (self s') = trial_code (self s)
        /\ wall (host s') = wall (host s)
        /\ runs_csv (host s') = runs_csv (host s)
        /\ totals_csv (host s') = totals_csv (host s))
    /\ max_speed_during_run (self s')
       = py_max (max_speed_during_run (self s)) v
    /\ min_speed_during_run (self s')
       = py_min_inf (min_speed_during_run (self s)) v
    /\ (reads (host s) < reads (host s'))%nat
    /\ (data_to_write (self s') = data_to_write (self s)
        \/ exists row k,
             data_to_write (self s') = data_to_write (self s) ++ [row]
             /\ run_trial_code row = trial_code (self s)
             /\ run_speed row = v
             /\ (reads (host s) <= k < reads (host s'))%nat
             /\ inject_Z (Z.of_nat (List.length (data_to_write (self s))))
                * 0.5 <= wall (host s) k - t0)
    /\ if Qgtb v (max_speed (self s)) then
         violation_start (self s')
         = match violation_start (self s) with
           | Some t => Some t
           | None => Some (wall (host s) (reads (host s)))
           end
         /\ violation_durations (self s') = violation_durations (self s)
         /\ events_csv (host s') = events_csv (host s)
       else
         violation_start (self s') = None
         /\ match violation_start (self s) with
            | Some opened =>
                violation_durations (self s')
                = violation_durations (self s)
                  ++ [(wall (host s) (reads (host s)) - opened, v)]
                /\ events_csv (host s')
                   = events_csv (host s)
                     ++ [{| ev_trial_code := trial_code (self s);
                            ev_timestamp :=
                              py_int (wall (host s) (S (reads (host s))));
                            ev_type := "violation";
                            ev_duration :=
                              wall (host s) (reads (host s)) - opened;
                            ev_pose := player (host s) |}]
            | None =>
                violation_durations (self s') = violation_durations (self s)
                /\ events_csv (host s') = events_csv (host s)
            end.
Proof.
  open_state s. intros -> ->.
  unfold track_speed, check_violation, collect_data. run.
  destruct (Qgtb v max_speed0) eqn:Ev; cbn;
    destruct violation_start0 as [opened|]; cbn;
    match goal with
    | |- context [Qgeb ?a ?b] => destruct (Qgeb a b) eqn:Eg
    end;
    eexists; (split; [reflexivity|]); cbn;
    (split; [repeat split|]);
    (split; [reflexivity|]); (split; [reflexivity|]);
    (split; [lia|]);
    (split; [|repeat split]);
    try (left; reflexivity);
    right; eexists; eexists; (split; [reflexivity|]);
    (split; [reflexivity|]); (split; [reflexivity|]);
    (split; [|apply Qle_bool_iff; exact Eg]); lia.
Qed.

Lemma py_max_ge (a v : Q) : a <= py_max a v /\ v <= py_max a v.
Proof.
  unfold py_max. destruct (Qgtb v a) eqn:E.
  - apply TrialFacts.Qgtb_true_lt in E. split; [apply Qlt_le_weak; exact E|].
    apply Qle_refl.
  - apply TrialFacts.Qgtb_false_le in E. split; [apply Qle_refl | exact E].
Qed.

Lemma py_max_pick (a v : Q) : py_max a v = a \/ py_max a v = v.
Proof. unfold py_max. destruct (Qgtb v a); auto. Qed.

Lemma py_min_inf_le (a : option Q) (v : Q) :
  exists m,
    py_min_inf a v = Some m
    /\ m <= v
    /\ (m = v \/ a = Some m)
    /\ (forall a', a = Some a' -> m <= a').
Proof.
  destruct a as [a'|]; cbn.
  - destruct (Qgtb a' v) eqn:E.
    + apply TrialFacts.Qgtb_true_lt in E. exists v.
      repeat split; auto using Qle_refl.
      intros x [= <-]. apply Qlt_le_weak. exact E.
    + apply TrialFacts.Qgtb_false_le in E. exists a'.
      repeat split; auto.
      intros x [= <-]. apply Qle_refl.
  - exists v. repeat split; auto using Qle_refl. discriminate.
Qed.

(** The speed trackers over the samples of a running trial. *)
Lemma track_all_trackers (samples : list (Transform * Q)) :
  forall (s : Sim) (t0 : Q),
    trial_active (self s) = true ->
    start_time (self s) = Some t0 ->
    exists s',
      track_all samples s = Ok (tt, s')
      /\ trial_active (self s') = true
      /\ start_time (self s') = Some t0
      /\ max_speed_during_run (self s) <= max_speed_during_run (self s')
      /\ Forall (fun v => v <= max_speed_during_run (self s'))
           (map snd samples)
      /\ (max_speed_during_run (self s') = max_speed_during_run (self s)
          \/ In (max_speed_during_run (self s')) (map snd samples))
      /\ match min_speed_during_run (self s') with
         | Some m =>
             Forall (fun v => m <= v) (map snd samples)
             /\ (min_speed_during_run (self s) = Some m
                 \/ In m (map snd samples))
             /\ (forall m0, min_speed_during_run (self s) = Some m0 ->
                            m <= m0)
         | None => samples = [] /\ min_speed_during_run (self s) = None
         end.
Proof.
  induction samples as [|[pose v] rest IH]; intros s t0 Ha Hs.
  - exists s. cbn. repeat split; auto using Qle_refl.
    destruct (min_speed_during_run (self s)) eqn:Em; repeat split; auto.
    intros m0 [= <-]. apply Qle_refl.
  - cbn [track_all]. rewrite TrialFacts.set_player_then.
    set (s1 := {| self := self s; host := set_player pose (host s) |}).
    destruct (track_speed_detail v s1 t0 Ha Hs)
      as (s2 & E2 & (Ha2 & Hs2 & _) & Hmax & Hmin & _).
    change (max_speed_during_run (self s1))
      with (max_speed_during_run (self s)) in *.
    change (min_speed_during_run (self s1))
      with (min_speed_during_run (self s)) in *.
    destruct (IH s2 t0 Ha2 Hs2)
      as (s3 & E3 & Ha3 & Hs3 & Hle3 & Hall3 & Hpick3 & Hmin3).
    exists s3. unfold bind at 1. rewrite E2.
    split; [exact E3|]. split; [exact Ha3|]. split; [exact Hs3|].
    rewrite Hmax in *.
    destruct (py_max_ge (max_speed_during_run (self s)) v) as (Hge1 & Hge2).
    cbn [map snd].
    split; [eapply Qle_trans; eassumption|].
    split.
    { constructor; [eapply Qle_trans; eassumption | exact Hall3]. }
    split.
    { destruct Hpick3 as [Hp|Hp].
      - rewrite Hp.
        destruct (py_max_pick (max_speed_during_run (self s)) v) as [->| ->];
          [left; reflexivity | right; left; reflexivity].
      - right. right. exact Hp. }
    destruct (py_min_inf_le (min_speed_during_run (self s)) v)
      as (m2 & Em2 & Hm2v & Hm2pick & Hm2le).
    rewrite Hmin, Em2 in Hmin3.
    destruct (min_speed_during_run (self s3)) as [m|].
    + destruct Hmin3 as (Hall & Hpick & Hle).
      assert (Hmm2 : m <= m2) by (apply Hle; reflexivity).
      split.
      { constructor; [eapply Qle_trans; eassumption | exact Hall]. }
      split.
      { destruct Hpick as [[= <-]|Hin].
        - destruct Hm2pick as [->|Hp]; [right; left; reflexivity|].
          left. exact Hp.
        - right. right. exact Hin. }
      intros m0 Hm0. eapply Qle_trans; [exact Hmm2|]. apply Hm2le. exact Hm0.
    + destruct Hmin3 as (_ & Hnone). discriminate.
Qed.

(** Arming and starting, field by field. *)
Lemma arm_start_detail (s : Sim) :
  exists s1,
    (start_trial ;; initiate_trial)%py s = Ok (tt, s1)
    /\ trial_active (self s1) = true
    /\ start_time (self s1) = Some (wall (host s) (reads (host s)))
    /\ max_speed (self s1) = max_speed (self s)
    /\ violation_start (self s1) = None
    /\ violation_durations (self s1) = []
    /\ violation_count (self s1) = 0%nat
    /\ max_speed_during_run (self s1) = 0
    /\ min_speed_during_run (self s1) = None
    /\ trial_code (self s1) = Some (codes (host s) (draws (host s)))
    /\ data_to_write (self s1) = data_to_write (self s)
    /\ wall (host s1) = wall (host s)
    /\ reads (host s1) = S (reads (host s))
    /\ events_csv (host s1) = events_csv (host s)
    /\ runs_csv (host s1) = runs_csv (host s)
    /\ totals_csv (host s1) = totals_csv (host s).
Proof.
  open_state s. unfold start_trial, initiate_trial. run.
  eexists. split; [reflexivity|]. cbn. repeat split.
Qed.

(** Ending a started trial, field by field. *)
Lemma end_trial_detail (s : Sim) (b : Q) :
  start_time (self s) = Some b ->
  exists s' r tot,
    end_trial s = Ok (tt, s')
    /\ trial_results (self s') = Some r
    /\ Results.trial_duration r = wall (host s) (reads (host s)) - b
    /\ Results.violation_count r = violation_count (self s)
    /\ violation_durations (self s') = violation_durations (self s)
    /\ violation_count (self s') = violation_count (self s)
    /\ max_speed_during_run (self s') = max_speed_during_run (self s)
    /\ min_speed_during_run (self s') = min_speed_during_run (self s)
    /\ trial_code (self s') = trial_code (self s)
    /\ data_to_write (self s') = []
    /\ events_csv (host s') = events_csv (host s)
    /\ runs_csv (host s') = runs_csv (host s) ++ data_to_write (self s)
    /\ totals_csv (host s') = totals_csv (host s) ++ [tot]
    /\ tot_trial_code tot = trial_code (self s)
    /\ tot_user_name tot = user_name (self s)
    /\ tot_violation_count tot = violation_count (self s)
    /\ tot_duration tot = wall (host s) (reads (host s)) - b
    /\ tot_max_speed tot = round2 (max_speed_during_run (self s))
    /\ tot_min_speed tot = option_map round2 (min_speed_during_run (self s)).
Proof.
  intros Hb. unfold end_trial.
  set (s1 := {| self := set_end_time (Some (wall (host s) (reads (host s))))
                          (set_trial_active false (self s));
                host := set_reads (S (reads (host s))) (host s) |}).
  assert (Hb1 : start_time (self s1) = Some b).
  { subst s1. open_state s. exact Hb. }
  assert (He1 : end_time (self s1) = Some (wall (host s) (reads (host s)))).
  { subst s1. open_state s. reflexivity. }
  destruct (TrialFacts.calculate_results_ok s1 b _ Hb1 He1)
    as (avg & dur & Ec & _).
  assert (E1 : forall k : unit -> Py unit,
             (assign (set_trial_active false) ;;
              now <- time_time ;;
              assign (set_end_time (Some now)) ;; k tt)%py s = k tt s1).
  { intros k. reflexivity. }
  rewrite (E1 (fun _ => (calculate_results ;; _)%py)).
  unfold bind at 1. rewrite Ec.
  subst s1. clear Ec E1 Hb1 He1.
  open_state s. subst. unfold write_totals_to_csv. run.
  do 3 eexists. split; [reflexivity|]. cbn.
  repeat split; reflexivity.
Qed.

Lemma run_trial_steps (samples : list (Transform * Q)) (s s1 s2 : Sim) :
  (start_trial ;; initiate_trial)%py s = Ok (tt, s1) ->
  track_all samples s1 = Ok (tt, s2) ->
  run_trial samples s = end_trial s2.
Proof.
  intros E1 E2. unfold run_trial.
  change ((start_trial ;; initiate_trial ;; track_all samples ;;
           end_trial)%py s)
    with (match (start_trial ;; initiate_trial)%py s with
          | Ok (_, a) => (track_all samples ;; end_trial)%py a
          | Raise e => Raise e
          end).
  rewrite E1. unfold bind at 1. rewrite E2. reflexivity.
Qed.

(** X1.  Over a whole trial the speed trackers bracket the samples:
    every sample speed lies between [min_speed_during_run] and
    [max_speed_during_run].  The maximum is 0 or one of the sample
    speeds; the minimum is one of the sample speeds, and still
    [float('inf')] when the trial had no sample. *)
Theorem X1_speed_trackers_bracket_samples
    (s : Sim) (samples : list (Transform * Q)) :
  exists s',
    run_trial samples s = Ok (tt, s')
    /\ 0 <= max_speed_during_run (self s')
    /\ Forall (fun v => v <= max_speed_during_run (self s'))
         (map snd samples)
    /\ (max_speed_during_run (self s') = 0
        \/ In (max_speed_during_run (self s')) (map snd samples))
    /\ match min_speed_during_run (self s') with
       | Some m =>
           Forall (fun v => m <= v) (map snd samples)
           /\ In m (map snd samples)
       | None => samples = []
       end.
Proof.
  destruct (arm_start_detail s)
    as (s1 & E1 & Ha1 & Hs1 & _ & _ & _ & _ & Hmax1 & Hmin1 & _).
  destruct (track_all_trackers samples s1 _ Ha1 Hs1)
    as (s2 & E2 & _ & Hs2 & Hle & Hall & Hpick & Hmin).
  destruct (end_trial_detail s2 _ Hs2)
    as (s3 & r & tot & E3 & _ & _ & _ & _ & _ & Hmax3 & Hmin3 & _).
  exists s3. rewrite (run_trial_steps _ _ _ _ E1 E2).
  split; [exact E3|].
  rewrite Hmax3, Hmin3. rewrite Hmax1 in *. rewrite Hmin1 in Hmin.
  split; [exact Hle|]. split; [exact Hall|]. split; [exact Hpick|].
  destruct (min_speed_during_run (self s2)) as [m|].
  - destruct Hmin as (Hm & [Hp|Hp] & _); [discriminate|].
    split; assumption.
  - apply Hmin.
Qed.

(** The rows and events that the samples of a running trial add. *)
Lemma track_all_streams (samples : list (Transform * Q)) :
  forall (s : Sim) (t0 : Q),
    trial_active (self s) = true ->
    start_time (self s) = Some t0 ->
    exists s' rows evs durs,
      track_all samples s = Ok (tt, s')
      /\ (trial_active (self s') = true
          /\ start_time (self s') = Some t0
          /\ trial_code (self s') = trial_code (self s)
          /\ runs_csv (host s') = runs_csv (host s)
          /\ totals_csv (host s') = totals_csv (host s))
      /\ data_to_write (self s') = data_to_write (self s) ++ rows
      /\ (List.length rows <= List.length samples)%nat
      /\ Forall (fun row => run_trial_code row = trial_code (self s)
                            /\ In (run_speed row) (map snd samples)) rows
      /\ events_csv (host s') = events_csv (host s) ++ evs
      /\ violation_durations (self s') = violation_durations (self s) ++ durs
      /\ map ev_duration evs = map fst durs
      /\ Forall (fun e => ev_type e = "violation"%string
                          /\ ev_trial_code e = trial_code (self s)) evs.
Proof.
  induction samples as [|[pose v] rest IH]; intros s t0 Ha Hs.
  - exists s, [], [], []. cbn. rewrite !app_nil_r.
    repeat split; auto.
  - cbn [track_all]. rewrite TrialFacts.set_player_then.
    set (s1 := {| self := self s; host := set_player pose (host s) |}).
    destruct (track_speed_detail v s1 t0 Ha Hs)
      as (s2 & E2 & (Ha2 & Hs2 & _ & Hcode2 & _ & Hruns2 & Htot2)
          & _ & _ & _ & Hrows & Hviol).
    assert (Hr1 : runs_csv (host s1) = runs_csv (host s)).
    { subst s1. destruct s as [o h]. destruct h. reflexivity. }
    assert (Ht1 : totals_csv (host s1) = totals_csv (host s)).
    { subst s1. destruct s as [o h]. destruct h. reflexivity. }
    assert (He1 : events_csv (host s1) = events_csv (host s)).
    { subst s1. destruct s as [o h]. destruct h. reflexivity. }
    change (trial_code (self s1)) with (trial_code (self s)) in *.
    change (data_to_write (self s1)) with (data_to_write (self s)) in *.
    change (violation_durations (self s1))
      with (violation_durations (self s)) in *.
    change (violation_start (self s1)) with (violation_start (self s)) in *.
    change (max_speed (self s1)) with (max_speed (self s)) in *.
    rewrite Hr1 in Hruns2. rewrite Ht1 in Htot2. rewrite He1 in Hviol.
    destruct (IH s2 t0 Ha2 Hs2)
      as (s3 & rows & evs & durs & E3 & (Ha3 & Hs3 & Hcode3 & Hruns3 & Htot3)
          & Hd3 & Hlen3 & Hrows3 & Hev3 & Hdur3 & Hmap3 & Htype3).
    rewrite Hcode2 in *.
    assert (Hrows3' :
      Forall (fun row => run_trial_code row = trial_code (self s)
                         /\ In (run_speed row) (map snd ((pose, v) :: rest)))
        rows).
    { eapply Forall_impl; [|exact Hrows3].
      intros row (Hc & Hin). split; [exact Hc | right; exact Hin]. }
    assert (Eall : (track_speed v ;; track_all rest)%py s1 = Ok (tt, s3)).
    { unfold bind at 1. rewrite E2. exact E3. }
    assert (Hframe : trial_active (self s3) = true
                     /\ start_time (self s3) = Some t0
                     /\ trial_code (self s3) = trial_code (self s)
                     /\ runs_csv (host s3) = runs_csv (host s)
                     /\ totals_csv (host s3) = totals_csv (host s)).
    { repeat split; congruence. }
    assert (Hstream :
      exists evs' durs',
        events_csv (host s3) = events_csv (host s) ++ evs'
        /\ violation_durations (self s3)
           = violation_durations (self s) ++ durs'
        /\ map ev_duration evs' = map fst durs'
        /\ Forall (fun e => ev_type e = "violation"%string
                            /\ ev_trial_code e = trial_code (self s)) evs').
    { destruct (Qgtb v (max_speed (self s))).
      - destruct Hviol as (_ & Hd & He). rewrite Hd in Hdur3.
        rewrite He in Hev3. exists evs, durs. auto.
      - destruct Hviol as (_ & Hrest).
        destruct (violation_start (self s)) as [opened|].
        + destruct Hrest as (Hd & He). rewrite Hd in Hdur3.
          rewrite He in Hev3. rewrite <- app_assoc in Hdur3, Hev3.
          eexists. eexists. split; [exact Hev3|]. split; [exact Hdur3|].
          split; [cbn; f_equal; exact Hmap3|].
          constructor; [split; reflexivity | exact Htype3].
        + destruct Hrest as (Hd & He). rewrite Hd in Hdur3.
          rewrite He in Hev3. exists evs, durs. auto. }
    destruct Hstream as (evs' & durs' & Hev' & Hdur' & Hmap' & Htype').
    destruct Hrows as [Hsame | (row & k & Hrow & Hrc & Hrs & _)].
    + rewrite Hsame in Hd3.
      exists s3, rows, evs', durs'.
      split; [exact Eall|]. split; [exact Hframe|].
      split; [exact Hd3|]. split; [cbn; lia|].
      split; [exact Hrows3'|]. auto.
    + rewrite Hrow in Hd3. rewrite <- app_assoc in Hd3.
      exists s3, ([row] ++ rows), evs', durs'.
      split; [exact Eall|]. split; [exact Hframe|].
      split; [exact Hd3|]. split; [cbn; lia|].
      split; [|auto].
      constructor; [|exact Hrows3'].
      split; [exact Hrc | left; symmetry; exact Hrs].
Qed.

(** X2.  In every trial the events file and [violation_durations]
    agree: the trial appends one event row per recorded pair, in the
    same order and with the same duration, each of type "violation"
    and carrying the trial's code. *)
Theorem X2_events_match_recorded_violations
    (s : Sim) (samples : list (Transform * Q)) :
  exists s' evs,
    run_trial samples s = Ok (tt, s')
    /\ events_csv (host s') = events_csv (host s) ++ evs
    /\ map ev_duration evs = map fst (violation_durations (self s'))
    /\ Forall (fun e => ev_type e = "violation"%string
                        /\ ev_trial_code e = trial_code (self s')) evs.
Proof.
  destruct (arm_start_detail s)
    as (s1 & E1 & Ha1 & Hs1 & _ & _ & Hd1 & _ & _ & _ & Hcode1 & _ & _ & _
        & He1 & _).
  destruct (track_all_streams samples s1 _ Ha1 Hs1)
    as (s2 & rows & evs & durs & E2 & (_ & Hs2 & Hcode2 & _) & _ & _ & _
        & Hev & Hdur & Hmap & Htype).
  destruct (end_trial_detail s2 _ Hs2)
    as (s3 & r & tot & E3 & _ & _ & _ & Hd3 & _ & _ & _ & Hcode3 & _ & He3
        & _).
  exists s3, evs. rewrite (run_trial_steps _ _ _ _ E1 E2).
  split; [exact E3|].
  rewrite He3, Hev, He1. split; [reflexivity|].
  rewrite Hd3, Hdur, Hd1. cbn [app]. split; [exact Hmap|].
  rewrite Hcode3, Hcode2. exact Htype.
Qed.

(** X3.  Ending a trial writes the buffered rows to the runs file in
    order, empties the buffer and appends one totals row.  The rows of
    the trial itself come at most one per sample, carry the trial's
    code and a sample's speed; rows still buffered when the trial was
    armed ([initiate_trial] does not clear the buffer) are written
    ahead of them. *)
Theorem X3_end_of_trial_flushes_the_buffer
    (s : Sim) (samples : list (Transform * Q)) :
  exists s' rows tot,
    run_trial samples s = Ok (tt, s')
    /\ runs_csv (host s')
       = runs_csv (host s) ++ data_to_write (self s) ++ rows
    /\ data_to_write (self s') = []
    /\ (List.length rows <= List.length samples)%nat
    /\ Forall (fun row => run_trial_code row = trial_code (self s')
                          /\ In (run_speed row) (map snd samples)) rows
    /\ totals_csv (host s') = totals_csv (host s) ++ [tot]
    /\ tot_trial_code tot = trial_code (self s')
    /\ tot_violation_count tot = violation_count (self s').
Proof.
  destruct (arm_start_detail s)
    as (s1 & E1 & Ha1 & Hs1 & _ & _ & _ & _ & _ & _ & Hcode1 & Hbuf1 & _ & _
        & _ & Hruns1 & Htot1).
  destruct (track_all_streams samples s1 _ Ha1 Hs1)
    as (s2 & rows & evs & durs & E2 & (_ & Hs2 & Hcode2 & Hruns2 & Htot2)
        & Hbuf2 & Hlen & Hrows & _).
  destruct (end_trial_detail s2 _ Hs2)
    as (s3 & r & tot & E3 & _ & _ & _ & _ & Hc3 & _ & _ & Hcode3 & Hbuf3 & _
        & Hruns3 & Htot3 & Htc & _ & Htv & _).
  exists s3, rows, tot. rewrite (run_trial_steps _ _ _ _ E1 E2).
  split; [exact E3|].
  split; [rewrite Hruns3, Hruns2, Hruns1, Hbuf2, Hbuf1; reflexivity|].
  split; [exact Hbuf3|]. split; [exact Hlen|].
  rewrite Hcode3, Hcode2.
  split; [exact Hrows|].
  split; [rewrite Htot3, Htot2, Htot1; reflexivity|].
  split; [rewrite Htc; exact Hcode2|]. rewrite Hc3. exact Htv.
Qed.

(** The clock readings behind a running trial, under a clock that
    never runs backwards. *)
Lemma track_all_clock (samples : list (Transform * Q)) :
  forall (s : Sim) (t0 : Q),
    trial_active (self s) = true ->
    start_time (self s) = Some t0 ->
    monotone (wall (host s)) ->
    (forall t, violation_start (self s) = Some t ->
               exists k, (k < reads (host s))%nat /\ t = wall (host s) k) ->
    Forall (fun p => 0 <= fst p) (violation_durations (self s)) ->
    exists s',
      track_all samples s = Ok (tt, s')
      /\ wall (host s') = wall (host s)
      /\ (reads (host s) <= reads (host s'))%nat
      /\ Forall (fun p => 0 <= fst p) (violation_durations (self s'))
      /\ ((data_to_write (self s) = []
           \/ exists k,
                (k < reads (host s))%nat
                /\ inject_Z
                     (Z.of_nat (List.length (data_to_write (self s)) - 1))
                   * 0.5 <= wall (host s) k - t0) ->
          data_to_write (self s') = []
          \/ exists k,
               (k < reads (host s'))%nat
               /\ inject_Z
                    (Z.of_nat (List.length (data_to_write (self s')) - 1))
                  * 0.5 <= wall (host s) k - t0).
Proof.
  induction samples as [|[pose v] rest IH];
    intros s t0 Ha Hs Hmono Hvs Hdur.
  - exists s. cbn. repeat split; auto.
  - cbn [track_all]. rewrite TrialFacts.set_player_then.
    set (s1 := {| self := self s; host := set_player pose (host s) |}).
    destruct (track_speed_detail v s1 t0 Ha Hs)
      as (s2 & E2 & (Ha2 & Hs2 & _ & _ & Hw2 & _) & _ & _ & Hreads
          & Hrows & Hviol).
    assert (Hw1 : wall (host s1) = wall (host s)).
    { subst s1. destruct s as [o h]. destruct h. reflexivity. }
    assert (Hr1 : reads (host s1) = reads (host s)).
    { subst s1. destruct s as [o h]. destruct h. reflexivity. }
    change (data_to_write (self s1)) with (data_to_write (self s)) in *.
    change (violation_durations (self s1))
      with (violation_durations (self s)) in *.
    change (violation_start (self s1)) with (violation_start (self s)) in *.
    change (max_speed (self s1)) with (max_speed (self s)) in *.
    rewrite Hw1 in *. rewrite Hr1 in *.
    assert (Hvs2 : forall t, violation_start (self s2) = Some t ->
                     exists k, (k < reads (host s2))%nat
                               /\ t = wall (host s2) k).
    { intros t Ht. rewrite Hw2.
      destruct (Qgtb v (max_speed (self s))).
      - destruct Hviol as (Hv & _). rewrite Hv in Ht.
        destruct (violation_start (self s)) as [t'|].
        + destruct (Hvs t' eq_refl) as (k & Hk & Ek).
          exists k. split; [lia | congruence].
        + injection Ht as <-. exists (reads (host s)). split; [lia|].
          reflexivity.
      - destruct Hviol as (Hv & _). rewrite Hv in Ht. discriminate. }
    assert (Hdur2 : Forall (fun p => 0 <= fst p)
                      (violation_durations (self s2))).
    { destruct (Qgtb v (max_speed (self s))).
      - destruct Hviol as (_ & Hd & _). rewrite Hd. exact Hdur.
      - destruct Hviol as (_ & Hrest).
        destruct (violation_start (self s)) as [opened|].
        + destruct Hrest as (Hd & _). rewrite Hd.
          apply Forall_app. split; [exact Hdur|].
          constructor; [|constructor]. cbn.
          destruct (Hvs opened eq_refl) as (k & Hk & ->).
          assert (wall (host s) k <= wall (host s) (reads (host s)))
            by (apply Hmono; lia).
          lra.
        + destruct Hrest as (Hd & _). rewrite Hd. exact Hdur. }
    assert (Hmono2 : monotone (wall (host s2))) by (rewrite Hw2; exact Hmono).
    destruct (IH s2 t0 Ha2 Hs2 Hmono2 Hvs2 Hdur2)
      as (s3 & E3 & Hw3 & Hr3 & Hdur3 & Hbuf3).
    exists s3. unfold bind at 1. rewrite E2.
    split; [exact E3|]. rewrite Hw2 in *.
    split; [exact Hw3|]. split; [lia|]. split; [exact Hdur3|].
    intros Hbuf. apply Hbuf3.
    destruct Hrows as [Hsame | (row & k & Hrow & _ & _ & Hk & Hgate)].
    + rewrite Hsame. destruct Hbuf as [Hb | (k & Hk & Hg)]; [left; exact Hb|].
      right. exists k. split; [lia | exact Hg].
    + right. exists k. split; [lia|].
      rewrite Hrow, length_app. cbn [List.length].
      replace (List.length (data_to_write (self s)) + 1 - 1)%nat
        with (List.length (data_to_write (self s))) by lia.
      exact Hgate.
Qed.

Lemma py_sum_nonneg (xs : list Q) :
  Forall (fun x => 0 <= x) xs -> forall a, 0 <= a -> 0 <= fold_left Qplus xs a.
Proof.
  induction 1 as [|x rest Hx _ IH]; intros a Ha; cbn [fold_left].
  - exact Ha.
  - apply IH. lra.
Qed.

Lemma len_positive {A} (x : A) (xs : list A) :
  0 < inject_Z (Z.of_nat (List.length (x :: xs))).
Proof.
  cbn [List.length]. rewrite TrialFacts.inject_S.
  assert (0 <= inject_Z (Z.of_nat (List.length xs))).
  { change 0 with (inject_Z 0). rewrite <- Zle_Qle. lia. }
  lra.
Qed.

(** X4.  Under a wall clock that never runs backwards, a trial
    records no negative time: every violation duration, their average
    and the trial duration are at least 0. *)
Theorem X4_durations_are_not_negative
    (s : Sim) (samples : list (Transform * Q)) :
  monotone (wall (host s)) ->
  exists s' r,
    run_trial samples s = Ok (tt, s')
    /\ trial_results (self s') = Some r
    /\ Forall (fun p => 0 <= fst p) (violation_durations (self s'))
    /\ 0 <= Results.avg_violation_duration r
    /\ 0 <= Results.trial_duration r.
Proof.
  intros Hmono.
  destruct (arm_start_detail s)
    as (s1 & E1 & Ha1 & Hs1 & _ & Hv1 & Hd1 & _ & _ & _ & _ & _ & Hw1 & Hr1
        & _).
  assert (Hmono1 : monotone (wall (host s1))) by (rewrite Hw1; exact Hmono).
  destruct (track_all_clock samples s1 _ Ha1 Hs1 Hmono1)
    as (s2 & E2 & Hw2 & Hr2 & Hdur2 & _).
  { intros t Ht. rewrite Hv1 in Ht. discriminate. }
  { rewrite Hd1. constructor. }
  assert (Hs2 : start_time (self s2)
                = Some (wall (host s) (reads (host s)))).
  { destruct (track_all_streams samples s1 _ Ha1 Hs1)
      as (s2' & ? & ? & ? & E2' & (_ & Hs2' & _) & _).
    rewrite E2 in E2'. injection E2' as <-. exact Hs2'. }
  destruct (end_trial_detail s2 _ Hs2)
    as (s3 & r & tot & E3 & Hr & Hdur & _ & Hd3 & _).
  destruct (TrialFacts.end_trial_started s2 _ Hs2)
    as (s3' & r' & E3' & Hr' & _ & _ & _ & _ & _ & _ & _ & _ & Havg).
  rewrite E3 in E3'. injection E3' as <-. rewrite Hr in Hr'.
  injection Hr' as <-.
  exists s3, r. rewrite (run_trial_steps _ _ _ _ E1 E2).
  split; [exact E3|]. split; [exact Hr|].
  rewrite Hd3. split; [exact Hdur2|].
  split.
  - destruct (violation_durations (self s2)) as [|p rest] eqn:Evd.
    + destruct Havg as (_ & ->). apply Qle_refl.
    + destruct Havg as (_ & ->).
      apply Qle_shift_div_l; [apply len_positive|].
      unfold py_sum. apply (Qle_trans _ 0); [lra|].
      apply py_sum_nonneg; [|apply Qle_refl].
      apply Forall_map. exact Hdur2.
  - rewrite Hdur. rewrite Hw2, Hw1.
    assert (wall (host s) (reads (host s)) <= wall (host s) (reads (host s2))).
    { apply Hmono. rewrite Hr1 in Hr2. lia. }
    lra.
Qed.

Lemma X4_durations_witness :
  exists s' r,
    run_trial [(Demo.start_pose, 50); (Demo.start_pose, 40)] Demo.idle
    = Ok (tt, s')
    /\ trial_results (self s') = Some r
    /\ Forall (fun p => 0 <= fst p) (violation_durations (self s'))
    /\ 0 <= Results.avg_violation_duration r
    /\ 0 <= Results.trial_duration r.
Proof.
  apply (X4_durations_are_not_negative Demo.idle).
  intros i j Hij. cbn. rewrite <- Zle_Qle. lia.
Defined.

(** X5.  The sampler takes at most one row per half second.  Under a
    clock that never runs backwards, a trial that was armed with an
    empty buffer writes [n] rows only if it lasted at least
    [(n - 1) / 2] seconds. *)
Theorem X5_at_most_one_row_per_half_second
    (s : Sim) (samples : list (Transform * Q)) :
  monotone (wall (host s)) ->
  data_to_write (self s) = [] ->
  exists s' r rows,
    run_trial samples s = Ok (tt, s')
    /\ trial_results (self s') = Some r
    /\ runs_csv (host s') = runs_csv (host s) ++ rows
    /\ inject_Z (Z.of_nat (List.length rows))
       <= 2 * Results.trial_duration r + 1.
Proof.
  intros Hmono Hempty.
  destruct (arm_start_detail s)
    as (s1 & E1 & Ha1 & Hs1 & _ & Hv1 & Hd1 & _ & _ & _ & _ & Hbuf1 & Hw1
        & Hr1 & _ & Hruns1 & _).
  assert (Hmono1 : monotone (wall (host s1))) by (rewrite Hw1; exact Hmono).
  destruct (track_all_clock samples s1 _ Ha1 Hs1 Hmono1)
    as (s2 & E2 & Hw2 & Hr2 & _ & Hbuf2).
  { intros t Ht. rewrite Hv1 in Ht. discriminate. }
  { rewrite Hd1. constructor. }
  specialize (Hbuf2 (or_introl (eq_trans Hbuf1 Hempty))).
  destruct (track_all_streams samples s1 _ Ha1 Hs1)
    as (s2' & rows & ? & ? & E2' & (_ & Hs2 & _ & Hruns2 & _) & Hrows & _).
  rewrite E2 in E2'. injection E2' as <-.
  rewrite Hbuf1, Hempty in Hrows. cbn [app] in Hrows.
  destruct (end_trial_detail s2 _ Hs2)
    as (s3 & r & tot & E3 & Hr & Hdur & _ & _ & _ & _ & _ & _ & _ & _
        & Hruns3 & _).
  exists s3, r, rows. rewrite (run_trial_steps _ _ _ _ E1 E2).
  split; [exact E3|]. split; [exact Hr|].
  split; [rewrite Hruns3, Hruns2, Hruns1, Hrows; reflexivity|].
  rewrite Hdur, Hw2, Hw1. rewrite Hrows in Hbuf2.
  assert (Hstart : wall (host s) (reads (host s))
                   <= wall (host s) (reads (host s2))).
  { apply Hmono. rewrite Hr1 in Hr2. lia. }
  destruct Hbuf2 as [-> | (k & Hk & Hg)].
  - cbn [List.length Z.of_nat]. change (inject_Z 0) with 0. lra.
  - rewrite Hw1 in Hg.
    assert (Hkend : wall (host s) k <= wall (host s) (reads (host s2))).
    { apply Hmono. lia. }
    destruct rows as [|row rest].
    + cbn [List.length Z.of_nat]. change (inject_Z 0) with 0. lra.
    + cbn [List.length] in Hg |- *.
      replace (S (List.length rest) - 1)%nat with (List.length rest) in Hg
        by lia.
      rewrite TrialFacts.inject_S. lra.
Qed.

Lemma X5_row_rate_witness :
  exists s' r rows,
    run_trial [(Demo.start_pose, 50); (Demo.start_pose, 40)] Demo.idle
    = Ok (tt, s')
    /\ trial_results (self s') = Some r
    /\ runs_csv (host s') = runs_csv (host Demo.idle) ++ rows
    /\ inject_Z (Z.of_nat (List.length rows))
       <= 2 * Results.trial_duration r + 1.
Proof.
  apply (X5_at_most_one_row_per_half_second Demo.idle).
  - intros i j Hij. cbn. rewrite <- Zle_Qle. lia.
  - reflexivity.
Defined.

(** ** Trial manager: the name box *)

Lemma py_index_in_range {A} (xs : list A) (i : Z) :
  (0 <= i < Z.of_nat (List.length xs))%Z ->
  exists x, py_index xs i = Ok x /\ nth_error xs (Z.to_nat i) = Some x.
Proof.
  intros Hi. unfold py_index.
  destruct (i <? 0)%Z eqn:E0; [apply Z.ltb_lt in E0; lia|].
  rewrite E0. cbn.
  destruct (Z.of_nat (List.length xs) <=? i)%Z eqn:E1;
    [apply Z.leb_le in E1; lia|].
  destruct (nth_error xs (Z.to_nat i)) as [x|] eqn:En.
  - exists x. split; reflexivity.
  - apply nth_error_None in En. lia.
Qed.

Lemma list_index_nth (name : string) (names : list string) (i : Z) :
  list_index name names = Some i ->
  (0 <= i < Z.of_nat (List.length names))%Z
  /\ nth_error names (Z.to_nat i) = Some name.
Proof.
  revert i. induction names as [|y rest IH]; intros i; cbn [list_index].
  - discriminate.
  - destruct (String.eqb name y) eqn:E.
    + intros [= <-]. apply String.eqb_eq in E. subst y.
      cbn. split; [lia | reflexivity].
    + destruct (list_index name rest) as [j|]; [|discriminate].
      cbn. intros [= <-]. destruct (IH j eq_refl) as (Hj & Hn).
      split; [cbn [List.length]; lia|].
      rewrite Z2Nat.inj_succ by lia. cbn. exact Hn.
Qed.

Lemma str_in_In (name : string) (names : list string) :
  str_in name names = true <-> In name names.
Proof.
  unfold str_in. rewrite existsb_exists. split.
  - intros (y & Hy & E). apply String.eqb_eq in E. subst. exact Hy.
  - intros H. exists name. split; [exact H | apply String.eqb_refl].
Qed.

#[local] Arguments str_in : simpl never.
#[local] Arguments list_index : simpl never.
#[local] Arguments strip_nonempty : simpl never.
#[local] Arguments py_index : simpl never.
#[local] Arguments py_mod : simpl never.

(** X6.  Saving a non-empty name keeps the stored names in order and
    free of duplicates: a known name is only selected, a new one is
    appended and written to the memory file.  Afterwards the name is
    the current user and the selected index points at it. *)
Theorem X6_saved_names_stay_distinct (name : string) (s : Sim) :
  name <> EmptyString ->
  exists s' i,
    save_user_name name s = Ok (tt, s')
    /\ user_name (self s') = name
    /\ selected_name_index (self s') = i
    /\ nth_error (user_names (self s')) (Z.to_nat i) = Some name
    /\ (0 <= i < Z.of_nat (List.length (user_names (self s'))))%Z
    /\ (NoDup (user_names (self s)) -> NoDup (user_names (self s')))
    /\ (if str_in name (user_names (self s))
        then user_names (self s') = user_names (self s)
             /\ memory_file (host s') = memory_file (host s)
        else user_names (self s') = user_names (self s) ++ [name]
             /\ memory_file (host s') = Some (user_names (self s'))).
Proof.
  intros Hne.
  assert (Hn : String.eqb name EmptyString = false).
  { destruct (String.eqb name EmptyString) eqn:E; [|reflexivity].
    apply String.eqb_eq in E. contradiction. }
  open_state s. unfold save_user_name. run. rewrite Hn. cbn.
  destruct (str_in name user_names0) eqn:Ein; cbn.
  - destruct (TrialFacts.list_index_found _ _ Ein) as (i & Ei).
    rewrite Ei. destruct (list_index_nth _ _ _ Ei) as (Hr & Hnth).
    eexists. exists i. split; [reflexivity|]. cbn.
    repeat split; auto; lia.
  - destruct (TrialFacts.list_index_appended name user_names0) as (i & Ei).
    rewrite Ei. destruct (list_index_nth _ _ _ Ei) as (Hr & Hnth).
    eexists. exists i. split; [reflexivity|]. cbn.
    repeat split; auto; try lia.
    intros Hnd. apply NoDup_app; [exact Hnd | repeat constructor; cbn; tauto|].
    intros x Hx [<-|[]].
    apply str_in_In in Hx. congruence.
Qed.

Lemma X6_saved_names_witness :
  exists s' i,
    save_user_name "ada" Demo.idle = Ok (tt, s')
    /\ user_name (self s') = "ada"%string
    /\ selected_name_index (self s') = i
    /\ nth_error (user_names (self s')) (Z.to_nat i) = Some "ada"%string
    /\ (0 <= i < Z.of_nat (List.length (user_names (self s'))))%Z
    /\ (NoDup (user_names (self Demo.idle)) -> NoDup (user_names (self s')))
    /\ (if str_in "ada" (user_names (self Demo.idle))
        then user_names (self s') = user_names (self Demo.idle)
             /\ memory_file (host s') = memory_file (host Demo.idle)
        else user_names (self s')
             = user_names (self Demo.idle) ++ ["ada"%string]
             /\ memory_file (host s') = Some (user_names (self s'))).
Proof.
  apply (X6_saved_names_stay_distinct "ada" Demo.idle).
  discriminate.
Defined.

#[local] Arguments save_user_name : simpl never.
#[local] Arguments collidepoint : simpl never.

Lemma dropdown_row_in_range (left top width rows x y : Z) :
  collidepoint left top width (rows * 32) (x, y) = true ->
  (0 <= (y - top) / 32 < rows)%Z.
Proof.
  unfold collidepoint. rewrite !andb_true_iff.
  rewrite !Z.leb_le, !Z.ltb_lt. intros (((_ & _) & Hy1) & Hy2).
  split.
  - apply Z.div_pos; lia.
  - apply Z.div_lt_upper_bound; lia.
Qed.

(** X7.  A mouse click never raises and never touches the trial: it
    only moves the name box, the drop-down list and the stored names
    (a click on the open list always falls on an existing row, so the
    lookup of the clicked name cannot fail). *)
Theorem X7_mouse_clicks_never_raise (pos : Z * Z) (s : Sim) :
  exists s',
    handle_event (MOUSEBUTTONDOWN pos) s = Ok (tt, s')
    /\ lifecycle s' = lifecycle s
    /\ display_results (self s') = display_results (self s).
Proof.
  destruct pos as [x y].
  assert (Hsave :
    strip_nonempty (new_user_name (self s)) = true ->
    exists s1,
      save_user_name (new_user_name (self s)) s = Ok (tt, s1)
      /\ lifecycle s1 = lifecycle s
      /\ display_results (self s1) = display_results (self s)).
  { intros Es.
    destruct (TrialFacts.save_user_name_lifecycle _ s Es)
      as (s1 & E1 & Hl & Hd & _).
    exists s1. auto. }
  assert (Hrow :
    collidepoint 540 442 200
      (Z.of_nat (List.length (user_names (self s))) * 32) (x, y) = true ->
    exists name,
      py_index (user_names (self s)) ((y - 442) / 32) = Ok name).
  { intros Ein.
    pose proof (dropdown_row_in_range _ _ _ _ _ _ Ein) as Hr.
    destruct (py_index_in_range (user_names (self s)) _ Hr)
      as (name & Ename & _).
    exists name. exact Ename. }
  unfold handle_event, handle_mouse. run.
  revert Hsave Hrow. open_state s. intros Hsave Hrow.
  destruct (collidepoint 540 410 200 32 (x, y)); cbn.
  { eexists. split; [reflexivity|]. split; reflexivity. }
  destruct (collidepoint 750 410 80 32 (x, y)); cbn.
  { destruct (strip_nonempty new_user_name0) eqn:Es; cbn.
    - destruct (Hsave eq_refl) as (s1 & E1 & Hl & Hd).
      rewrite E1. eexists. split; [reflexivity|].
      split; [exact Hl | exact Hd].
    - eexists. split; [reflexivity|]. split; reflexivity. }
  destruct (collidepoint 540 442 200
              (Z.of_nat (List.length user_names0) * 32) (x, y)) eqn:Ein;
    cbn.
  - destruct dropdown_open0; cbn.
    + destruct (Hrow eq_refl) as (name & Ename). rewrite Ename.
      eexists. split; [reflexivity|]. split; reflexivity.
    + eexists. split; [reflexivity|]. split; reflexivity.
  - eexists. split; [reflexivity|]. split; reflexivity.
Qed.

(** X8.  A crash of the name box: with the drop-down list open, no
    name being typed and no stored name, the Down and Up arrows raise
    [ZeroDivisionError] (the index is taken modulo the number of
    names). *)
Theorem X8_arrow_keys_crash_without_names
    (key : Z) (unicode : string) (s : Sim) :
  key = K_DOWN \/ key = K_UP ->
  active_input (self s) = false ->
  dropdown_open (self s) = true ->
  user_names (self s) = [] ->
  handle_event (KEYDOWN key unicode) s = Raise ZeroDivisionError.
Proof.
  intros Hk Ha Hd Hn. open_state s. subst.
  unfold handle_event, handle_trial_keys, handle_name_keys.
  destruct Hk as [-> | ->]; run; destruct trial_active0; reflexivity.
Qed.

(** A fresh session without stored names, after a click on the name
    box and a press of RETURN: the list is open and nothing is being
    typed. *)
Lemma X8_arrow_keys_crash_witness :
  handle_event (KEYDOWN K_DOWN "")
    (Demo.after (handle_event (MOUSEBUTTONDOWN (600%Z, 420%Z)) ;;
                 handle_event (KEYDOWN K_RETURN ""))%py Demo.idle)
  = Raise ZeroDivisionError.
Proof.
  apply X8_arrow_keys_crash_without_names.
  - left. reflexivity.
  - reflexivity.
  - reflexivity.
  - reflexivity.
Defined.

(** One arrow key on the open list of names. *)
Lemma arrow_key_step (key d : Z) (unicode : string) (s : Sim) :
  (key = K_DOWN /\ d = 1%Z) \/ (key = K_UP /\ d = (-1)%Z) ->
  active_input (self s) = false ->
  dropdown_open (self s) = true ->
  user_names (self s) <> [] ->
  let n := Z.of_nat (List.length (user_names (self s))) in
  let j := ((selected_name_index (self s) + d) mod n)%Z in
  (0 <= j < n)%Z
  /\ exists name,
       nth_error (user_names (self s)) (Z.to_nat j) = Some name
       /\ handle_event (KEYDOWN key unicode) s
          = Ok (tt, {| self := set_user_name name
                                 (set_selected_name_index j (self s));
                       host := host s |}).
Proof.
  intros Hk Ha Hd Hn n j.
  assert (Hpos : (0 < n)%Z).
  { subst n. destruct (user_names (self s)); [congruence | cbn; lia]. }
  assert (Hj : (0 <= j < n)%Z) by (apply Z.mod_pos_bound; exact Hpos).
  split; [exact Hj|].
  destruct (py_index_in_range (user_names (self s)) j Hj)
    as (name & Ename & Hnth).
  exists name. split; [exact Hnth|].
  assert (Emod : py_mod (selected_name_index (self s) + d) n = Ok j).
  { unfold py_mod.
    destruct (n =? 0)%Z eqn:E; [apply Z.eqb_eq in E; lia | reflexivity]. }
  clearbody j. subst n. revert Ename Emod. clear Hnth Hj Hpos Hn.
  unfold handle_event, handle_trial_keys, handle_name_keys. run.
  open_state s. subst. intros Ename Emod.
  destruct Hk as [(-> & ->) | (-> & ->)]; cbn;
    destruct trial_active0; cbn;
    (rewrite Emod || (change (selected_name_index0 - 1)%Z
                        with (selected_name_index0 + -1)%Z; rewrite Emod));
    cbn; rewrite Ename; reflexivity.
Qed.

(** An arrow key while a name is being typed. *)
Lemma arrow_key_typed (key : Z) (unicode : string) (s : Sim) :
  key = K_DOWN \/ key = K_UP ->
  active_input (self s) = true ->
  handle_event (KEYDOWN key unicode) s
  = Ok (tt, {| self := set_new_user_name
                         (new_user_name (self s) ++ unicode)%string (self s);
               host := host s |}).
Proof.
  intros Hk Ha. open_state s. subst.
  unfold handle_event, handle_trial_keys, handle_name_keys.
  destruct Hk as [-> | ->]; run; destruct trial_active0; reflexivity.
Qed.

(** X9.  The arrow keys on the open list of names.  With stored names,
    the list open and the name box not active, the Down arrow always
    selects an existing name (the index wraps around the list), leaves
    the trial alone, and Up undoes Down.  With the name box active, as
    it is after the click on the box that opens the list, the arrows
    select nothing: the text of the key is added to the name being
    typed, and the selected name and its index stay. *)
Theorem X9_arrow_keys_walk_the_names (unicode : string) (s : Sim) :
  dropdown_open (self s) = true ->
  user_names (self s) <> [] ->
  (active_input (self s) = false ->
   exists s1,
     handle_event (KEYDOWN K_DOWN unicode) s = Ok (tt, s1)
     /\ (0 <= selected_name_index (self s1)
         < Z.of_nat (List.length (user_names (self s))))%Z
     /\ nth_error (user_names (self s))
          (Z.to_nat (selected_name_index (self s1)))
        = Some (user_name (self s1))
     /\ lifecycle s1 = lifecycle s
     /\ ((0 <= selected_name_index (self s)
          < Z.of_nat (List.length (user_names (self s))))%Z ->
         exists s2,
           handle_event (KEYDOWN K_UP unicode) s1 = Ok (tt, s2)
           /\ selected_name_index (self s2) = selected_name_index (self s)
           /\ nth_error (user_names (self s))
                (Z.to_nat (selected_name_index (self s)))
              = Some (user_name (self s2))))
  /\ (active_input (self s) = true ->
      forall key,
        key = K_DOWN \/ key = K_UP ->
        exists s1,
          handle_event (KEYDOWN key unicode) s = Ok (tt, s1)
          /\ new_user_name (self s1)
             = (new_user_name (self s) ++ unicode)%string
          /\ selected_name_index (self s1) = selected_name_index (self s)
          /\ user_name (self s1) = user_name (self s)
          /\ user_names (self s1) = user_names (self s)
          /\ active_input (self s1) = true
          /\ dropdown_open (self s1) = true
          /\ lifecycle s1 = lifecycle s).
Proof.
  intros Hd Hn. split.
  - intros Ha.
    destruct (arrow_key_step K_DOWN 1 unicode s
                (or_introl (conj eq_refl eq_refl)) Ha Hd Hn)
      as (Hj & name & Hnth & E1).
    eexists. split; [exact E1|].
    set (n := Z.of_nat (List.length (user_names (self s)))) in *.
    set (i := selected_name_index (self s)) in *.
    set (j := ((i + 1) mod n)%Z) in *.
    set (s1 := {| self := set_user_name name
                            (set_selected_name_index j (self s));
                  host := host s |}) in *.
    assert (Hs1 : selected_name_index (self s1) = j
                  /\ user_name (self s1) = name
                  /\ user_names (self s1) = user_names (self s)
                  /\ active_input (self s1) = active_input (self s)
                  /\ dropdown_open (self s1) = dropdown_open (self s)
                  /\ lifecycle s1 = lifecycle s).
    { subst s1. clear. destruct s as [o h]. destruct o, h.
      repeat split. }
    destruct Hs1 as (Hsel1 & Hname1 & Hnames1 & Ha1 & Hd1 & Hl1).
    rewrite Hsel1, Hname1.
    split; [exact Hj|]. split; [exact Hnth|]. split; [exact Hl1|].
    intros Hi.
    destruct (arrow_key_step K_UP (-1) unicode s1
                (or_intror (conj eq_refl eq_refl)))
      as (Hj2 & name2 & Hnth2 & E2).
    { rewrite Ha1. exact Ha. }
    { rewrite Hd1. exact Hd. }
    { rewrite Hnames1. exact Hn. }
    rewrite Hnames1, Hsel1 in Hj2, Hnth2, E2. fold n in Hj2, Hnth2, E2.
    assert (Hback : ((j + -1) mod n = i)%Z).
    { subst j. rewrite Zplus_mod_idemp_l.
      replace (i + 1 + -1)%Z with i by lia.
      apply Z.mod_small. exact Hi. }
    rewrite Hback in Hnth2, E2.
    eexists. split; [exact E2|].
    split.
    + clear. destruct s1 as [o h]. destruct o, h. reflexivity.
    + exact Hnth2.
  - intros Ha key Hk.
    eexists. split; [apply (arrow_key_typed key unicode s Hk Ha)|].
    revert Ha Hd. clear. destruct s as [o h]. destruct o, h. cbn.
    intros -> ->. repeat split.
Qed.

(** Two stored names.  In [s] the list is open and the box is not
    active: Down selects a name.  In [c] a click on the box has opened
    the list: Down is typed into the box. *)
Lemma X9_arrow_keys_witness :
  let s := Demo.after (save_user_name "ada" ;; save_user_name "bob" ;;
                       assign (set_dropdown_open true))%py Demo.idle in
  let c := Demo.after (save_user_name "ada" ;; save_user_name "bob" ;;
                       handle_event (MOUSEBUTTONDOWN (600%Z, 420%Z)))%py
             Demo.idle in
  (exists s1,
      handle_event (KEYDOWN K_DOWN "") s = Ok (tt, s1)
      /\ (0 <= selected_name_index (self s1)
          < Z.of_nat (List.length (user_names (self s))))%Z
      /\ nth_error (user_names (self s))
           (Z.to_nat (selected_name_index (self s1)))
         = Some (user_name (self s1))
      /\ lifecycle s1 = lifecycle s)
  /\ (exists c1,
         handle_event (KEYDOWN K_DOWN "") c = Ok (tt, c1)
         /\ selected_name_index (self c1) = selected_name_index (self c)
         /\ user_name (self c1) = user_name (self c)).
Proof.
  intros s c.
  assert (Hd : dropdown_open (self s) = true) by reflexivity.
  assert (Hn : user_names (self s) <> []) by discriminate.
  assert (Hd' : dropdown_open (self c) = true) by reflexivity.
  assert (Hn' : user_names (self c) <> []) by discriminate.
  split.
  - destruct (X9_arrow_keys_walk_the_names "" s Hd Hn) as (Hlist & _).
    destruct (Hlist eq_refl) as (s1 & E & H1 & H2 & H3 & _).
    exists s1. split; [exact E|]. split; [exact H1|].
    split; [exact H2 | exact H3].
  - destruct (X9_arrow_keys_walk_the_names "" c Hd' Hn') as (_ & Hbox).
    destruct (Hbox eq_refl K_DOWN (or_introl eq_refl))
      as (c1 & E & _ & H1 & H2 & _).
    exists c1. split; [exact E|]. split; [exact H1 | exact H2].
Defined.

End TrialMore.

(** ** The controller: keys, gears and lights *)

Module ControlMore.
Import Control.
Local Open Scope R_scope.

#[local] Arguments py_index : simpl never.
#[local] Arguments pedal_curve : simpl never.
#[local] Arguments clamp01 : simpl never.
#[local] Arguments round1 : simpl never.
#[local] Arguments py_min : simpl never.
#[local] Arguments py_max : simpl never.
#[local] Arguments math_tan : simpl never.
#[local] Arguments Rgtb : simpl never.
#[local] Arguments IZR : simpl never.
#[local] Arguments Z.lor : simpl never.
#[local] Arguments Z.land : simpl never.
#[local] Arguments Z.lnot : simpl never.
#[local] Arguments Z.ltb : simpl never.
#[local] Arguments Z.max : simpl never.
#[local] Arguments Z.pow : simpl never.
#[local] Arguments Z.testbit : simpl never.
#[local] Arguments vls_LowBeam : simpl never.
#[local] Arguments vls_HighBeam : simpl never.
#[local] Arguments vls_Brake : simpl never.
#[local] Arguments vls_Reverse : simpl never.

Ltac run :=
  cbv [bind ret gets modify when raise lift attr ctl assign assign_ctl
       on_world call apply_control update_vehicle_lights
       set_vehicle_light_state];
  cbn.

Ltac open_cab s :=
  let d := fresh "d" in
  let w := fresh "w" in
  let c := fresh "c" in
  destruct s as [d w]; destruct d as [? c ? ? ? ? ? ? ?], w; destruct c;
  cbn in *.

Ltac split_Rlt :=
  repeat match goal with
         | |- context [Rlt_dec ?a ?b] => destruct (Rlt_dec a b)
         | H : context [Rlt_dec ?a ?b] |- _ => destruct (Rlt_dec a b)
         end.

(** *** One bit of the light state *)

Lemma set_bit_spec (ls k n : Z) :
  (0 <= k)%Z ->
  Z.testbit (Z.lor ls (2 ^ k)) n
  = if (n =? k)%Z then true else Z.testbit ls n.
Proof.
  intros Hk. rewrite Z.lor_spec, Z.pow2_bits_eqb by exact Hk.
  rewrite (Z.eqb_sym k n).
  destruct (n =? k)%Z; [apply orb_true_r | apply orb_false_r].
Qed.

Lemma clear_bit_spec (ls k n : Z) :
  (0 <= k)%Z ->
  Z.testbit (Z.land ls (Z.lnot (2 ^ k))) n
  = if (n =? k)%Z then false else Z.testbit ls n.
Proof.
  intros Hk. destruct (Z.ltb_spec n 0) as [Hn|Hn].
  - rewrite !Z.testbit_neg_r by lia.
    destruct (Z.eqb_spec n k); [lia | reflexivity].
  - rewrite Z.land_spec, Z.lnot_spec, Z.pow2_bits_eqb by lia.
    rewrite (Z.eqb_sym k n).
    destruct (n =? k)%Z; cbn; [apply andb_false_r | apply andb_true_r].
Qed.

Lemma test_bit_spec (ls k : Z) :
  (0 <= k)%Z ->
  (Z.land ls (2 ^ k) =? 0)%Z = negb (Z.testbit ls k).
Proof.
  intros Hk. destruct (Z.testbit ls k) eqn:Eb; cbn.
  - apply Z.eqb_neq. intros E0.
    assert (Hb : Z.testbit (Z.land ls (2 ^ k)) k = true).
    { rewrite Z.land_spec, Z.pow2_bits_eqb, Z.eqb_refl, Eb by exact Hk.
      reflexivity. }
    rewrite E0, Z.bits_0 in Hb. discriminate.
  - apply Z.eqb_eq. apply Z.bits_inj'. intros n Hn.
    rewrite Z.land_spec, Z.pow2_bits_eqb, Z.bits_0 by exact Hk.
    destruct (Z.eqb_spec k n) as [<-|Hne].
    + rewrite Eb. reflexivity.
    + apply andb_false_r.
Qed.

Lemma low_beam_bit : vls_LowBeam = (2 ^ 1)%Z.
Proof. reflexivity. Qed.

Lemma high_beam_bit : vls_HighBeam = (2 ^ 2)%Z.
Proof. reflexivity. Qed.

Lemma brake_bit : vls_Brake = (2 ^ 3)%Z.
Proof. reflexivity. Qed.

Lemma reverse_bit : vls_Reverse = (2 ^ 6)%Z.
Proof. reflexivity. Qed.

(** [toggle_headlights] in closed form. *)
Lemma toggle_headlights_eq (s : Cab) :
  toggle_headlights s
  = Ok (tt,
        {| controller := controller s;
           world :=
             set_light_state
               (if negb (headlights_on (world s))
                then Z.lor (light_state (world s)) vls_LowBeam
                else Z.land (light_state (world s)) (Z.lnot vls_LowBeam))
               (set_headlights_on (negb (headlights_on (world s)))
                  (world s)) |}).
Proof.
  open_cab s. unfold toggle_headlights. run.
  destruct headlights_on0; reflexivity.
Qed.

#[local] Arguments toggle_headlights : simpl never.

(** X10.  [toggle_headlights] keeps the flag and the lamp in step:
    after it the low-beam bit of the light state equals the new
    [headlights_on], whatever the bit was before, and no other bit
    and nothing of the controller has changed.  A second toggle
    brings the flag back, and the whole state when flag and bit
    agreed at the start. *)
Theorem X10_headlight_toggle_sets_the_low_beam (s : Cab) :
  exists s' s'',
    toggle_headlights s = Ok (tt, s')
    /\ controller s' = controller s
    /\ headlights_on (world s') = negb (headlights_on (world s))
    /\ Z.testbit (light_state (world s')) 1 = headlights_on (world s')
    /\ (forall n, n <> 1%Z ->
        Z.testbit (light_state (world s')) n
        = Z.testbit (light_state (world s)) n)
    /\ toggle_headlights s' = Ok (tt, s'')
    /\ headlights_on (world s'') = headlights_on (world s)
    /\ (Z.testbit (light_state (world s)) 1 = headlights_on (world s) ->
        s'' = s).
Proof.
  open_cab s. eexists. eexists.
  split; [apply toggle_headlights_eq|]. cbn.
  split; [reflexivity|].
  split; [reflexivity|].
  split.
  { rewrite low_beam_bit. destruct headlights_on0; cbn.
    - rewrite clear_bit_spec by lia. reflexivity.
    - rewrite set_bit_spec by lia. reflexivity. }
  split.
  { intros n Hn. rewrite low_beam_bit. destruct headlights_on0; cbn.
    - rewrite clear_bit_spec by lia.
      destruct (Z.eqb_spec n 1); [contradiction | reflexivity].
    - rewrite set_bit_spec by lia.
      destruct (Z.eqb_spec n 1); [contradiction | reflexivity]. }
  split; [apply toggle_headlights_eq|].
  cbn. rewrite negb_involutive.
  split; [reflexivity|].
  intros Hsync. unfold set_light_state, set_headlights_on. cbn.
  rewrite low_beam_bit. destruct headlights_on0; cbn.
  - replace (Z.lor (Z.land light_state0 (Z.lnot (2 ^ 1))) (2 ^ 1))
      with light_state0; [reflexivity|].
    apply Z.bits_inj'. intros n Hn.
    rewrite set_bit_spec, clear_bit_spec by lia.
    destruct (Z.eqb_spec n 1) as [->|]; [exact Hsync | reflexivity].
  - replace (Z.land (Z.lor light_state0 (2 ^ 1)) (Z.lnot (2 ^ 1)))
      with light_state0; [reflexivity|].
    apply Z.bits_inj'. intros n Hn.
    rewrite clear_bit_spec, set_bit_spec by lia.
    destruct (Z.eqb_spec n 1) as [->|]; [exact Hsync | reflexivity].
Qed.

(** X11.  The L key ([_toggle_vehicle_lights]) flips the high-beam bit
    of the light state and nothing else, so a second press restores
    the state exactly. *)
Theorem X11_high_beam_toggle_undoes_itself (s : Cab) :
  exists s',
    _toggle_vehicle_lights s = Ok (tt, s')
    /\ Z.testbit (light_state (world s')) 2
       = negb (Z.testbit (light_state (world s)) 2)
    /\ (forall n, n <> 2%Z ->
        Z.testbit (light_state (world s')) n
        = Z.testbit (light_state (world s)) n)
    /\ _toggle_vehicle_lights s' = Ok (tt, s).
Proof.
  open_cab s. unfold _toggle_vehicle_lights. run.
  rewrite high_beam_bit.
  rewrite (test_bit_spec light_state0 2) by lia. rewrite negb_involutive.
  destruct (Z.testbit light_state0 2) eqn:Eb; cbn.
  - eexists. split; [reflexivity|]. cbn.
    split; [rewrite clear_bit_spec by lia; reflexivity|].
    split.
    { intros n Hn. rewrite clear_bit_spec by lia.
      destruct (Z.eqb_spec n 2); [contradiction | reflexivity]. }
    rewrite test_bit_spec, clear_bit_spec by lia. cbn.
    unfold set_light_state. cbn.
    replace (Z.lor (Z.land light_state0 (Z.lnot (2 ^ 2))) (2 ^ 2))
      with light_state0; [reflexivity|].
    apply Z.bits_inj'. intros n Hn.
    rewrite set_bit_spec, clear_bit_spec by lia.
    destruct (Z.eqb_spec n 2) as [->|]; [exact Eb | reflexivity].
  - eexists. split; [reflexivity|]. cbn.
    split; [rewrite set_bit_spec by lia; reflexivity|].
    split.
    { intros n Hn. rewrite set_bit_spec by lia.
      destruct (Z.eqb_spec n 2); [contradiction | reflexivity]. }
    rewrite test_bit_spec, set_bit_spec by lia. cbn.
    unfold set_light_state. cbn.
    replace (Z.land (Z.lor light_state0 (2 ^ 2)) (Z.lnot (2 ^ 2)))
      with light_state0; [reflexivity|].
    apply Z.bits_inj'. intros n Hn.
    rewrite clear_bit_spec, set_bit_spec by lia.
    destruct (Z.eqb_spec n 2) as [->|]; [exact Eb | reflexivity].
Qed.

#[local] Arguments _parse_vehicle_keys : simpl never.
#[local] Arguments _parse_vehicle_wheel : simpl never.

Lemma Rgtb_true_iff (a b : R) : Rgtb a b = true <-> b < a.
Proof.
  unfold Rgtb. destruct (Rlt_dec b a); split; auto; discriminate.
Qed.

(** The light state that [set_vehicle_light_state] writes, bit by
    bit. *)
Lemma brake_reverse_bits (ls : Z) (b r : bool) (n : Z) :
  Z.testbit
    (if r
     then Z.lor (if b then Z.lor ls vls_Brake
                 else Z.land ls (Z.lnot vls_Brake)) vls_Reverse
     else Z.land (if b then Z.lor ls vls_Brake
                  else Z.land ls (Z.lnot vls_Brake)) (Z.lnot vls_Reverse))
    n
  = if (n =? 6)%Z then r
    else if (n =? 3)%Z then b
         else Z.testbit ls n.
Proof.
  rewrite brake_bit, reverse_bit.
  destruct r, b;
    repeat first [ rewrite set_bit_spec by lia
                 | rewrite clear_bit_spec by lia ];
    destruct (n =? 6)%Z, (n =? 3)%Z; reflexivity.
Qed.

(** The light state left by one per-frame update, bit by bit. *)
Lemma update_control_lights
    (keys : Keys) (ms : Z) (js : list R) (s s' : Cab) :
  _autopilot_enabled (controller s) = false ->
  update_control keys ms js s = Ok (tt, s') ->
  forall n,
    Z.testbit (light_state (world s')) n
    = if (n =? 6)%Z then (gear (_control (controller s')) <? 0)%Z
      else if (n =? 3)%Z then Rgtb (brake (_control (controller s'))) 0
           else Z.testbit (light_state (world s)) n.
Proof.
  intros Ha E. revert E.
  open_cab s. subst. unfold update_control. run.
  rewrite ControlFacts.parse_vehicle_keys_eq. cbn.
  destruct joystick0; cbn.
  - match goal with
    | |- context [_parse_vehicle_wheel js ?S] =>
        destruct (_parse_vehicle_wheel js S) as [[[] s2]|] eqn:E2;
          [|discriminate];
        pose proof (ControlFacts.parse_vehicle_wheel_inv js S s2 E2)
          as Hwheel
    end.
    cbn in Hwheel.
    destruct (wheel_axes axis_mapping0) as [[[i j] k]|].
    + destruct Hwheel as (raw & t & b & Hi & ->).
      intros [= <-] n. cbn. apply brake_reverse_bits.
    + subst s2. intros [= <-] n. cbn. apply brake_reverse_bits.
  - intros [= <-] n. cbn. apply brake_reverse_bits.
Qed.

(** X12.  After every per-frame update (autopilot off) the brake lamp
    and the reversing lamp show the command just handed to the host:
    the brake bit is set exactly when its brake is positive, the
    reverse bit exactly when its gear is negative, which is also its
    [reverse] flag.  All other bits of the light state are left as
    they were. *)
Theorem X12_brake_and_reverse_lamps_follow_the_command
    (keys : Keys) (ms : Z) (js : list R) (s s' : Cab) :
  _autopilot_enabled (controller s) = false ->
  update_control keys ms js s = Ok (tt, s') ->
  exists c,
    applied (world s') = applied (world s) ++ [c]
    /\ (Z.testbit (light_state (world s')) 3 = true <-> 0 < brake c)
    /\ (Z.testbit (light_state (world s')) 6 = true <-> (gear c < 0)%Z)
    /\ Z.testbit (light_state (world s')) 6 = reverse c
    /\ (forall n, n <> 3%Z -> n <> 6%Z ->
        Z.testbit (light_state (world s')) n
        = Z.testbit (light_state (world s)) n).
Proof.
  intros Ha E.
  pose proof (update_control_lights keys ms js s s' Ha E) as Hbits.
  destruct (ControlFacts.update_control_spec keys ms js s s' Ha E)
    as (Happ & _ & _ & _ & _ & _ & Hrev & _).
  exists (_control (controller s')).
  split; [exact Happ|].
  split; [rewrite Hbits; cbn; apply Rgtb_true_iff|].
  split; [rewrite Hbits; cbn; apply Z.ltb_lt|].
  split; [rewrite Hbits; cbn; symmetry; exact Hrev|].
  intros n H3 H6. rewrite Hbits.
  destruct (Z.eqb_spec n 6); [contradiction|].
  destruct (Z.eqb_spec n 3); [contradiction|].
  reflexivity.
Qed.

Lemma X12_brake_and_reverse_lamps_witness :
  exists s' c,
    update_control (holding [K_DOWN]) 16 [] DemoCab.keyboard_cab
    = Ok (tt, s')
    /\ applied (world s') = [c]
    /\ (Z.testbit (light_state (world s')) 3 = true <-> 0 < brake c).
Proof.
  destruct (ControlFacts.update_control_digital_returns
              (holding [K_DOWN]) 16 [] DemoCab.keyboard_cab eq_refl)
    as (s' & E).
  destruct (X12_brake_and_reverse_lamps_follow_the_command
              (holding [K_DOWN]) 16 [] DemoCab.keyboard_cab s' eq_refl E)
    as (c & Happ & Hb & _).
  exists s', c. split; [exact E|]. split; [exact Happ | exact Hb].
Defined.

(** X29.  The per-frame update never fires a gear or light toggle.
    Whatever keys are held, in both modes and under the autopilot, a
    frame's update leaves the gear, the headlight flag and the
    low-beam and high-beam bits of the light state as they were: only
    a press event changes them. *)
Theorem X29_update_keeps_gear_and_light_toggles
    (keys : Keys) (ms : Z) (js : list R) (s s' : Cab) :
  update_control keys ms js s = Ok (tt, s') ->
  gear (_control (controller s')) = gear (_control (controller s))
  /\ headlights_on (world s') = headlights_on (world s)
  /\ Z.land (light_state (world s')) vls_LowBeam
     = Z.land (light_state (world s)) vls_LowBeam
  /\ Z.land (light_state (world s')) vls_HighBeam
     = Z.land (light_state (world s)) vls_HighBeam.
Proof.
  intros E.
  destruct (_autopilot_enabled (controller s)) eqn:Ha.
  - revert E. open_cab s. subst. unfold update_control. run.
    intros [= <-]. cbn. repeat split.
  - destruct (ControlFacts.update_control_spec keys ms js s s' Ha E)
      as (_ & _ & Hh & Hbits & Hg & _).
    split; [exact Hg|]. split; [exact Hh|].
    split;
      apply Z.bits_inj'; intros n Hn;
      rewrite !Z.land_spec.
    + destruct (Z.eq_dec n 1) as [->|Hne].
      * rewrite Hbits by auto. reflexivity.
      * replace (Z.testbit vls_LowBeam n) with false.
        { rewrite !andb_false_r. reflexivity. }
        symmetry. unfold vls_LowBeam.
        change 2%Z with (2 ^ 1)%Z. apply Z.pow2_bits_false. auto.
    + destruct (Z.eq_dec n 2) as [->|Hne].
      * rewrite Hbits by auto. reflexivity.
      * replace (Z.testbit vls_HighBeam n) with false.
        { rewrite !andb_false_r. reflexivity. }
        symmetry. unfold vls_HighBeam.
        change 4%Z with (2 ^ 2)%Z. apply Z.pow2_bits_false. auto.
Qed.

Lemma X29_update_keeps_toggles_witness :
  exists s',
    update_control (holding [K_q]) 16 [] DemoCab.keyboard_cab = Ok (tt, s')
    /\ gear (_control (controller s'))
       = gear (_control (controller DemoCab.keyboard_cab))
    /\ headlights_on (world s') = headlights_on (world DemoCab.keyboard_cab)
    /\ Z.land (light_state (world s')) vls_LowBeam
       = Z.land (light_state (world DemoCab.keyboard_cab)) vls_LowBeam
    /\ Z.land (light_state (world s')) vls_HighBeam
       = Z.land (light_state (world DemoCab.keyboard_cab)) vls_HighBeam.
Proof.
  destruct (ControlFacts.update_control_digital_returns
              (holding [K_q]) 16 [] DemoCab.keyboard_cab eq_refl)
    as (s' & E).
  exists s'. split; [exact E|].
  destruct (X29_update_keeps_gear_and_light_toggles _ _ _ _ _ E)
    as (Hg & Hh & Hl & Hb).
  repeat split; assumption.
Defined.

Lemma dict_get_raises {V} (k : string) (d : dict V) (e : exn) :
  dict_get k d = Raise e -> e = KeyError.
Proof.
  induction d as [|[k' v'] rest IH]; cbn.
  - intros [= <-]. reflexivity.
  - destruct (String.eqb k k'); [discriminate | exact IH].
Qed.

Ltac split_ifs :=
  repeat match goal with
         | |- context [if ?b then _ else _] => destruct b; cbn
         end.

Lemma press_keeps_trans (s1 s2 s3 : Cab) :
  press_keeps s1 s2 -> press_keeps s2 s3 -> press_keeps s1 s3.
Proof.
  unfold press_keeps.
  intros (A1 & P1 & K1 & R1 & G1) (A2 & P2 & K2 & R2 & G2).
  repeat split; try congruence.
  intros Hg Hp. apply G2; [apply G1; assumption | rewrite P1; exact Hp].
Qed.

(** The bound keys: the lookups raise [KeyError] at a missing entry
    met before an entry bound to the key, and return otherwise. *)
Lemma handle_bound_key_outcome (key : Z) (s : Cab) :
  match _handle_bound_key key s with
  | Ok (_, s') =>
      meets_missing bindings (key_mapping (controller s)) key = false
      /\ press_keeps s s'
      /\ _autopilot_enabled (controller s') = _autopilot_enabled (controller s)
  | Raise e =>
      e = KeyError
      /\ meets_missing bindings (key_mapping (controller s)) key = true
  end.
Proof.
  open_cab s.
  unfold _handle_bound_key, key_for, flip_gear, bindings, press_keeps.
  run. cbn [meets_missing].
  destruct (dict_get "reverse" key_mapping0) as [k1|e1] eqn:E1; cbn;
    [|split; [eapply dict_get_raises; exact E1 | reflexivity]].
  destruct (bound_to k1 key); cbn;
    [repeat split; intros; destruct reverse0; lia|].
  destruct (dict_get "handbrake" key_mapping0) as [k2|e2] eqn:E2; cbn;
    [|split; [eapply dict_get_raises; exact E2 | reflexivity]].
  destruct (bound_to k2 key); cbn; [repeat split; intros; assumption|].
  destruct (dict_get "hide_hud" key_mapping0) as [k3|e3] eqn:E3; cbn;
    [|split; [eapply dict_get_raises; exact E3 | reflexivity]].
  destruct (bound_to k3 key); cbn; [repeat split; intros; assumption|].
  destruct (dict_get "toggle_headlights" key_mapping0) as [k4|e4] eqn:E4; cbn;
    [|split; [eapply dict_get_raises; exact E4 | reflexivity]].
  destruct (bound_to k4 key); cbn.
  - rewrite toggle_headlights_eq. cbn. repeat split; intros; assumption.
  - repeat split; intros; assumption.
Qed.

#[local] Arguments _handle_bound_key : simpl never.

(** The first statement of [_handle_key]. *)
Lemma handle_world_key_outcome (key mods : Z) (s : Cab) :
  if fixed_key key mods
  then exists s',
         _handle_world_key key mods s = Ok (tt, s')
         /\ press_keeps s s'
         /\ controller s' = controller s
  else _handle_world_key key mods s = _handle_bound_key key s.
Proof.
  unfold _handle_world_key, fixed_key, restart, init_vehicle_lights.
  destruct (key =? K_BACKSPACE)%Z; cbn [orb andb].
  { open_cab s. run. eexists. split; [reflexivity|]. unfold press_keeps. cbn.
    repeat split; intros; assumption. }
  destruct (key =? K_F1)%Z; cbn [orb andb].
  { open_cab s. run. eexists. split; [reflexivity|]. unfold press_keeps. cbn.
    repeat split; intros; assumption. }
  destruct (key =? K_h)%Z; cbn [orb andb].
  { open_cab s. run. eexists. split; [reflexivity|]. unfold press_keeps. cbn.
    repeat split; intros; assumption. }
  destruct ((key =? K_SLASH)%Z && has_mod mods KMOD_SHIFT); cbn [orb andb].
  { open_cab s. run. eexists. split; [reflexivity|]. unfold press_keeps. cbn.
    repeat split; intros; assumption. }
  destruct (key =? K_TAB)%Z; cbn [orb andb].
  { open_cab s. run. eexists. split; [reflexivity|]. unfold press_keeps. cbn.
    repeat split; intros; assumption. }
  destruct (key =? K_c)%Z; cbn [orb andb].
  { open_cab s. run. destruct (has_mod mods KMOD_SHIFT); cbn;
      (eexists; split; [reflexivity|]); unfold press_keeps; cbn;
      repeat split; intros; assumption. }
  destruct (key =? K_BACKQUOTE)%Z; cbn [orb andb].
  { open_cab s. run. eexists. split; [reflexivity|]. unfold press_keeps. cbn.
    repeat split; intros; assumption. }
  destruct ((K_0 <? key)%Z && (key <=? K_9)%Z); cbn [orb andb].
  { open_cab s. run. eexists. split; [reflexivity|]. unfold press_keeps. cbn.
    repeat split; intros; assumption. }
  destruct (key =? K_r)%Z; cbn [orb andb].
  { open_cab s. run. eexists. split; [reflexivity|]. unfold press_keeps. cbn.
    repeat split; intros; assumption. }
  reflexivity.
Qed.

(** The second statement: it always returns. *)
Lemma handle_vehicle_key_outcome (key : Z) (s : Cab) :
  exists s',
    _handle_vehicle_key key s = Ok (tt, s')
    /\ press_keeps s s'
    /\ (key = K_q ->
        gear (_control (controller s'))
        = (if reverse (_control (controller s)) then 1 else -1)%Z
        /\ _autopilot_enabled (controller s')
           = _autopilot_enabled (controller s)).
Proof.
  open_cab s.
  unfold _handle_vehicle_key, flip_gear, _toggle_vehicle_lights, press_keeps.
  run.
  destruct (Z.eqb_spec key K_q) as [->|Hq]; cbn.
  { eexists. split; [reflexivity|]. cbn.
    repeat split; intros; destruct reverse0; lia. }
  split_ifs;
    (eexists; split; [reflexivity|]; cbn;
     repeat split; intros; try lia; try contradiction).
Qed.

#[local] Arguments _handle_world_key : simpl never.
#[local] Arguments _handle_vehicle_key : simpl never.

(** With the four entries there, no lookup fails. *)
Lemma configured_meets_none (keys : KeyMap.t) (key : Z) :
  configured keys = true -> meets_missing bindings keys key = false.
Proof.
  unfold configured, bindings. cbn [forallb meets_missing].
  destruct (dict_get "reverse" keys); [|discriminate].
  destruct (dict_get "handbrake" keys); [|discriminate].
  destruct (dict_get "hide_hud" keys); [|discriminate].
  destruct (dict_get "toggle_headlights" keys); [|discriminate].
  intros _. repeat match goal with
                   | |- context [bound_to ?k key] => destruct (bound_to k key)
                   end; reflexivity.
Qed.

(** [_handle_key]: when it returns and when it raises. *)
Lemma handle_key_outcome (key mods : Z) (s : Cab) :
  match _handle_key key mods s with
  | Ok (_, s') =>
      fixed_key key mods
      || negb (meets_missing bindings (key_mapping (controller s)) key)
      = true
      /\ press_keeps s s'
  | Raise e =>
      e = KeyError
      /\ fixed_key key mods = false
      /\ meets_missing bindings (key_mapping (controller s)) key = true
  end.
Proof.
  unfold _handle_key, bind.
  pose proof (handle_world_key_outcome key mods s) as Hw.
  destruct (fixed_key key mods).
  - destruct Hw as (s1 & E1 & K1 & _). rewrite E1.
    destruct (handle_vehicle_key_outcome key s1) as (s2 & E2 & K2 & _).
    rewrite E2. split; [reflexivity|].
    eapply press_keeps_trans; eassumption.
  - rewrite Hw. pose proof (handle_bound_key_outcome key s) as Hb.
    destruct (_handle_bound_key key s) as [[[] s1]|e].
    + destruct Hb as (Hm & K1 & _).
      destruct (handle_vehicle_key_outcome key s1) as (s2 & E2 & K2 & _).
      rewrite E2. split; [rewrite Hm; reflexivity|].
      eapply press_keeps_trans; eassumption.
    + destruct Hb as (-> & Hm). repeat split. exact Hm.
Qed.

(** The Q key: [_handle_key] sets the gear from [reverse], whatever the
    key is bound to besides. *)
Lemma handle_key_q (mods : Z) (s : Cab) :
  meets_missing bindings (key_mapping (controller s)) K_q = false ->
  exists s1,
    _handle_key K_q mods s = Ok (tt, s1)
    /\ gear (_control (controller s1))
       = (if reverse (_control (controller s)) then 1 else -1)%Z
    /\ reverse (_control (controller s1)) = reverse (_control (controller s))
    /\ _autopilot_enabled (controller s1)
       = _autopilot_enabled (controller s)
    /\ applied (world s1) = applied (world s)
    /\ key_mapping (controller s1) = key_mapping (controller s).
Proof.
  intros Hm. unfold _handle_key, bind.
  pose proof (handle_world_key_outcome K_q mods s) as Hw.
  change (fixed_key K_q mods) with false in Hw. cbv iota in Hw. rewrite Hw.
  pose proof (handle_bound_key_outcome K_q s) as Hb.
  destruct (_handle_bound_key K_q s) as [[[] s1]|e].
  - destruct Hb as (_ & (A1 & _ & K1 & R1 & _) & Ha1).
    destruct (handle_vehicle_key_outcome K_q s1)
      as (s2 & E2 & (A2 & _ & K2 & R2 & _) & Hq).
    destruct (Hq eq_refl) as (Hg & Ha2).
    exists s2. split; [exact E2|].
    split; [rewrite Hg, R1; reflexivity|].
    split; [congruence|]. split; [congruence|].
    split; congruence.
  - destruct Hb as (_ & Hm'). congruence.
Qed.

(** X13.  The Q key toggles reverse through the gear.  When the
    lookups of the bound keys find their entries (none is missing
    before one bound to Q), the release of Q sets the gear to -1 when
    the command is not in reverse and to 1 when it is, and the next
    per-frame update (autopilot off) hands the host a command whose
    [reverse] flag is the opposite of before.  The flag itself only
    moves in the update, so a second press before it sets the same
    gear again and does not cancel the first.  When an entry is
    missing first, as with no [KeyMapping] section at all, the release
    of Q raises [KeyError] instead. *)
Theorem X13_q_key_toggles_reverse (mods mods' : Z) (s : Cab) :
  (meets_missing bindings (key_mapping (controller s)) K_q = true ->
   _handle_key K_q mods s = Raise KeyError)
  /\ (meets_missing bindings (key_mapping (controller s)) K_q = false ->
      exists s1 s1',
        _handle_key K_q mods s = Ok (tt, s1)
        /\ gear (_control (controller s1))
           = (if reverse (_control (controller s)) then 1 else -1)%Z
        /\ reverse (_control (controller s1))
           = reverse (_control (controller s))
        /\ applied (world s1) = applied (world s)
        /\ _handle_key K_q mods' s1 = Ok (tt, s1')
        /\ gear (_control (controller s1')) = gear (_control (controller s1))
        /\ (_autopilot_enabled (controller s) = false ->
            forall keys ms js s2,
              update_control keys ms js s1 = Ok (tt, s2) ->
              exists c,
                applied (world s2) = applied (world s) ++ [c]
                /\ c = _control (controller s2)
                /\ reverse c = negb (reverse (_control (controller s))))).
Proof.
  split.
  - intros Hm. pose proof (handle_key_outcome K_q mods s) as H.
    destruct (_handle_key K_q mods s) as [[[] s1]|e].
    + destruct H as (H & _). rewrite Hm in H. discriminate H.
    + destruct H as (-> & _). reflexivity.
  - intros Hm.
    destruct (handle_key_q mods s Hm)
      as (s1 & E1 & Hg1 & Hr1 & Ha1 & Hw1 & Hk1).
    rewrite <- Hk1 in Hm.
    destruct (handle_key_q mods' s1 Hm) as (s1' & E1' & Hg1' & _).
    exists s1, s1'.
    split; [exact E1|]. split; [exact Hg1|]. split; [exact Hr1|].
    split; [exact Hw1|]. split; [exact E1'|].
    split; [rewrite Hg1', Hr1, Hg1; reflexivity|].
    intros Ha keys ms js s2 E2.
    rewrite <- Ha1 in Ha.
    destruct (ControlFacts.update_control_spec keys ms js s1 s2 Ha E2)
      as (Happ & _ & _ & _ & Hg2 & _ & Hrev & _).
    exists (_control (controller s2)).
    split; [rewrite Happ, Hw1; reflexivity|].
    split; [reflexivity|].
    rewrite Hrev, Hg2, Hg1.
    destruct (reverse (_control (controller s))); reflexivity.
Qed.

(** With the four keys bound the release of Q puts the gear in
    reverse; with no [KeyMapping] section it raises. *)
Lemma X13_q_key_witness :
  (exists s1,
      _handle_key K_q 0 DemoCab.bound_cab = Ok (tt, s1)
      /\ gear (_control (controller s1)) = (-1)%Z)
  /\ _handle_key K_q 0 DemoCab.keyboard_cab = Raise KeyError.
Proof.
  split.
  - destruct (X13_q_key_toggles_reverse 0 0 DemoCab.bound_cab) as (_ & H).
    destruct (H eq_refl) as (s1 & _ & E & Hg & _).
    exists s1. split; [exact E | exact Hg].
  - destruct (X13_q_key_toggles_reverse 0 0 DemoCab.keyboard_cab) as (H & _).
    exact (H eq_refl).
Defined.

(** A button press always returns, hands no command to the host and
    keeps the gear at -1 or above. *)
Lemma handle_joystick_button_outcome (button : Z) (s : Cab) :
  exists s',
    _handle_joystick_button button s = Ok (tt, s')
    /\ press_keeps s s'.
Proof.
  open_cab s.
  unfold _handle_joystick_button, flip_gear, restart, init_vehicle_lights,
    press_keeps.
  run.
  split_ifs; try rewrite toggle_headlights_eq; cbn; split_ifs;
    (eexists; split; [reflexivity|]; cbn;
     repeat split; intros; try lia; try assumption).
Qed.

(** X14.  No key and no wheel button shifts below reverse.  A button
    press always returns.  A key release raises nothing but
    [KeyError], and that only for a key outside the fixed ones whose
    lookups meet a missing entry of [key_mapping]; with the four
    entries there it always returns.  Whenever a handler returns it
    has handed no command to the host, and the gear is at -1 or above
    when it was there before and the gear reported by the vehicle
    is. *)
Theorem X14_no_press_shifts_below_reverse (key mods button : Z) (s : Cab) :
  (-1 <= gear (_control (controller s)))%Z ->
  (-1 <= player_gear (world s))%Z ->
  (forall s',
      _handle_key key mods s = Ok (tt, s') ->
      (-1 <= gear (_control (controller s')))%Z
      /\ player_gear (world s') = player_gear (world s)
      /\ applied (world s') = applied (world s))
  /\ (forall e,
         _handle_key key mods s = Raise e ->
         e = KeyError
         /\ fixed_key key mods = false
         /\ meets_missing bindings (key_mapping (controller s)) key = true)
  /\ (configured (key_mapping (controller s)) = true ->
      exists s', _handle_key key mods s = Ok (tt, s'))
  /\ (exists s',
         _handle_joystick_button button s = Ok (tt, s')
         /\ (-1 <= gear (_control (controller s')))%Z
         /\ player_gear (world s') = player_gear (world s)
         /\ applied (world s') = applied (world s)).
Proof.
  intros Hg Hp.
  pose proof (handle_key_outcome key mods s) as H.
  split; [|split; [|split]].
  - intros s' E. rewrite E in H.
    destruct H as (_ & (A & P & _ & _ & G)).
    split; [exact (G Hg Hp)|]. split; [exact P | exact A].
  - intros e E. rewrite E in H. exact H.
  - intros Hc.
    destruct (_handle_key key mods s) as [[[] s']|e].
    + exists s'. reflexivity.
    + destruct H as (_ & _ & Hm).
      rewrite (configured_meets_none _ key Hc) in Hm. discriminate Hm.
  - destruct (handle_joystick_button_outcome button s)
      as (s' & E & (A & P & _ & _ & G)).
    exists s'. split; [exact E|]. split; [exact (G Hg Hp)|].
    split; [exact P | exact A].
Qed.

(** The comma key with the four keys bound, and a button, from the
    first gear. *)
Lemma X14_no_press_witness :
  (exists s',
      _handle_key K_COMMA 0 DemoCab.bound_cab = Ok (tt, s')
      /\ (-1 <= gear (_control (controller s')))%Z)
  /\ (exists s',
         _handle_joystick_button 5 DemoCab.pad_cab = Ok (tt, s')
         /\ (-1 <= gear (_control (controller s')))%Z).
Proof.
  assert (Hg : (-1 <= gear (_control (controller DemoCab.bound_cab)))%Z)
    by (cbn; lia).
  assert (Hp : (-1 <= player_gear (world DemoCab.bound_cab))%Z)
    by (cbn; lia).
  assert (Hg' : (-1 <= gear (_control (controller DemoCab.pad_cab)))%Z)
    by (cbn; lia).
  assert (Hp' : (-1 <= player_gear (world DemoCab.pad_cab))%Z)
    by (cbn; lia).
  split.
  - destruct (X14_no_press_shifts_below_reverse
                K_COMMA 0 0 DemoCab.bound_cab Hg Hp)
      as (Hok & _ & Hret & _).
    destruct (Hret eq_refl) as (s' & E).
    exists s'. split; [exact E|]. apply (Hok s' E).
  - destruct (X14_no_press_shifts_below_reverse
                K_COMMA 0 5 DemoCab.pad_cab Hg' Hp')
      as (_ & _ & _ & (s' & E & G & _)).
    exists s'. split; [exact E | exact G].
Defined.

(** Under the autopilot the per-frame update does nothing. *)
Lemma update_control_autopilot (keys : Keys) (ms : Z) (js : list R) (s : Cab) :
  _autopilot_enabled (controller s) = true ->
  update_control keys ms js s = Ok (tt, s).
Proof.
  open_cab s. intros ->. reflexivity.
Qed.

(** *** Digital steering over a run of frames *)

Section Steering.
Import Drive.

Lemma total_ms_nonneg (P : Frame -> Prop) (frames : list Frame) :
  (forall f, P f -> (0 <= snd (fst f))%Z) ->
  Forall P frames -> (0 <= total_ms frames)%Z.
Proof.
  intros HP H. induction H as [|f rest Hf _ IH].
  - unfold total_ms. cbn. lia.
  - change (0 <= snd (fst f) + total_ms rest)%Z.
    specialize (HP f Hf). lia.
Qed.

Lemma ramp_left (c d e : R) :
  -0.7 <= c <= 0.7 -> 0 <= d -> 0 <= e ->
  py_max (-0.7) (py_min 0.7 (py_max (-0.7) (c - d)) - e)
  = py_max (-0.7) (c - (d + e)).
Proof.
  intros Hc Hd He. unfold py_max, py_min, Rgtb.
  split_Rlt; lra.
Qed.

Lemma ramp_right (c d e : R) :
  -0.7 <= c <= 0.7 -> 0 <= d -> 0 <= e ->
  py_min 0.7 (py_min 0.7 (py_max (-0.7) (c + d)) + e)
  = py_min 0.7 (c + (d + e)).
Proof.
  intros Hc Hd He. unfold py_max, py_min, Rgtb.
  split_Rlt; lra.
Qed.

Lemma ramp_start (c : R) :
  -0.7 <= c <= 0.7 ->
  py_max (-0.7) (c - 5e-4 * 0) = c /\ py_min 0.7 (c + 5e-4 * 0) = c.
Proof.
  intros Hc. unfold py_max, py_min, Rgtb.
  split_Rlt; lra.
Qed.

(** One digital frame. *)
Lemma digital_frame (keys : Keys) (ms : Z) (js : list R) (s : Cab) :
  _autopilot_enabled (controller s) = false ->
  digital (controller s) = true ->
  exists s1 c,
    update_control keys ms js s = Ok (tt, s1)
    /\ _autopilot_enabled (controller s1) = false
    /\ digital (controller s1) = true
    /\ _steer_cache (controller s1)
       = py_min 0.7
           (py_max (-0.7)
              (if keys K_LEFT || keys K_a
               then _steer_cache (controller s) - 5e-4 * IZR ms
               else if keys K_RIGHT || keys K_d
                    then _steer_cache (controller s) + 5e-4 * IZR ms
                    else 0))
    /\ applied (world s1) = applied (world s) ++ [c]
    /\ steer c = round1 (_steer_cache (controller s1)).
Proof.
  intros Ha Hd.
  destruct (ControlFacts.update_control_digital_returns keys ms js s Hd)
    as (s1 & E1).
  destruct (ControlFacts.update_control_spec keys ms js s s1 Ha E1)
    as (Happ & Hset & _ & _ & _ & _ & _ & _ & Hc & _ & _ & Hm).
  destruct (ControlFacts.settings_digital _ _ Hset) as (Hd1 & Ha1).
  rewrite Hd in Hm, Hd1. rewrite Ha in Ha1. destruct Hm as (Hs & _).
  exists s1, (_control (controller s1)).
  repeat split; assumption.
Qed.


Lemma update_all_left (frames : list Frame) :
  forall s : Cab,
    _autopilot_enabled (controller s) = false ->
    digital (controller s) = true ->
    -0.7 <= _steer_cache (controller s) <= 0.7 ->
    Forall steers_left frames ->
    exists s' cs,
      update_all frames s = Ok (tt, s')
      /\ _steer_cache (controller s')
         = py_max (-0.7)
             (_steer_cache (controller s) - 5e-4 * IZR (total_ms frames))
      /\ applied (world s') = applied (world s) ++ cs
      /\ List.length cs = List.length frames
      /\ (frames <> [] ->
          steer (last cs VehicleControl_default)
          = round1 (_steer_cache (controller s'))).
Proof.
  induction frames as [|[[keys ms] js] rest IH]; intros s Ha Hd Hc Hall.
  - exists s, []. cbn. split; [reflexivity|].
    split; [symmetry; apply (ramp_start _ Hc)|].
    split; [rewrite app_nil_r; reflexivity|].
    split; [reflexivity|]. intros H. contradiction.
  - inversion Hall as [|f fs [Hk Hms] Hrest]; subst. cbn in Hk, Hms.
    destruct (digital_frame keys ms js s Ha Hd)
      as (s1 & c & E1 & Ha1 & Hd1 & Hc1 & Happ1 & Hs1).
    rewrite Hk in Hc1.
    assert (Hr1 : -0.7 <= _steer_cache (controller s1) <= 0.7)
      by (rewrite Hc1; apply ControlFacts.steer_clamp_range).
    destruct (IH s1 Ha1 Hd1 Hr1 Hrest)
      as (s' & cs & E & Hc' & Happ & Hlen & Hlast).
    assert (Hsum : (0 <= total_ms rest)%Z).
    { apply (total_ms_nonneg steers_left); [|exact Hrest].
      intros f Hf. apply Hf. }
    exists s', (c :: cs).
    split; [cbn; unfold bind; rewrite E1; exact E|].
    split.
    { rewrite Hc', Hc1. cbn [total_ms fold_right fst snd].
      fold (total_ms rest). rewrite plus_IZR.
      rewrite ramp_left; [f_equal; lra | exact Hc | |].
      - apply Rmult_le_pos; [lra | apply IZR_le; exact Hms].
      - apply Rmult_le_pos; [lra | apply IZR_le; exact Hsum]. }
    split; [rewrite Happ, Happ1, <- app_assoc; reflexivity|].
    split; [cbn; rewrite Hlen; reflexivity|].
    intros _. destruct rest as [|f2 rest2].
    + destruct cs; [|discriminate Hlen].
      cbn in E. injection E as <-. exact Hs1.
    + destruct cs as [|c2 cs2]; [discriminate Hlen|].
      change (last (c :: c2 :: cs2) VehicleControl_default)
        with (last (c2 :: cs2) VehicleControl_default).
      apply Hlast. discriminate.
Qed.

Lemma update_all_right (frames : list Frame) :
  forall s : Cab,
    _autopilot_enabled (controller s) = false ->
    digital (controller s) = true ->
    -0.7 <= _steer_cache (controller s) <= 0.7 ->
    Forall steers_right frames ->
    exists s' cs,
      update_all frames s = Ok (tt, s')
      /\ _steer_cache (controller s')
         = py_min 0.7
             (_steer_cache (controller s) + 5e-4 * IZR (total_ms frames))
      /\ applied (world s') = applied (world s) ++ cs
      /\ List.length cs = List.length frames
      /\ (frames <> [] ->
          steer (last cs VehicleControl_default)
          = round1 (_steer_cache (controller s'))).
Proof.
  induction frames as [|[[keys ms] js] rest IH]; intros s Ha Hd Hc Hall.
  - exists s, []. cbn. split; [reflexivity|].
    split; [symmetry; apply (ramp_start _ Hc)|].
    split; [rewrite app_nil_r; reflexivity|].
    split; [reflexivity|]. intros H. contradiction.
  - inversion Hall as [|f fs [Hk [Hk' Hms]] Hrest]; subst.
    cbn in Hk, Hk', Hms.
    destruct (digital_frame keys ms js s Ha Hd)
      as (s1 & c & E1 & Ha1 & Hd1 & Hc1 & Happ1 & Hs1).
    rewrite Hk, Hk' in Hc1.
    assert (Hr1 : -0.7 <= _steer_cache (controller s1) <= 0.7)
      by (rewrite Hc1; apply ControlFacts.steer_clamp_range).
    destruct (IH s1 Ha1 Hd1 Hr1 Hrest)
      as (s' & cs & E & Hc' & Happ & Hlen & Hlast).
    assert (Hsum : (0 <= total_ms rest)%Z).
    { apply (total_ms_nonneg steers_right); [|exact Hrest].
      intros f Hf. apply Hf. }
    exists s', (c :: cs).
    split; [cbn; unfold bind; rewrite E1; exact E|].
    split.
    { rewrite Hc', Hc1. cbn [total_ms fold_right fst snd].
      fold (total_ms rest). rewrite plus_IZR.
      rewrite ramp_right; [f_equal; lra | exact Hc | |].
      - apply Rmult_le_pos; [lra | apply IZR_le; exact Hms].
      - apply Rmult_le_pos; [lra | apply IZR_le; exact Hsum]. }
    split; [rewrite Happ, Happ1, <- app_assoc; reflexivity|].
    split; [cbn; rewrite Hlen; reflexivity|].
    intros _. destruct rest as [|f2 rest2].
    + destruct cs; [|discriminate Hlen].
      cbn in E. injection E as <-. exact Hs1.
    + destruct cs as [|c2 cs2]; [discriminate Hlen|].
      change (last (c :: c2 :: cs2) VehicleControl_default)
        with (last (c2 :: cs2) VehicleControl_default).
      apply Hlast. discriminate.
Qed.

(** Away from a tie, [round1] gives the nearest tenth. *)
Lemma round1_nearest (k : Z) (x : R) :
  IZR k / 10 - 0.05 < x < IZR k / 10 + 0.05 -> round1 x = IZR k / 10.
Proof.
  intros [H1 H2]. unfold round1, round_half_even.
  destruct (Rlt_dec (x * 10) (IZR k)) as [Hlo|Hhi].
  - assert (Ef : Zfloor (x * 10) = (k - 1)%Z).
    { apply Zfloor_eq. rewrite minus_IZR. lra. }
    rewrite Ef, minus_IZR.
    destruct (Rlt_dec (x * 10 - (IZR k - 1)) (1 / 2)); [lra|].
    destruct (Rlt_dec (1 / 2) (x * 10 - (IZR k - 1))); [|lra].
    replace (k - 1 + 1)%Z with k by lia. reflexivity.
  - assert (Ef : Zfloor (x * 10) = k) by (apply Zfloor_eq; lra).
    rewrite Ef.
    destruct (Rlt_dec (x * 10 - IZR k) (1 / 2)); [reflexivity | lra].
Qed.

(** The steer that [round1] makes of a clamped value keeps its sign. *)
Lemma round1_sign (x : R) :
  (-0.7 <= x <= 0 -> -0.7 <= round1 x <= 0)
  /\ (0 <= x <= 0.7 -> 0 <= round1 x <= 0.7).
Proof.
  unfold round1. split; intros H.
  - assert (Hb : (-7 <= round_half_even (x * 10) <= 0)%Z).
    { apply ControlFacts.round_half_even_between. lra. }
    destruct Hb as [B1 B2]. apply IZR_le in B1, B2. lra.
  - assert (Hb : (0 <= round_half_even (x * 10) <= 7)%Z).
    { apply ControlFacts.round_half_even_between. lra. }
    destruct Hb as [B1 B2]. apply IZR_le in B1, B2. lra.
Qed.

(** X15.  Digital steering is a clamped ramp.  From a centred wheel,
    with a left-turn key held in every frame, the steer handed to the
    host in the last frame is the tenth nearest to the time held at
    5e-4 per millisecond, with the sign of a left turn and not beyond
    -0.7: it is -k/10 while the time held is within 100 ms of 200 k
    ms, and -0.7, full lock, from 1300 ms on.  Right turns mirror
    this, up to 0.7.  (A time held of exactly 100, 300, ... 1300 ms
    puts the ramp half-way between two tenths; which of the two the
    program then hands over depends on the rounding of the float and
    is not stated.)  A frame with no steering key held recentres at
    once, from any state: accumulator and steer are 0. *)
Theorem X15_digital_steering_is_a_clamped_ramp
    (frames : list Frame) (s : Cab) :
  _autopilot_enabled (controller s) = false ->
  digital (controller s) = true ->
  _steer_cache (controller s) = 0 ->
  frames <> [] ->
  (Forall steers_left frames ->
   exists s' cs,
     update_all frames s = Ok (tt, s')
     /\ applied (world s') = applied (world s) ++ cs
     /\ List.length cs = List.length frames
     /\ -0.7 <= steer (last cs VehicleControl_default) <= 0
     /\ (forall k,
            (0 <= k <= 7)%Z ->
            (200 * k - 100 < total_ms frames < 200 * k + 100)%Z ->
            steer (last cs VehicleControl_default) = - (IZR k / 10))
     /\ ((1300 < total_ms frames)%Z ->
         steer (last cs VehicleControl_default) = -0.7))
  /\ (Forall steers_right frames ->
      exists s' cs,
        update_all frames s = Ok (tt, s')
        /\ applied (world s') = applied (world s) ++ cs
        /\ List.length cs = List.length frames
        /\ 0 <= steer (last cs VehicleControl_default) <= 0.7
        /\ (forall k,
               (0 <= k <= 7)%Z ->
               (200 * k - 100 < total_ms frames < 200 * k + 100)%Z ->
               steer (last cs VehicleControl_default) = IZR k / 10)
        /\ ((1300 < total_ms frames)%Z ->
            steer (last cs VehicleControl_default) = 0.7))
  /\ (forall t keys ms js,
         _autopilot_enabled (controller t) = false ->
         digital (controller t) = true ->
         keys K_LEFT || keys K_a = false ->
         keys K_RIGHT || keys K_d = false ->
         exists t1 c,
           update_control keys ms js t = Ok (tt, t1)
           /\ applied (world t1) = applied (world t) ++ [c]
           /\ _steer_cache (controller t1) = 0
           /\ steer c = 0).
Proof.
  intros Ha Hd Hc0 Hne.
  assert (Hc : -0.7 <= _steer_cache (controller s) <= 0.7)
    by (rewrite Hc0; lra).
  split; [|split].
  - intros Hall.
    destruct (update_all_left frames s Ha Hd Hc Hall)
      as (s' & cs & E & Hc' & Happ & Hlen & Hlast).
    exists s', cs.
    split; [exact E|]. split; [exact Happ|]. split; [exact Hlen|].
    rewrite (Hlast Hne), Hc', Hc0.
    assert (Hsum : (0 <= total_ms frames)%Z).
    { apply (total_ms_nonneg steers_left); [|exact Hall].
      intros f Hf. apply Hf. }
    apply IZR_le in Hsum.
    set (T := IZR (total_ms frames)) in *.
    assert (Hx : -0.7 <= py_max (-0.7) (0 - 5e-4 * T) <= 0).
    { unfold py_max, Rgtb. split_Rlt; lra. }
    split; [apply round1_sign; exact Hx|].
    split.
    + intros k [Hk0 Hk7] [Hlo Hhi].
      apply IZR_le in Hk0, Hk7. apply IZR_lt in Hlo, Hhi.
      rewrite minus_IZR, mult_IZR in Hlo. rewrite plus_IZR, mult_IZR in Hhi.
      fold T in Hlo, Hhi.
      replace (- (IZR k / 10)) with (IZR (- k) / 10)
        by (rewrite opp_IZR; lra).
      apply round1_nearest. rewrite opp_IZR.
      unfold py_max, Rgtb. split_Rlt; lra.
    + intros Hlong. apply IZR_lt in Hlong. fold T in Hlong.
      replace (-0.7) with (IZR (-7) / 10) at 2 by lra.
      apply round1_nearest.
      unfold py_max, Rgtb. split_Rlt; lra.
  - intros Hall.
    destruct (update_all_right frames s Ha Hd Hc Hall)
      as (s' & cs & E & Hc' & Happ & Hlen & Hlast).
    exists s', cs.
    split; [exact E|]. split; [exact Happ|]. split; [exact Hlen|].
    rewrite (Hlast Hne), Hc', Hc0.
    assert (Hsum : (0 <= total_ms frames)%Z).
    { apply (total_ms_nonneg steers_right); [|exact Hall].
      intros f Hf. apply Hf. }
    apply IZR_le in Hsum.
    set (T := IZR (total_ms frames)) in *.
    assert (Hx : 0 <= py_min 0.7 (0 + 5e-4 * T) <= 0.7).
    { unfold py_min, Rgtb. split_Rlt; lra. }
    split; [apply round1_sign; exact Hx|].
    split.
    + intros k [Hk0 Hk7] [Hlo Hhi].
      apply IZR_le in Hk0, Hk7. apply IZR_lt in Hlo, Hhi.
      rewrite minus_IZR, mult_IZR in Hlo. rewrite plus_IZR, mult_IZR in Hhi.
      fold T in Hlo, Hhi.
      apply round1_nearest.
      unfold py_min, Rgtb. split_Rlt; lra.
    + intros Hlong. apply IZR_lt in Hlong. fold T in Hlong.
      replace 0.7 with (IZR 7 / 10) at 2 by lra.
      apply round1_nearest.
      unfold py_min, Rgtb. split_Rlt; lra.
  - intros t keys ms js Hat Hdt Hl Hr.
    destruct (digital_frame keys ms js t Hat Hdt)
      as (s1 & c & E1 & _ & _ & Hc1 & Happ1 & Hs1).
    rewrite Hl, Hr in Hc1.
    rewrite ControlFacts.steer_clamp_inside in Hc1 by lra.
    exists s1, c.
    split; [exact E1|]. split; [exact Happ1|]. split; [exact Hc1|].
    rewrite Hs1, Hc1. apply ControlFacts.round1_near_zero. lra.
Qed.

(** Left held for 130 and then 150 ms: 280 ms is within 100 ms of 200,
    the steer is -0.1.  Held for two more frames of 600 ms: full
    lock. *)
Lemma X15_digital_steering_witness :
  let short := [(holding [K_LEFT], 130%Z, @nil R);
                (holding [K_a], 150%Z, @nil R)] in
  let long := short ++ [(holding [K_LEFT], 600%Z, @nil R);
                        (holding [K_LEFT], 600%Z, @nil R)] in
  (exists s' cs,
      update_all short DemoCab.keyboard_cab = Ok (tt, s')
      /\ applied (world s') = cs
      /\ steer (last cs VehicleControl_default) = - (IZR 1 / 10))
  /\ (exists s' cs,
         update_all long DemoCab.keyboard_cab = Ok (tt, s')
         /\ applied (world s') = cs
         /\ steer (last cs VehicleControl_default) = -0.7).
Proof.
  intros short long.
  assert (Hs : Forall steers_left short).
  { repeat constructor; cbn; lia. }
  assert (Hl : Forall steers_left long).
  { repeat constructor; cbn; lia. }
  assert (Hns : short <> []) by discriminate.
  assert (Hnl : long <> []) by discriminate.
  split.
  - destruct (X15_digital_steering_is_a_clamped_ramp
                short DemoCab.keyboard_cab eq_refl eq_refl eq_refl Hns)
      as (Hleft & _).
    destruct (Hleft Hs) as (s' & cs & E & Happ & _ & _ & Hk & _).
    exists s', cs. split; [exact E|]. split; [exact Happ|].
    apply Hk; [lia | unfold total_ms; cbn; lia].
  - destruct (X15_digital_steering_is_a_clamped_ramp
                long DemoCab.keyboard_cab eq_refl eq_refl eq_refl Hnl)
      as (Hleft & _).
    destruct (Hleft Hl) as (s' & cs & E & Happ & _ & _ & _ & Hfull).
    exists s', cs. split; [exact E|]. split; [exact Happ|].
    apply Hfull. unfold total_ms. cbn. lia.
Defined.

End Steering.

(** *** The wheel: pedals and steering *)

Lemma ln_10_pos : 0 < ln 10.
Proof.
  rewrite <- ln_1. apply ln_increasing; lra.
Qed.

Lemma clamp01_le (a b : R) : a <= b -> clamp01 a <= clamp01 b.
Proof.
  intros H. unfold clamp01, py_max, py_min, Rgtb. split_Rlt; lra.
Qed.

Lemma pedal_curve_ok (damping raw v : R) :
  pedal_curve damping raw = Ok v ->
  raw < 2
  /\ v = damping
         * (1.6 + (2.05 * (ln (-0.7 * raw + 1.4) / ln 10) - 1.2) / 0.92).
Proof.
  unfold pedal_curve, math_log10.
  destruct (Rlt_dec 0 (-0.7 * raw + 1.4)) as [H|H]; [|discriminate].
  intros [= <-]. split; [lra | reflexivity].
Qed.

Lemma pedal_curve_domain (damping raw : R) :
  2 <= raw -> pedal_curve damping raw = Raise ValueError.
Proof.
  intros H. unfold pedal_curve, math_log10.
  destruct (Rlt_dec 0 (-0.7 * raw + 1.4)) as [H0|H0]; [lra | reflexivity].
Qed.

(** Pressing a pedal further never lowers its command: the raw reading
    falls as the pedal goes down. *)
Lemma pedal_curve_falls (damping raw1 raw2 v1 v2 : R) :
  0 <= damping ->
  raw1 <= raw2 ->
  pedal_curve damping raw1 = Ok v1 ->
  pedal_curve damping raw2 = Ok v2 ->
  clamp01 v2 <= clamp01 v1.
Proof.
  intros Hd Hle E1 E2.
  apply pedal_curve_ok in E1, E2.
  destruct E1 as (H1 & ->), E2 as (H2 & ->).
  apply clamp01_le.
  assert (Hln : ln (-0.7 * raw2 + 1.4) <= ln (-0.7 * raw1 + 1.4)).
  { destruct (Req_dec raw1 raw2) as [->|Hne]; [lra|].
    apply Rlt_le, ln_increasing; lra. }
  pose proof ln_10_pos as H10.
  assert (Hq : ln (-0.7 * raw2 + 1.4) / ln 10
               <= ln (-0.7 * raw1 + 1.4) / ln 10).
  { unfold Rdiv. apply Rmult_le_compat_r; [|exact Hln].
    apply Rlt_le, Rinv_0_lt_compat. exact H10. }
  apply Rmult_le_compat_l; [exact Hd|]. lra.
Qed.

(** [_parse_vehicle_wheel] on a mapped wheel, when it returns. *)
Lemma parse_vehicle_wheel_mapped (js : list R) (s s' : Cab) (i j k : Z) :
  wheel_axes (axis_mapping (controller s)) = Some (i, j, k) ->
  _parse_vehicle_wheel js s = Ok (tt, s') ->
  exists raw rt rb t b,
    py_index js i = Ok raw
    /\ py_index js j = Ok rt
    /\ py_index js k = Ok rb
    /\ pedal_curve (throttle_damping (controller s)) rt = Ok t
    /\ pedal_curve (brake_damping (controller s)) rb = Ok b
    /\ steer (_control (controller s'))
       = steering_damping (controller s) * math_tan (1.1 * raw)
    /\ throttle (_control (controller s')) = clamp01 t
    /\ brake (_control (controller s')) = clamp01 b.
Proof.
  open_cab s. intros Hw. unfold _parse_vehicle_wheel. run. rewrite Hw. cbn.
  destruct (py_index js i) as [raw|] eqn:Ei; [|discriminate]. cbn.
  destruct (py_index js j) as [rt|] eqn:Ej; [|discriminate]. cbn.
  destruct (pedal_curve throttle_damping0 rt) as [t|] eqn:Et; [|discriminate].
  cbn.
  destruct (py_index js k) as [rb|] eqn:Ek; [|discriminate]. cbn.
  destruct (pedal_curve brake_damping0 rb) as [b|] eqn:Eb; [|discriminate].
  cbn. intros [= <-]. exists raw, rt, rb, t, b. cbn.
  repeat split; try reflexivity; assumption.
Qed.

(** A mapped wheel whose pedal readings are below 2 is always read. *)
Lemma parse_vehicle_wheel_returns
    (js : list R) (s : Cab) (i j k : Z) (raw rt rb : R) :
  wheel_axes (axis_mapping (controller s)) = Some (i, j, k) ->
  py_index js i = Ok raw ->
  py_index js j = Ok rt ->
  py_index js k = Ok rb ->
  rt < 2 -> rb < 2 ->
  exists s', _parse_vehicle_wheel js s = Ok (tt, s').
Proof.
  open_cab s. intros Hw Hi Hj Hk Ht Hb.
  unfold _parse_vehicle_wheel. run. rewrite Hw. cbn.
  rewrite Hi. cbn. rewrite Hj. cbn.
  rewrite (ControlFacts.pedal_curve_defined _ _ Ht). cbn.
  rewrite Hk. cbn.
  rewrite (ControlFacts.pedal_curve_defined _ _ Hb). cbn.
  eexists. reflexivity.
Qed.

(** X16.  The pedals of a mapped wheel.  Pressing a pedal further
    (a lower axis reading) never lowers its command: of two readings
    of the wheel from the same state, the one with the lower throttle
    reading gets at least as much throttle, and likewise the brake,
    when the dampings are not negative.  A reading that is accepted is
    below 2; a throttle or brake reading of 2 or more makes
    [_parse_vehicle_wheel] raise [ValueError], the logarithm having no
    value there. *)
Theorem X16_pressing_a_pedal_never_lowers_its_command
    (js1 js2 : list R) (s s1 s2 : Cab) (i j k : Z) (rt1 rt2 rb1 rb2 : R) :
  wheel_axes (axis_mapping (controller s)) = Some (i, j, k) ->
  0 <= throttle_damping (controller s) ->
  0 <= brake_damping (controller s) ->
  py_index js1 j = Ok rt1 -> py_index js1 k = Ok rb1 ->
  py_index js2 j = Ok rt2 -> py_index js2 k = Ok rb2 ->
  _parse_vehicle_wheel js1 s = Ok (tt, s1) ->
  _parse_vehicle_wheel js2 s = Ok (tt, s2) ->
  (rt1 <= rt2 ->
   throttle (_control (controller s2)) <= throttle (_control (controller s1)))
  /\ (rb1 <= rb2 ->
      brake (_control (controller s2)) <= brake (_control (controller s1)))
  /\ rt1 < 2 /\ rb1 < 2
  /\ (forall js raw rt rb,
         py_index js i = Ok raw ->
         py_index js j = Ok rt ->
         py_index js k = Ok rb ->
         2 <= rt \/ 2 <= rb ->
         _parse_vehicle_wheel js s = Raise ValueError).
Proof.
  intros Hw Htd Hbd Hj1 Hk1 Hj2 Hk2 E1 E2.
  destruct (parse_vehicle_wheel_mapped js1 s s1 i j k Hw E1)
    as (raw1 & rt1' & rb1' & t1 & b1 & _ & Hj1' & Hk1' & Pt1 & Pb1 & _
        & Ht1 & Hb1).
  destruct (parse_vehicle_wheel_mapped js2 s s2 i j k Hw E2)
    as (raw2 & rt2' & rb2' & t2 & b2 & _ & Hj2' & Hk2' & Pt2 & Pb2 & _
        & Ht2 & Hb2).
  rewrite Hj1 in Hj1'. rewrite Hk1 in Hk1'.
  rewrite Hj2 in Hj2'. rewrite Hk2 in Hk2'.
  injection Hj1' as <-. injection Hk1' as <-.
  injection Hj2' as <-. injection Hk2' as <-.
  split; [|split; [|split; [|split]]].
  - intros Hle. rewrite Ht1, Ht2.
    exact (pedal_curve_falls _ _ _ _ _ Htd Hle Pt1 Pt2).
  - intros Hle. rewrite Hb1, Hb2.
    exact (pedal_curve_falls _ _ _ _ _ Hbd Hle Pb1 Pb2).
  - apply (pedal_curve_ok _ _ _ Pt1).
  - apply (pedal_curve_ok _ _ _ Pb1).
  - intros js raw rt rb Hi Hj Hk Hbad.
    clear - Hw Hi Hj Hk Hbad. revert Hw.
    open_cab s. intros Hw. unfold _parse_vehicle_wheel. run. rewrite Hw. cbn.
    rewrite Hi. cbn. rewrite Hj. cbn.
    destruct (Rlt_dec rt 2) as [Hlt|Hge].
    + rewrite (ControlFacts.pedal_curve_defined _ _ Hlt). cbn.
      rewrite Hk. cbn.
      rewrite pedal_curve_domain by lra. reflexivity.
    + rewrite pedal_curve_domain by lra. reflexivity.
Qed.

Lemma X16_pressing_a_pedal_witness :
  exists s1 s2,
    _parse_vehicle_wheel [0; -1; 1] DemoCab.wheel_cab = Ok (tt, s1)
    /\ _parse_vehicle_wheel [0; 0; 1] DemoCab.wheel_cab = Ok (tt, s2)
    /\ throttle (_control (controller s2))
       <= throttle (_control (controller s1)).
Proof.
  destruct (parse_vehicle_wheel_returns [0; -1; 1] DemoCab.wheel_cab
              0 1 2 0 (-1) 1 eq_refl eq_refl eq_refl eq_refl)
    as (s1 & E1); [lra | lra |].
  destruct (parse_vehicle_wheel_returns [0; 0; 1] DemoCab.wheel_cab
              0 1 2 0 0 1 eq_refl eq_refl eq_refl eq_refl)
    as (s2 & E2); [lra | lra |].
  exists s1, s2. split; [exact E1|]. split; [exact E2|].
  assert (Htd : 0 <= throttle_damping (controller DemoCab.wheel_cab))
    by (cbn; lra).
  assert (Hbd : 0 <= brake_damping (controller DemoCab.wheel_cab))
    by (cbn; lra).
  destruct (X16_pressing_a_pedal_never_lowers_its_command
              [0; -1; 1] [0; 0; 1] DemoCab.wheel_cab s1 s2 0 1 2
              (-1) 0 1 1 eq_refl Htd Hbd eq_refl eq_refl eq_refl eq_refl
              E1 E2)
    as (Ht & _).
  apply Ht. lra.
Defined.

(** Bounds on the sine and the cosine of 1.1, from their series. *)
Lemma INR_fact_values :
  INR (fact 2) = 2 /\ INR (fact 3) = 6 /\ INR (fact 4) = 24
  /\ INR (fact 5) = 120 /\ INR (fact 6) = 720.
Proof.
  repeat split; rewrite INR_IZR_INZ; apply f_equal; reflexivity.
Qed.

Lemma sin_1_1_below : sin 1.1 <= 0.8916.
Proof.
  pose proof PI2_3_2 as H32.
  destruct (sin_bound 1.1 0) as (_ & H); [lra | lra |].
  eapply Rle_trans; [exact H|].
  destruct INR_fact_values as (F2 & F3 & F4 & F5 & F6).
  unfold sin_approx, sin_term.
  cbn [sum_f_R0 Nat.mul Nat.add pow].
  rewrite F3, F5. cbn [fact Nat.mul Nat.add INR]. lra.
Qed.

Lemma cos_1_1_above : 0.4535 <= cos 1.1.
Proof.
  pose proof PI2_3_2 as H32.
  destruct (cos_bound 1.1 1) as (H & _); [lra | lra |].
  eapply Rle_trans; [|exact H].
  destruct INR_fact_values as (F2 & F3 & F4 & F5 & F6).
  unfold cos_approx, cos_term.
  cbn [sum_f_R0 Nat.mul Nat.add pow].
  rewrite F2, F4, F6. cbn [fact Nat.mul Nat.add INR]. lra.
Qed.

Lemma tan_1_1_below_2 : tan 1.1 < 2.
Proof.
  pose proof sin_1_1_below. pose proof cos_1_1_above.
  unfold tan, Rdiv. apply Rmult_lt_reg_r with (cos 1.1); [lra|].
  rewrite Rmult_assoc, Rinv_l by lra. lra.
Qed.

(** The tangent of the steering curve over the wheel's range. *)
Lemma steering_tan (a b : R) :
  -1 <= a -> a <= b -> b <= 1 ->
  tan (1.1 * a) <= tan (1.1 * b)
  /\ - tan 1.1 <= tan (1.1 * a)
  /\ tan (1.1 * b) <= tan 1.1.
Proof.
  intros Ha Hab Hb. pose proof PI2_3_2 as H32.
  assert (Hmono : forall u v, -1 <= u -> u <= v -> v <= 1 ->
                              tan (1.1 * u) <= tan (1.1 * v)).
  { intros u v Hu Huv Hv. destruct (Req_dec u v) as [->|Hne]; [lra|].
    apply Rlt_le, tan_increasing; lra. }
  split; [apply Hmono; assumption|]. split.
  - rewrite <- tan_neg. replace (Ropp 1.1) with (1.1 * -1) by lra.
    apply Hmono; lra.
  - replace (tan 1.1) with (tan (1.1 * 1)) by (f_equal; lra).
    apply Hmono; lra.
Qed.

(** X17.  Analog steering follows the wheel.  In wheel mode, for a
    steering reading between -1 and 1 and a damping that is not
    negative, the steer handed to the host is the damping times
    [tan(1.1 * reading)]: 0 for a centred wheel, mirrored for a
    mirrored reading, never lower for a reading further right, and
    bounded by twice the damping.  So up to the default damping of 0.5
    the steer stays strictly inside [[-1, 1]]. *)
Theorem X17_analog_steering_follows_the_wheel
    (keys : Keys) (ms : Z) (js : list R) (s s' : Cab)
    (i j k : Z) (raw : R) :
  _autopilot_enabled (controller s) = false ->
  digital (controller s) = false ->
  wheel_axes (axis_mapping (controller s)) = Some (i, j, k) ->
  py_index js i = Ok raw ->
  -1 <= raw <= 1 ->
  0 <= steering_damping (controller s) ->
  update_control keys ms js s = Ok (tt, s') ->
  let sd := steering_damping (controller s) in
  exists c,
    applied (world s') = applied (world s) ++ [c]
    /\ steer c = sd * tan (1.1 * raw)
    /\ (raw = 0 -> steer c = 0)
    /\ - (2 * sd) <= steer c <= 2 * sd
    /\ (sd <= 0.5 -> -1 < steer c < 1)
    /\ (forall js2 s2 raw2,
           py_index js2 i = Ok raw2 ->
           update_control keys ms js2 s = Ok (tt, s2) ->
           (raw2 = - raw ->
            steer (_control (controller s2)) = - steer c)
           /\ (raw <= raw2 <= 1 ->
               steer c <= steer (_control (controller s2)))).
Proof.
  intros Ha Hd Hw Hi Hraw Hsd E sd.
  assert (Hsteer : forall js0 s0 raw0,
             py_index js0 i = Ok raw0 ->
             update_control keys ms js0 s = Ok (tt, s0) ->
             applied (world s0)
             = applied (world s) ++ [_control (controller s0)]
             /\ steer (_control (controller s0)) = sd * tan (1.1 * raw0)).
  { intros js0 s0 raw0 Hi0 E0.
    destruct (ControlFacts.update_control_spec keys ms js0 s s0 Ha E0)
      as (Happ & _ & _ & _ & _ & _ & _ & _ & _ & _ & _ & Hm).
    rewrite Hd in Hm.
    destruct Hm as (i' & j' & k' & raw' & Hw' & Hi' & Hs').
    rewrite Hw in Hw'. injection Hw' as <- <- <-.
    rewrite Hi0 in Hi'. injection Hi' as <-.
    split; [exact Happ | exact Hs']. }
  destruct (Hsteer js s' raw Hi E) as (Happ & Hs).
  assert (Hsd0 : 0 <= sd) by exact Hsd.
  clearbody sd. clear Hsd.
  pose proof tan_1_1_below_2 as H2.
  destruct (steering_tan raw raw) as (_ & Hlo & Hhi); [lra | lra | lra |].
  assert (Hb : - (2 * sd) <= sd * tan (1.1 * raw) <= 2 * sd) by (split; nra).
  exists (_control (controller s')).
  split; [exact Happ|]. split; [exact Hs|].
  split; [intros ->; rewrite Hs, Rmult_0_r, tan_0; lra|].
  split; [rewrite Hs; exact Hb|].
  split.
  { intros Hhalf. rewrite Hs. split; nra. }
  intros js2 s2 raw2 Hi2 E2.
  destruct (Hsteer js2 s2 raw2 Hi2 E2) as (_ & Hs2).
  rewrite Hs, Hs2. split.
  - intros ->. replace (1.1 * - raw) with (- (1.1 * raw)) by lra.
    rewrite tan_neg. lra.
  - intros Hr.
    destruct (steering_tan raw raw2) as (Hmono & _); [lra | lra | lra |].
    apply Rmult_le_compat_l; [exact Hsd0 | exact Hmono].
Qed.

Lemma X17_analog_steering_witness :
  exists s' c,
    update_control no_keys 16 [1; 1; 1] DemoCab.wheel_cab = Ok (tt, s')
    /\ applied (world s') = [c]
    /\ steer c = 1 * tan (1.1 * 1)
    /\ - (2 * 1) <= steer c <= 2 * 1.
Proof.
  destruct (ControlFacts.update_control_wheel_returns
              no_keys 16 [1; 1; 1] DemoCab.wheel_cab 0 1 2 1 1 1
              eq_refl eq_refl eq_refl eq_refl)
    as (s' & E); [lra | lra |].
  assert (Hraw : -1 <= 1 <= 1) by lra.
  assert (Hsd : 0 <= steering_damping (controller DemoCab.wheel_cab))
    by (cbn; lra).
  destruct (X17_analog_steering_follows_the_wheel
              no_keys 16 [1; 1; 1] DemoCab.wheel_cab s' 0 1 2 1
              eq_refl eq_refl eq_refl eq_refl Hraw Hsd E)
    as (c & Happ & Hs & _ & Hb & _).
  exists s', c. split; [exact E|]. split; [exact Happ|].
  split; [exact Hs | exact Hb].
Defined.

End ControlMore.

(** ** The loop: quitting, and one command per frame *)

Module GameMore.
Import Game Loop.
Local Open Scope py_scope.

#[local] Arguments Control.update_control : simpl never.
#[local] Arguments Control._handle_key : simpl never.
#[local] Arguments Control._handle_joystick_button : simpl never.
#[local] Arguments Control._is_quit_shortcut : simpl never.
#[local] Arguments Trial.handle_event : simpl never.
#[local] Arguments Trial.poll_trial_keys : simpl never.
#[local] Arguments Trial.track_speed : simpl never.
#[local] Arguments Trial.on_host : simpl never.

Lemma in_trial_inv {A} (c : Trial.Py A) (s s' : State) (a : A) :
  in_trial c s = Ok (a, s') ->
  cab s' = cab s /\ c (trial s) = Ok (a, trial s').
Proof.
  unfold in_trial. destruct s as [k t]. cbn.
  destruct (c t) as [[a1 t1]|]; [|discriminate].
  intros [= <- <-]. split; reflexivity.
Qed.

Lemma in_cab_inv {A} (c : Control.Py A) (s s' : State) (a : A) :
  in_cab c s = Ok (a, s') ->
  trial s' = trial s /\ c (cab s) = Ok (a, cab s').
Proof.
  unfold in_cab. destruct s as [k t]. cbn.
  destruct (c k) as [[a1 k1]|]; [|discriminate].
  intros [= <- <-]. split; reflexivity.
Qed.

Lemma bind_inv {S A B} (c : M S A) (k : A -> M S B) (s s' : S) (b : B) :
  bind c k s = Ok (b, s') ->
  exists a s1, c s = Ok (a, s1) /\ k a s1 = Ok (b, s').
Proof.
  unfold bind. destruct (c s) as [[a s1]|]; [|discriminate].
  intros E. exists a, s1. split; [reflexivity | exact E].
Qed.

(** One step of the event loop. *)
Lemma event_loop_cons (ev : Event) (rest : list Event) (s : State) :
  event_loop (ev :: rest) s
  = match ev with
    | QUIT => Ok (true, s)
    | JOYBUTTONDOWN button =>
        bind (in_cab (Control._handle_joystick_button button))
          (fun _ => event_loop rest) s
    | KEYUP key mods =>
        if Control._is_quit_shortcut key mods then Ok (true, s)
        else bind (in_cab (Control._handle_key key mods))
               (fun _ => event_loop rest) s
    | KEYDOWN key unicode =>
        bind (in_trial (Trial.handle_event (Trial.KEYDOWN key unicode)))
          (fun _ => event_loop rest) s
    | MOUSEBUTTONDOWN pos =>
        bind (in_trial (Trial.handle_event (Trial.MOUSEBUTTONDOWN pos)))
          (fun _ => event_loop rest) s
    | OTHER => event_loop rest s
    end.
Proof.
  destruct ev; try reflexivity.
  cbn [event_loop]. destruct (Control._is_quit_shortcut key mods); reflexivity.
Qed.

(** A step that does not quit hands the host no command. *)
Lemma event_step (ev : Event) (rest : list Event) (s : State) :
  ~ quits ev ->
  exists c : Py unit,
    event_loop (ev :: rest) s = bind c (fun _ => event_loop rest) s
    /\ forall s1,
         c s = Ok (tt, s1) ->
         Control.applied (Control.world (cab s1))
         = Control.applied (Control.world (cab s)).
Proof.
  intros Hq. rewrite event_loop_cons. destruct ev; cbn in Hq.
  - contradiction Hq. exact I.
  - eexists. split; [reflexivity|]. intros s1 E1.
    apply in_cab_inv in E1. destruct E1 as (_ & E1).
    destruct (ControlMore.handle_joystick_button_outcome button (cab s))
      as (k & Ek & (Hk & _)).
    rewrite Ek in E1. injection E1 as <-. exact Hk.
  - destruct (Control._is_quit_shortcut key mods);
      [contradiction Hq; reflexivity|].
    eexists. split; [reflexivity|]. intros s1 E1.
    apply in_cab_inv in E1. destruct E1 as (_ & E1).
    pose proof (ControlMore.handle_key_outcome key mods (cab s)) as Hk.
    rewrite E1 in Hk. destruct Hk as (_ & (Hk & _)). exact Hk.
  - eexists. split; [reflexivity|]. intros s1 E1.
    apply in_trial_inv in E1. destruct E1 as (-> & _). reflexivity.
  - eexists. split; [reflexivity|]. intros s1 E1.
    apply in_trial_inv in E1. destruct E1 as (-> & _). reflexivity.
  - exists (ret tt). split; [reflexivity|]. intros s1 [= <-]. reflexivity.
Qed.

Lemma quits_dec (ev : Event) : {quits ev} + {~ quits ev}.
Proof.
  destruct ev; cbn.
  - left. exact I.
  - right. intros [].
  - destruct (Control._is_quit_shortcut key mods);
      [left; reflexivity | right; discriminate].
  - right. intros [].
  - right. intros [].
  - right. intros [].
Qed.

Lemma event_loop_quits (ev : Event) (rest : list Event) (s : State) :
  quits ev -> event_loop (ev :: rest) s = Ok (true, s).
Proof.
  intros Hq. rewrite event_loop_cons. destruct ev; cbn in Hq; try contradiction.
  - reflexivity.
  - rewrite Hq. reflexivity.
Qed.

(** The event loop hands the host no command. *)
Lemma event_loop_applies_nothing (evs : list Event) :
  forall (s s' : State) (b : bool),
    event_loop evs s = Ok (b, s') ->
    Control.applied (Control.world (cab s'))
    = Control.applied (Control.world (cab s)).
Proof.
  induction evs as [|ev rest IH]; intros s s' b E.
  - injection E as _ <-. reflexivity.
  - destruct (quits_dec ev) as [Hq|Hq].
    + rewrite (event_loop_quits _ _ _ Hq) in E. injection E as _ <-.
      reflexivity.
    + destruct (event_step ev rest s Hq) as (c & Ec & Hc).
      rewrite Ec in E. apply bind_inv in E.
      destruct E as ([] & s1 & E1 & E2).
      rewrite (IH _ _ _ E2). apply Hc. exact E1.
Qed.

(** Events behind one that quits are not handled. *)
Lemma event_loop_stops (pre post : list Event) (q : Event) :
  quits q ->
  forall s : State,
    event_loop (pre ++ q :: post) s = event_loop (pre ++ [q]) s
    /\ forall b s', event_loop (pre ++ [q]) s = Ok (b, s') -> b = true.
Proof.
  intros Hq. induction pre as [|ev rest IH]; intros s.
  - cbn [app]. rewrite !(event_loop_quits _ _ _ Hq).
    split; [reflexivity|]. intros b s' [= <- _]. reflexivity.
  - cbn [app]. destruct (quits_dec ev) as [Hev|Hev].
    + rewrite !(event_loop_quits _ _ _ Hev).
      split; [reflexivity|]. intros b s' [= <- _]. reflexivity.
    + destruct (event_step ev (rest ++ q :: post) s Hev) as (c & Ec & _).
      destruct (event_step ev (rest ++ [q]) s Hev) as (c' & Ec' & _).
      rewrite !event_loop_cons.
      destruct ev; cbn in Hev;
        try (destruct (Control._is_quit_shortcut key mods);
             [contradiction Hev; reflexivity|]);
        try (contradiction Hev; exact I);
        unfold bind;
        try match goal with
            | |- context [in_cab ?h s] =>
                destruct (in_cab h s) as [[[] s1]|];
                  [apply IH | split; [reflexivity | discriminate]]
            | |- context [in_trial ?h s] =>
                destruct (in_trial h s) as [[[] s1]|];
                  [apply IH | split; [reflexivity | discriminate]]
            end.
      apply IH.
Qed.

(** X18.  Quitting ends the session at once.  When a frame's events
    hold a [QUIT] or the release of a quit key (Escape, Ctrl+Q), the
    events behind it are not handled, no command is handed to the
    host in that frame, the trial manager is neither polled nor given
    a speed sample, and the loop runs no further frame. *)
Theorem X18_quitting_ends_the_session
    (pre post : list Event) (q : Event) (keys : Keys) (ms : Z)
    (js : list R) (p : Trial.Transform) (v : Q) (later : list Frame)
    (s : State) :
  quits q ->
  let frame evs :=
    {| events := evs; pressed := keys; milliseconds := ms;
       jsInputs := js; pose := p; speed := v |} in
  event_loop (pre ++ q :: post) s = event_loop (pre ++ [q]) s
  /\ forall b s',
       event_loop (pre ++ [q]) s = Ok (b, s') ->
       b = true
       /\ Control.applied (Control.world (cab s'))
          = Control.applied (Control.world (cab s))
       /\ game_frame (frame (pre ++ q :: post)) s = Ok (true, s')
       /\ game_loop (frame (pre ++ q :: post) :: later) s = Ok (tt, s').
Proof.
  intros Hq frame.
  destruct (event_loop_stops pre post q Hq s) as (Hcut & Htrue).
  split; [exact Hcut|].
  intros b s' E. pose proof (Htrue _ _ E) as ->.
  split; [reflexivity|].
  split; [exact (event_loop_applies_nothing _ _ _ _ E)|].
  assert (Ef : game_frame (frame (pre ++ q :: post)) s = Ok (true, s')).
  { unfold game_frame, parse_events, frame. cbn [events].
    unfold bind. rewrite Hcut, E. reflexivity. }
  split; [exact Ef|].
  cbn [game_loop]. unfold bind. rewrite Ef. reflexivity.
Qed.

Lemma X18_quitting_witness :
  exists s',
    game_loop
      [{| events := [KEYDOWN K_RETURN "a"; QUIT; KEYUP K_q 0];
          pressed := holding [K_UP]; milliseconds := 16; jsInputs := [];
          pose := Demo.start_pose; speed := 30 |};
       {| events := []; pressed := holding [K_UP]; milliseconds := 16;
          jsInputs := []; pose := Demo.start_pose; speed := 30 |}]
      {| cab := DemoCab.keyboard_cab; trial := Demo.idle |}
    = Ok (tt, s')
    /\ Control.applied (Control.world (cab s')) = [].
Proof.
  destruct (X18_quitting_ends_the_session
              [KEYDOWN K_RETURN "a"] [KEYUP K_q 0] QUIT
              (holding [K_UP]) 16 [] Demo.start_pose 30
              [{| events := []; pressed := holding [K_UP];
                  milliseconds := 16; jsInputs := [];
                  pose := Demo.start_pose; speed := 30 |}]
              {| cab := DemoCab.keyboard_cab; trial := Demo.idle |} I)
    as (_ & H).
  eexists.
  assert (E : event_loop ([KEYDOWN K_RETURN "a"] ++ [QUIT])
                {| cab := DemoCab.keyboard_cab; trial := Demo.idle |}
              = Ok (true, {| cab := DemoCab.keyboard_cab;
                             trial := Demo.idle |}))
    by reflexivity.
  destruct (H _ _ E) as (_ & Happ & _ & Eloop).
  split; [exact Eloop | exact Happ].
Defined.

(** What [parse_events] does to the commands handed to the host. *)
Lemma parse_events_commands (f : Frame) (s s' : State) (quit : bool) :
  parse_events f s = Ok (quit, s') ->
  let d := Control.controller (cab s') in
  Control.applied (Control.world (cab s'))
  = Control.applied (Control.world (cab s))
    ++ (if quit || Control._autopilot_enabled d then []
        else [Control._control d]).
Proof.
  unfold parse_events. intros E. apply bind_inv in E.
  destruct E as (q0 & s0 & E0 & E1).
  pose proof (event_loop_applies_nothing _ _ _ _ E0) as H0.
  destruct q0.
  - injection E1 as <- <-. cbn. rewrite app_nil_r. exact H0.
  - apply bind_inv in E1. destruct E1 as ([] & s1 & E1 & E2).
    injection E2 as <- <-. cbn.
    apply in_cab_inv in E1. destruct E1 as (_ & E1).
    destruct (Control._autopilot_enabled (Control.controller (cab s0)))
      eqn:Ha.
    + rewrite (ControlMore.update_control_autopilot _ _ _ _ Ha) in E1.
      injection E1 as <-.
      rewrite Ha, app_nil_r. exact H0.
    + destruct (ControlFacts.update_control_spec _ _ _ _ _ Ha E1)
        as (Happ & Hset & _).
      destruct (ControlFacts.settings_digital _ _ Hset) as (_ & Ha1).
      rewrite Ha1, Ha, Happ, H0. reflexivity.
Qed.

Lemma game_frame_commands (f : Frame) (s s' : State) (quit : bool) :
  game_frame f s = Ok (quit, s') ->
  let d := Control.controller (cab s') in
  Control.applied (Control.world (cab s'))
  = Control.applied (Control.world (cab s))
    ++ (if quit || Control._autopilot_enabled d then []
        else [Control._control d]).
Proof.
  unfold game_frame. intros E. apply bind_inv in E.
  destruct E as (q0 & s0 & E0 & E1).
  pose proof (parse_events_commands _ _ _ _ E0) as H0.
  destruct q0.
  - injection E1 as <- <-. exact H0.
  - apply bind_inv in E1. destruct E1 as ([] & s1 & E1 & E2).
    apply bind_inv in E2. destruct E2 as ([] & s2 & E2 & E3).
    apply bind_inv in E3. destruct E3 as ([] & s3 & E3 & E4).
    injection E4 as <- <-.
    apply in_trial_inv in E1, E2, E3.
    destruct E1 as (C1 & _), E2 as (C2 & _), E3 as (C3 & _).
    cbn. rewrite C3, C2, C1. exact H0.
Qed.

(** X19.  A frame hands the host at most one command, and exactly one
    unless it quits or ends with the autopilot on: the command is the
    controller's [_control] as the frame leaves it.  So a session of
    [n] frames hands over at most [n] commands. *)
Theorem X19_one_command_per_frame
    (f : Frame) (fs : list Frame) (s : State) :
  (forall quit s',
      game_frame f s = Ok (quit, s') ->
      let d := Control.controller (cab s') in
      Control.applied (Control.world (cab s'))
      = Control.applied (Control.world (cab s))
        ++ (if quit || Control._autopilot_enabled d then []
            else [Control._control d]))
  /\ (forall s',
         game_loop fs s = Ok (tt, s') ->
         exists cs,
           Control.applied (Control.world (cab s'))
           = Control.applied (Control.world (cab s)) ++ cs
           /\ (List.length cs <= List.length fs)%nat).
Proof.
  split; [intros quit s'; apply game_frame_commands|].
  revert s. induction fs as [|f1 rest IH]; intros s s' E.
  - injection E as <-. exists []. rewrite app_nil_r. split; [reflexivity|].
    cbn. lia.
  - cbn [game_loop] in E. apply bind_inv in E.
    destruct E as (q & s1 & E1 & E2).
    pose proof (game_frame_commands _ _ _ _ E1) as H1. cbn in H1.
    destruct q.
    + injection E2 as <-. cbn in H1. exists [].
      split; [exact H1 | cbn; lia].
    + destruct (IH _ _ E2) as (cs & Hcs & Hlen).
      rewrite Hcs, H1, <- app_assoc.
      eexists. split; [reflexivity|].
      rewrite length_app. cbn [List.length].
      destruct (false || _); cbn; lia.
Qed.

End GameMore.

(** ** Headings and the trial clock *)

Module ScreenFacts.
Import Trial TrialScreen Hud.
Local Open Scope Q_scope.

Lemma Qabs_cases (v : Q) :
  (0 <= v /\ Qabs v == v) \/ (v <= 0 /\ Qabs v == - v).
Proof.
  destruct (Qlt_le_dec v 0) as [H|H].
  - right. split; [apply Qlt_le_weak; exact H|].
    apply Qabs_neg. apply Qlt_le_weak. exact H.
  - left. split; [exact H | apply Qabs_pos; exact H].
Qed.

Lemma Qgeb_false_lt (a b : Q) : Qgeb a b = false -> a < b.
Proof.
  unfold Qgeb. intros E. apply Qnot_le_lt. intros H.
  apply Qle_bool_iff in H. congruence.
Qed.

Lemma Qgeb_true_le (a b : Q) : Qgeb a b = true -> b <= a.
Proof. unfold Qgeb. apply Qle_bool_iff. Qed.

Ltac compare_all :=
  repeat match goal with
         | |- context [Qgtb ?a ?b] =>
             let E := fresh "E" in
             destruct (Qgtb a b) eqn:E;
               [apply TrialFacts.Qgtb_true_lt in E
               |apply TrialFacts.Qgtb_false_le in E]
         | |- context [Qgeb ?a ?b] =>
             let E := fresh "E" in
             destruct (Qgeb a b) eqn:E;
               [apply Qgeb_true_le in E | apply Qgeb_false_lt in E]
         end.

(** X20.  The heading logged with a run row and the heading shown on
    the HUD agree.  [calculate_heading_cardinal] cuts the yaw into four
    sectors (north strictly between -45 and 45, east from 45 up to 135,
    west from -45 down to -135, south beyond), the HUD always shows one
    of the eight compass points, and the logged letter is one of the
    letters shown. *)
Theorem X20_logged_heading_is_shown_on_the_hud (yaw : Q) :
  match calculate_heading_cardinal yaw with
  | North => -45 < yaw < 45
  | East => 45 <= yaw < 135
  | South => yaw <= -135 \/ 135 <= yaw
  | West => -135 < yaw <= -45
  end
  /\ In (heading yaw)
       ["N"; "NE"; "NW"; "E"; "W"; "S"; "SE"; "SW"]%string
  /\ occurs (letter (calculate_heading_cardinal yaw)) (heading yaw) = true.
Proof.
  unfold calculate_heading_cardinal, heading.
  destruct (Qabs_cases yaw) as [[H0 Ha]|[H0 Ha]];
    revert Ha; generalize (Qabs yaw); intros a Ha;
    compare_all; cbn;
    try lra;
    (split; [lra|]); (split; [|reflexivity]); cbn; tauto.
Qed.

(** *** [format_time] *)

(** *** binary64 rounding *)

Lemma Qround_half_even_between (a b : Z) (v : Q) :
  inject_Z a <= v <= inject_Z b -> (a <= round_half_even v <= b)%Z.
Proof.
  intros [Ha Hb]. unfold round_half_even.
  pose proof (Qfloor_le v) as F1. pose proof (Qlt_floor v) as F2.
  assert (Hfa : (a <= Qfloor v)%Z).
  { rewrite <- (Qfloor_Z a). apply Qfloor_resp_le. exact Ha. }
  assert (Hfb : (Qfloor v <= b)%Z).
  { rewrite <- (Qfloor_Z b). apply Qfloor_resp_le. exact Hb. }
  destruct (Qcompare_spec (v - inject_Z (Qfloor v)) (1 # 2)) as [E|L|G].
  - destruct (Z.eq_dec (Qfloor v) b) as [Eb|Nb].
    + rewrite Eb in E. lra.
    + destruct (Z.even (Qfloor v)); lia.
  - lia.
  - destruct (Z.eq_dec (Qfloor v) b) as [Eb|Nb].
    + rewrite Eb in G. lra.
    + lia.
Qed.

Lemma Qdiv_lt_cross (A B C D : Z) :
  (0 < B)%Z -> (0 < D)%Z -> (A * D < C * B)%Z ->
  inject_Z A / inject_Z B < inject_Z C / inject_Z D.
Proof.
  intros HB HD H.
  destruct B as [|p|p]; try lia. destruct D as [|q|q]; try lia.
  unfold Qlt, Qdiv, Qmult, Qinv, inject_Z. cbn. nia.
Qed.

Lemma Qdiv_le_cross (A B C D : Z) :
  (0 < B)%Z -> (0 < D)%Z -> (A * D <= C * B)%Z ->
  inject_Z A / inject_Z B <= inject_Z C / inject_Z D.
Proof.
  intros HB HD H.
  destruct B as [|p|p]; try lia. destruct D as [|q|q]; try lia.
  unfold Qle, Qdiv, Qmult, Qinv, inject_Z. cbn. nia.
Qed.

Lemma two_power (n : Z) : (0 <= n)%Z -> 2 ^ n == inject_Z (2 ^ n).
Proof.
  intros H. rewrite Zpower_Qpower by exact H. reflexivity.
Qed.

Lemma two_power_sub (a b : Z) :
  (0 <= a)%Z -> (0 <= b)%Z ->
  2 ^ (a - b) == inject_Z (2 ^ a) / inject_Z (2 ^ b).
Proof.
  intros Ha Hb. rewrite Qpower_minus by discriminate.
  rewrite (two_power a Ha), (two_power b Hb). reflexivity.
Qed.

Lemma ilog2_spec (x : Q) :
  ~ x == 0 -> 2 ^ ilog2 x <= Qabs x /\ Qabs x < 2 ^ (ilog2 x + 1).
Proof.
  intros Hx. unfold ilog2.
  destruct x as [n0 d0]. cbn [Qnum Qden Qabs].
  set (n := Z.abs n0). set (d := Zpos d0).
  assert (Hn : (0 < n)%Z).
  { unfold n. assert (n0 <> 0%Z); [|lia].
    intros ->. apply Hx. reflexivity. }
  assert (Hd : (0 < d)%Z) by (unfold d; lia).
  pose proof (Z.log2_spec n Hn) as [A1 A2].
  pose proof (Z.log2_spec d Hd) as [B1 B2].
  pose proof (Z.log2_nonneg n) as A0. pose proof (Z.log2_nonneg d) as B0.
  set (a := Z.log2 n) in *. set (b := Z.log2 d) in *.
  assert (Pa : (0 < 2 ^ a)%Z) by (apply Z.pow_pos_nonneg; lia).
  assert (Pb : (0 < 2 ^ b)%Z) by (apply Z.pow_pos_nonneg; lia).
  assert (Pa1 : (0 < 2 ^ Z.succ a)%Z) by (apply Z.pow_pos_nonneg; lia).
  assert (Pb1 : (0 < 2 ^ Z.succ b)%Z) by (apply Z.pow_pos_nonneg; lia).
  assert (Ex : n # d0 == inject_Z n / inject_Z d) by apply Qmake_Qdiv.
  assert (Lo : 2 ^ (a - b - 1) <= n # d0).
  { replace (a - b - 1)%Z with (a - Z.succ b)%Z by lia.
    rewrite two_power_sub by lia. rewrite Ex.
    apply Qdiv_le_cross; [lia | lia | nia]. }
  assert (Hi : n # d0 < 2 ^ (a - b + 1)).
  { replace (a - b + 1)%Z with (Z.succ a - b)%Z by lia.
    rewrite two_power_sub by lia. rewrite Ex.
    apply Qdiv_lt_cross; [lia | lia | nia]. }
  destruct (Qle_bool (2 ^ (a - b)) (n # d0)) eqn:E.
  - apply Qle_bool_iff in E. split; [exact E | exact Hi].
  - split; [exact Lo|].
    replace (a - b - 1 + 1)%Z with (a - b)%Z by lia.
    apply Qnot_le_lt. intros H. apply Qle_bool_iff in H. congruence.
Qed.

Lemma ilog2_below (x : Q) (k : Z) :
  ~ x == 0 -> Qabs x < 2 ^ k -> (ilog2 x < k)%Z.
Proof.
  intros Hx Hk. destruct (ilog2_spec x Hx) as [L _].
  apply (Qpower_lt_compat_l_inv 2); [|reflexivity].
  eapply Qle_lt_trans; [exact L | exact Hk].
Qed.

Lemma ilog2_unique (x : Q) (k : Z) :
  2 ^ k <= Qabs x -> Qabs x < 2 ^ (k + 1) -> ilog2 x = k.
Proof.
  intros L H.
  assert (Hx : ~ x == 0).
  { intros E. rewrite E in L. cbn in L.
    pose proof (Qpower_0_lt 2 k ltac:(reflexivity)). lra. }
  destruct (ilog2_spec x Hx) as [L' H'].
  assert (ilog2 x < k + 1)%Z.
  { apply (Qpower_lt_compat_l_inv 2); [|reflexivity].
    eapply Qle_lt_trans; [exact L' | exact H]. }
  assert (k < ilog2 x + 1)%Z.
  { apply (Qpower_lt_compat_l_inv 2); [|reflexivity].
    eapply Qle_lt_trans; [exact L | exact H']. }
  lia.
Qed.

(** On the grid of a non-positive exponent the doubles include the
    integers: rounding stays between integer bounds. *)
Lemma b64_grid (x : Q) (e : Z) (A B : Z) :
  (e <= 0)%Z ->
  inject_Z A <= x <= inject_Z B ->
  inject_Z A <= inject_Z (round_half_even (x / 2 ^ e)) * 2 ^ e <= inject_Z B.
Proof.
  intros He [HA HB].
  set (N := (2 ^ (- e))%Z).
  assert (HN : (0 < N)%Z) by (apply Z.pow_pos_nonneg; lia).
  assert (HNq : 0 < inject_Z N).
  { change 0 with (inject_Z 0). rewrite <- Zlt_Qlt. exact HN. }
  assert (E2 : 2 ^ e == / inject_Z N).
  { replace e with (- (- e))%Z at 1 by lia.
    rewrite Qpower_opp, two_power by lia. reflexivity. }
  assert (Ev : x / 2 ^ e == x * inject_Z N).
  { rewrite E2. field. lra. }
  assert (Hr : (A * N <= round_half_even (x / 2 ^ e) <= B * N)%Z).
  { apply Qround_half_even_between. rewrite Ev, !inject_Z_mult. split.
    - apply Qmult_le_compat_r; [exact HA | lra].
    - apply Qmult_le_compat_r; [exact HB | lra]. }
  destruct Hr as [R1 R2].
  rewrite Zle_Qle, inject_Z_mult in R1, R2.
  generalize dependent (round_half_even (x / 2 ^ e)). intros r R1 R2.
  split.
  - rewrite E2. apply Qle_shift_div_l; [exact HNq | exact R1].
  - rewrite E2. apply Qle_shift_div_r; [exact HNq | exact R2].
Qed.

Lemma b64_between (x : Q) (A B : Z) :
  Qabs x < two53 ->
  inject_Z A <= x <= inject_Z B ->
  inject_Z A <= b64 x <= inject_Z B.
Proof.
  intros Hx HAB. unfold b64.
  destruct (Qeq_bool x 0) eqn:E0.
  - apply Qeq_bool_iff in E0. rewrite E0 in HAB. exact HAB.
  - assert (Hne : ~ x == 0).
    { intros E. apply Qeq_bool_iff in E. congruence. }
    apply b64_grid; [|exact HAB].
    assert (ilog2 x < 53)%Z; [|lia].
    apply ilog2_below; [exact Hne|].
    change (2 ^ 53) with two53. exact Hx.
Qed.

(** An integer below [2 ^ 53] is a double. *)
Lemma b64_int (x : Q) (n : Z) :
  x == inject_Z n -> Qabs x < two53 -> b64 x == inject_Z n.
Proof.
  intros E Hx.
  destruct (b64_between x n n Hx) as [L H].
  { rewrite E. split; apply Qle_refl. }
  apply Qle_antisym; assumption.
Qed.

Lemma Qfloor_unique (v : Q) (n : Z) :
  inject_Z n <= v -> v < inject_Z (n + 1) -> Qfloor v = n.
Proof.
  intros H1 H2.
  pose proof (Qfloor_le v) as F1. pose proof (Qlt_floor v) as F2.
  assert (L1 : (n < Qfloor v + 1)%Z).
  { rewrite Zlt_Qlt. eapply Qle_lt_trans; [exact H1 | exact F2]. }
  assert (L2 : (Qfloor v < n + 1)%Z).
  { rewrite Zlt_Qlt. eapply Qle_lt_trans; [exact F1 | exact H2]. }
  lia.
Qed.

Lemma Qfloor_nonneg (v : Q) : 0 <= v -> (0 <= Qfloor v)%Z.
Proof.
  intros H. apply (Qfloor_resp_le 0 v) in H. exact H.
Qed.

Lemma py_int_nonneg (v : Q) : 0 <= v -> py_int v = Qfloor v.
Proof.
  destruct v as [n d]. unfold py_int, Qle. cbn. intros H.
  apply Z.quot_div_nonneg; lia.
Qed.

Lemma string_length_append (a b : string) :
  String.length (a ++ b) = (String.length a + String.length b)%nat.
Proof.
  induction a as [|c a IH]; cbn; [reflexivity | rewrite IH; reflexivity].
Qed.

Lemma fmt02_two (n : Z) :
  (0 <= n < 100)%Z -> String.length (fmt02 n) = 2%nat.
Proof.
  intros H.
  assert (Hall : forallb
                   (fun i => (String.length (fmt02 (Z.of_nat i)) =? 2)%nat)
                   (seq 0 100) = true)
    by (vm_compute; reflexivity).
  rewrite forallb_forall in Hall.
  specialize (Hall (Z.to_nat n)). rewrite Z2Nat.id in Hall by lia.
  apply Nat.eqb_eq, Hall, in_seq. lia.
Qed.

Lemma py_int_inject (n : Z) : py_int (inject_Z n) = n.
Proof. unfold py_int. cbn. apply Z.quot_1_r. Qed.

Lemma Qgtb_le (a b : Q) : a <= b -> Qgtb a b = false.
Proof.
  intros H. unfold Qgtb. apply Qle_bool_iff in H. rewrite H. reflexivity.
Qed.

Lemma Qabs_below (x : Q) : 0 <= x -> x < two53 -> Qabs x < two53.
Proof.
  intros H0 H. rewrite Qabs_pos by exact H0. exact H.
Qed.

(** The remainder of a time that is not negative. *)
Lemma fmod_nonneg (a b : Q) :
  0 <= a -> 0 < b ->
  fmod a b == a - b * inject_Z (Qfloor (a / b))
  /\ 0 <= fmod a b < b.
Proof.
  intros Ha Hb. unfold fmod.
  assert (Hq : 0 <= a / b).
  { apply Qle_shift_div_l; [exact Hb | lra]. }
  rewrite (py_int_nonneg _ Hq).
  pose proof (Qfloor_le (a / b)) as F1.
  pose proof (Qlt_floor (a / b)) as F2.
  rewrite inject_Z_plus in F2. change (inject_Z 1) with 1 in F2.
  assert (Eq : a == b * (a / b)) by (field; lra).
  set (q := inject_Z (Qfloor (a / b))) in *.
  split; [reflexivity|].
  split.
  - assert (b * q <= b * (a / b))
      by (apply Qmult_le_l; [exact Hb | exact F1]).
    lra.
  - assert (b * (a / b) < b * (q + 1))
      by (apply Qmult_lt_l; [exact Hb | exact F2]).
    lra.
Qed.

(** Rounding to the nearest integer does not pass an integer that is
    more than a half away. *)
Lemma Qround_half_even_below (n : Z) (v : Q) :
  v < inject_Z n + (1 # 2) -> (round_half_even v <= n)%Z.
Proof.
  intros H. unfold round_half_even.
  pose proof (Qfloor_le v) as F1.
  assert (Hf : (Qfloor v < n + 1)%Z).
  { rewrite Zlt_Qlt. rewrite inject_Z_plus. change (inject_Z 1) with 1. lra. }
  destruct (Qcompare_spec (v - inject_Z (Qfloor v)) (1 # 2)) as [E|L|G].
  - destruct (Z.eq_dec (Qfloor v) n) as [En|Nn].
    + rewrite En in E. lra.
    + destruct (Z.even (Qfloor v)); lia.
  - lia.
  - destruct (Z.eq_dec (Qfloor v) n) as [En|Nn].
    + rewrite En in G. lra.
    + lia.
Qed.

(** A hundred times a fraction that is a double stays below 100. *)
Lemma b64_below_100 (y : Q) :
  0 <= y -> y <= 100 - 100 / two53 -> b64 y < 100.
Proof.
  intros H0 H1.
  change (100 / two53) with (100 # 9007199254740992) in H1.
  destruct (Qlt_le_dec y 64) as [Hs|Hl].
  - destruct (b64_between y 0 64) as [_ H].
    + apply Qabs_below; [exact H0|]. unfold two53. lra.
    + change (inject_Z 0) with 0. change (inject_Z 64) with 64. lra.
    + change (inject_Z 64) with 64 in H. lra.
  - assert (Hy : y < 128) by lra.
    assert (El : ilog2 y = 6%Z).
    { apply ilog2_unique; rewrite Qabs_pos by exact H0.
      - change (2 ^ 6) with 64. exact Hl.
      - change (2 ^ (6 + 1)) with 128. exact Hy. }
    unfold b64.
    assert (E0 : Qeq_bool y 0 = false).
    { destruct (Qeq_bool y 0) eqn:E; [|reflexivity].
      apply Qeq_bool_iff in E. lra. }
    rewrite E0, El.
    change (Z.max (6 - 52) (-1074)) with (-46)%Z.
    set (N := inject_Z (2 ^ 46)).
    assert (E2 : 2 ^ (-46) == / N) by reflexivity.
    assert (HN : N == 70368744177664) by reflexivity.
    assert (Hr : (round_half_even (y / 2 ^ (-46))
                  <= 100 * 2 ^ 46 - 1)%Z).
    { apply Qround_half_even_below.
      assert (Ev : y / 2 ^ (-46) == y * N).
      { rewrite E2. field. rewrite HN. discriminate. }
      rewrite Ev.
      change (inject_Z (100 * 2 ^ 46 - 1)) with (100 * 70368744177664 - 1).
      rewrite HN. lra. }
    rewrite Zle_Qle in Hr.
    change (inject_Z (100 * 2 ^ 46 - 1)) with (100 * 70368744177664 - 1)
      in Hr.
    generalize dependent (round_half_even (y / 2 ^ (-46))). intros r Hr.
    rewrite E2, HN.
    apply Qlt_shift_div_r; [reflexivity|]. lra.
Qed.

(** The three fields of a time that is not negative. *)
Lemma time_fields_eq (seconds : Q) :
  0 <= seconds ->
  seconds < two53 ->
  let f := Qfloor seconds in
  let k := Qfloor (seconds / 60) in
  let c := Qfloor (b64 (py_fmod seconds 1 * 100)) in
  let h := Qfloor ((seconds - inject_Z f) * 100) in
  time_fields seconds = (k, (f - 60 * k)%Z, c)
  /\ (0 <= k)%Z
  /\ (0 <= f - 60 * k < 60)%Z
  /\ (0 <= h < 100)%Z
  /\ (h <= c <= h + 1)%Z
  /\ (c = (h + 1)%Z -> b64 (py_fmod seconds 1 * 100) == inject_Z c)
  /\ (seconds - inject_Z f <= 1 - 1 / two53 -> (c < 100)%Z).
Proof.
  intros H0 Hlt f k c h.
  pose proof (Qfloor_le seconds) as F1.
  pose proof (Qlt_floor seconds) as F2.
  pose proof (Qfloor_le (seconds / 60)) as K1.
  pose proof (Qlt_floor (seconds / 60)) as K2.
  fold f in F1, F2. fold k in K1, K2.
  rewrite inject_Z_plus in F2, K2.
  change (inject_Z 1) with 1 in F2, K2.
  assert (Eq : seconds == 60 * (seconds / 60)) by field.
  assert (Hk : (0 <= k)%Z) by (apply Qfloor_nonneg; lra).
  assert (Hkq : 0 <= inject_Z k).
  { change 0 with (inject_Z 0). rewrite <- Zle_Qle. exact Hk. }
  destruct (fmod_nonneg seconds 1 H0) as (M1 & M1a & M1b); [reflexivity|].
  destruct (fmod_nonneg seconds 60 H0) as (M60 & M60a & M60b);
    [reflexivity|].
  assert (E1 : Qfloor (seconds / 1) = f).
  { unfold f. apply Qfloor_comp. field. }
  rewrite E1 in M1. fold k in M60.
  (* the remainders are not negative: no adjustment *)
  assert (P1 : py_fmod seconds 1 = fmod seconds 1).
  { unfold py_fmod. rewrite (Qgtb_le 0 _ M1a). reflexivity. }
  assert (P60 : py_fmod seconds 60 = fmod seconds 60).
  { unfold py_fmod. rewrite (Qgtb_le 0 _ M60a). reflexivity. }
  (* seconds *)
  assert (Hs : Qfloor (fmod seconds 60) = (f - 60 * k)%Z).
  { apply Qfloor_unique.
    - unfold Z.sub. rewrite inject_Z_plus, inject_Z_opp, inject_Z_mult.
      change (inject_Z 60) with 60. lra.
    - unfold Z.sub.
      rewrite !inject_Z_plus, inject_Z_opp, inject_Z_mult.
      change (inject_Z 60) with 60. change (inject_Z 1) with 1. lra. }
  assert (Hs60 : (0 <= f - 60 * k < 60)%Z).
  { rewrite <- Hs. split.
    - apply Qfloor_nonneg. exact M60a.
    - assert (L : (Qfloor (fmod seconds 60) < 59 + 1)%Z); [|lia].
      rewrite Zlt_Qlt.
      eapply Qle_lt_trans; [apply Qfloor_le|].
      change (inject_Z (59 + 1)) with 60. exact M60b. }
  (* minutes *)
  assert (D1 : b64 (seconds - fmod seconds 60) == inject_Z (60 * k)).
  { apply b64_int.
    - rewrite inject_Z_mult. change (inject_Z 60) with 60. lra.
    - apply Qabs_below; lra. }
  assert (D2 : b64 (b64 (seconds - fmod seconds 60) / 60) == inject_Z k).
  { apply b64_int.
    - rewrite D1, inject_Z_mult. change (inject_Z 60) with 60. field.
    - assert (Ex : b64 (seconds - fmod seconds 60) / 60 == inject_Z k).
      { rewrite D1, inject_Z_mult. change (inject_Z 60) with 60. field. }
      rewrite Ex. apply Qabs_below; [exact Hkq | lra]. }
  assert (Em : py_floordiv seconds 60 = inject_Z k).
  { unfold py_floordiv. rewrite (Qgtb_le 0 _ M60a).
    set (div := b64 (b64 (seconds - fmod seconds 60) / 60)) in *.
    assert (Ef : Qfloor div = k).
    { rewrite (Qfloor_comp _ _ D2). apply Qfloor_Z. }
    rewrite Ef.
    assert (D3 : b64 (div - inject_Z k) == inject_Z 0).
    { apply b64_int.
      - rewrite D2. change (inject_Z 0) with 0. ring.
      - assert (Ex : div - inject_Z k == 0) by (rewrite D2; ring).
        rewrite Ex. reflexivity. }
    rewrite Qgtb_le; [reflexivity|].
    rewrite D3. discriminate. }
  (* hundredths *)
  assert (Hh : (0 <= h < 100)%Z).
  { unfold h. split.
    - apply Qfloor_nonneg. lra.
    - assert (L : (Qfloor ((seconds - inject_Z f) * 100) < 99 + 1)%Z);
        [|lia].
      rewrite Zlt_Qlt.
      eapply Qle_lt_trans; [apply Qfloor_le|].
      change (inject_Z (99 + 1)) with 100. lra. }
  assert (Ey : py_fmod seconds 1 * 100 == (seconds - inject_Z f) * 100).
  { rewrite P1, M1. ring. }
  pose proof (Qfloor_le ((seconds - inject_Z f) * 100)) as H1.
  pose proof (Qlt_floor ((seconds - inject_Z f) * 100)) as H2.
  fold h in H1, H2.
  destruct (b64_between (py_fmod seconds 1 * 100) h (h + 1)) as [B1 B2].
  { rewrite Ey. apply Qabs_below; [lra | unfold two53; lra]. }
  { rewrite Ey. split; [exact H1 | apply Qlt_le_weak; exact H2]. }
  assert (Hc : (h <= c <= h + 1)%Z).
  { unfold c. split.
    - rewrite <- (Qfloor_Z h). apply Qfloor_resp_le. exact B1.
    - rewrite <- (Qfloor_Z (h + 1)). apply Qfloor_resp_le. exact B2. }
  assert (Hb0 : 0 <= b64 (py_fmod seconds 1 * 100)).
  { eapply Qle_trans; [|exact B1].
    change 0 with (inject_Z 0). rewrite <- Zle_Qle. lia. }
  split.
  { unfold time_fields. rewrite Em, P60, py_int_inject.
    rewrite (py_int_nonneg _ M60a), Hs.
    rewrite (py_int_nonneg _ Hb0). reflexivity. }
  split; [exact Hk|]. split; [exact Hs60|]. split; [exact Hh|].
  split; [exact Hc|].
  split.
  - intros Ec. apply Qle_antisym.
    + rewrite Ec. exact B2.
    + apply Qfloor_le.
  - intros Hfrac.
    change (1 / two53) with (1 # 9007199254740992) in Hfrac.
    assert (Hb : b64 (py_fmod seconds 1 * 100) < 100).
    { apply b64_below_100.
      - rewrite Ey. lra.
      - rewrite Ey.
        change (100 / two53) with (100 # 9007199254740992). lra. }
    assert (L : (c < 99 + 1)%Z); [|lia].
    rewrite Zlt_Qlt. eapply Qle_lt_trans; [apply Qfloor_le|].
    change (inject_Z (99 + 1)) with 100. exact Hb.
Qed.

(** X21.  [format_time] reads a time back to the hundredth.  For a
    time from 0 up to 2^53 seconds the three numbers printed are the
    whole minutes, the whole seconds below 60, exactly, and the
    hundredths: the hundredths of the fraction cut off, or one more
    when the float product of the fraction and 100 rounds up to that
    whole number, so the time lies within one hundredth of what is
    shown.  The fraction of a double is at most 1 - 2^-53; then the
    hundredths stay below 100, and below 100 minutes the text has
    exactly the eight characters of [MM:SS:CC]. *)
Theorem X21_format_time_reads_back_the_time (seconds : Q) :
  0 <= seconds ->
  seconds < two53 ->
  exists m s c : Z,
    time_fields seconds = (m, s, c)
    /\ format_time seconds
       = (fmt02 m ++ ":" ++ fmt02 s ++ ":" ++ fmt02 c)%string
    /\ (0 <= m)%Z /\ (0 <= s < 60)%Z /\ (0 <= c <= 100)%Z
    /\ m = Qfloor (seconds / 60)
    /\ (60 * m + s)%Z = Qfloor seconds
    /\ (let h := Qfloor ((seconds - inject_Z (Qfloor seconds)) * 100) in
        (h <= c <= h + 1)%Z
        /\ (c = (h + 1)%Z ->
            b64 (py_fmod seconds 1 * 100) == inject_Z c))
    /\ inject_Z (60 * m + s) + (inject_Z c - 1) / 100 <= seconds
    /\ seconds < inject_Z (60 * m + s) + (inject_Z c + 1) / 100
    /\ (seconds - inject_Z (Qfloor seconds) <= 1 - 1 / two53 ->
        (c < 100)%Z
        /\ (seconds < 6000 -> String.length (format_time seconds) = 8%nat)).
Proof.
  intros H0 Hlt.
  destruct (time_fields_eq seconds H0 Hlt)
    as (E & Hk & Hs & Hh & Hc & Hup & Hfrac).
  set (f := Qfloor seconds) in *.
  set (k := Qfloor (seconds / 60)) in *.
  set (c := Qfloor (b64 (py_fmod seconds 1 * 100))) in *.
  set (h := Qfloor ((seconds - inject_Z f) * 100)) in *.
  exists k, (f - 60 * k)%Z, c.
  assert (Ef : format_time seconds
               = (fmt02 k ++ ":" ++ fmt02 (f - 60 * k) ++ ":"
                  ++ fmt02 c)%string).
  { unfold format_time. rewrite E. reflexivity. }
  split; [exact E|]. split; [exact Ef|].
  split; [exact Hk|]. split; [exact Hs|]. split; [lia|].
  split; [reflexivity|]. split; [lia|].
  split; [split; [exact Hc | exact Hup]|].
  pose proof (Qfloor_le ((seconds - inject_Z f) * 100)) as C1.
  pose proof (Qlt_floor ((seconds - inject_Z f) * 100)) as C2.
  fold h in C1, C2.
  rewrite inject_Z_plus in C2. change (inject_Z 1) with 1 in C2.
  replace (60 * k + (f - 60 * k))%Z with f by lia.
  assert (Hq1 : inject_Z h <= inject_Z c) by (rewrite <- Zle_Qle; lia).
  assert (Hq2 : inject_Z c <= inject_Z h + 1).
  { change 1 with (inject_Z 1). rewrite <- inject_Z_plus, <- Zle_Qle. lia. }
  assert (E1 : inject_Z c - 1 == 100 * ((inject_Z c - 1) / 100)) by field.
  assert (E2 : inject_Z c + 1 == 100 * ((inject_Z c + 1) / 100)) by field.
  split; [lra|]. split; [lra|].
  intros Hd. pose proof (Hfrac Hd) as Hc100.
  split; [exact Hc100|].
  intros H6000. rewrite Ef.
  assert (Hm : (0 <= k < 100)%Z).
  { split; [exact Hk|].
    assert (L : (k < 99 + 1)%Z); [|lia].
    rewrite Zlt_Qlt. eapply Qle_lt_trans; [apply Qfloor_le|].
    change (inject_Z (99 + 1)) with 100.
    assert (Eq : seconds == 60 * (seconds / 60)) by field. lra. }
  rewrite !string_length_append, !fmt02_two by lia. reflexivity.
Qed.

(** The double written [0.03] is a little below three hundredths; its
    product with 100 rounds up to 3, and [03] is printed.  The double
    written [83.4567] prints as one minute, 23 seconds and 45. *)
Lemma X21_format_time_witness :
  (exists m s c : Z,
      time_fields double_0_03 = (m, s, c)
      /\ Qfloor ((double_0_03 - inject_Z (Qfloor double_0_03)) * 100) = 2%Z
      /\ format_time double_0_03 = "00:00:03"%string)
  /\ (exists m s c : Z,
         time_fields double_83_4567 = (m, s, c)
         /\ format_time double_83_4567 = "01:23:45"%string
         /\ String.length (format_time double_83_4567) = 8%nat).
Proof.
  split.
  - assert (H0 : 0 <= double_0_03) by (vm_compute; discriminate).
    assert (H1 : double_0_03 < two53) by (vm_compute; reflexivity).
    destruct (X21_format_time_reads_back_the_time double_0_03 H0 H1)
      as (m & s & c & E & _).
    exists m, s, c. split; [exact E|].
    split; [vm_compute; reflexivity | vm_compute; reflexivity].
  - assert (H0 : 0 <= double_83_4567) by (vm_compute; discriminate).
    assert (H1 : double_83_4567 < two53) by (vm_compute; reflexivity).
    assert (H2 : double_83_4567 - inject_Z (Qfloor double_83_4567)
                 <= 1 - 1 / two53) by (vm_compute; discriminate).
    assert (H3 : double_83_4567 < 6000) by (vm_compute; reflexivity).
    destruct (X21_format_time_reads_back_the_time double_83_4567 H0 H1)
      as (m & s & c & E & _ & _ & _ & _ & _ & _ & _ & _ & _ & Hd).
    exists m, s, c. split; [exact E|].
    split; [vm_compute; reflexivity|].
    apply (Hd H2). exact H3.
Defined.

End ScreenFacts.

(** ** Notifications and the weather *)

Module HudFacts.
Import Trial Hud.
Local Open Scope Q_scope.

(** The time a run of ticks takes, in milliseconds. *)
Lemma tick_step (ms : Z) (t : FadingText) :
  (0 <= ms)%Z ->
  0 <= seconds_left t ->
  let t1 := tick ms t in
  text t1 = text t
  /\ alpha t1 = Some (500 * seconds_left t1)
  /\ 0 <= seconds_left t1 <= seconds_left t
  /\ (0.001 * inject_Z ms <= seconds_left t ->
      seconds_left t1 == seconds_left t - 0.001 * inject_Z ms)
  /\ (seconds_left t <= 0.001 * inject_Z ms -> seconds_left t1 == 0).
Proof.
  intros Hms H0. cbn.
  assert (Hd : 0 <= inject_Z ms).
  { change (inject_Z 0 <= inject_Z ms). rewrite <- Zle_Qle. exact Hms. }
  split; [reflexivity|]. split; [reflexivity|].
  unfold py_max.
  destruct (Qgtb (seconds_left t - 0.001 * inject_Z ms) 0) eqn:E;
    [apply TrialFacts.Qgtb_true_lt in E | apply TrialFacts.Qgtb_false_le in E];
    repeat split; intros; lra.
Qed.

Lemma ticks_run (times : list Z) :
  forall t : FadingText,
    Forall (fun ms => (0 <= ms)%Z) times ->
    0 <= seconds_left t ->
    let total := inject_Z (fold_right Z.add 0%Z times) in
    let t' := ticks times t in
    text t' = text t
    /\ (times <> [] -> alpha t' = Some (500 * seconds_left t'))
    /\ 0 <= seconds_left t' <= seconds_left t
    /\ (0.001 * total <= seconds_left t ->
        seconds_left t' == seconds_left t - 0.001 * total)
    /\ (seconds_left t <= 0.001 * total -> seconds_left t' == 0).
Proof.
  induction times as [|ms rest IH]; intros t Hall H0.
  - unfold ticks. cbn [fold_left fold_right]. change (inject_Z 0) with 0.
    split; [reflexivity|]. split; [intros H; contradiction|].
    split; [lra|]. split; intros; lra.
  - inversion Hall as [|? ? Hms Hrest]; subst.
    destruct (tick_step ms t Hms H0) as (Ht & Ha & Hb & Hc & Hz).
    assert (H1 : 0 <= seconds_left (tick ms t)) by apply Hb.
    destruct (IH (tick ms t) Hrest H1) as (Ht' & Ha' & Hb' & Hc' & Hz').
    assert (Hsum : 0 <= inject_Z (fold_right Z.add 0%Z rest)).
    { change (inject_Z 0 <= inject_Z (fold_right Z.add 0%Z rest)).
      rewrite <- Zle_Qle. clear - Hrest.
      induction Hrest; cbn; lia. }
    assert (Hd : 0 <= inject_Z ms).
    { change (inject_Z 0 <= inject_Z ms). rewrite <- Zle_Qle. exact Hms. }
    change (ticks (ms :: rest) t) with (ticks rest (tick ms t)).
    cbn [fold_right]. rewrite inject_Z_plus.
    split; [rewrite Ht'; exact Ht|].
    split.
    { intros _. destruct rest as [|ms2 rest2]; [exact Ha|].
      apply Ha'. discriminate. }
    split; [lra|].
    split.
    + intros Hle. rewrite Hc' by lra. rewrite Hc by lra. ring.
    + intros Hge.
      destruct (Qlt_le_dec (seconds_left t) (0.001 * inject_Z ms)) as [L|L].
      * assert (Z1 : seconds_left (tick ms t) == 0) by (apply Hz; lra).
        apply Hz'. lra.
      * apply Hz'. rewrite Hc by exact L. lra.
Qed.

(** X22.  A notification fades out on time.  After [set_text] with
    [seconds] to show, and ticks of frames that take [total]
    milliseconds together, the time left is [seconds - total / 1000]
    and never below 0; every tick hands the surface 500 times the
    time left as its opacity, so the text is gone exactly when the
    frames have taken [seconds] or more. *)
Theorem X22_a_notification_fades_out_on_time
    (new_text : string) (seconds : Q) (times : list Z) (self : FadingText) :
  0 <= seconds ->
  Forall (fun ms => (0 <= ms)%Z) times ->
  let total := inject_Z (fold_right Z.add 0%Z times) in
  let t := ticks times (set_text new_text seconds self) in
  text t = new_text
  /\ 0 <= seconds_left t <= seconds
  /\ (times <> [] -> alpha t = Some (500 * seconds_left t))
  /\ (0.001 * total <= seconds ->
      seconds_left t == seconds - 0.001 * total)
  /\ (seconds <= 0.001 * total -> seconds_left t == 0).
Proof.
  intros H0 Hall total t.
  destruct (ticks_run times (set_text new_text seconds self) Hall H0)
    as (Ht & Ha & Hb & Hc & Hz).
  split; [exact Ht|]. split; [exact Hb|]. split; [exact Ha|].
  split; [exact Hc | exact Hz].
Qed.

Lemma X22_a_notification_witness :
  let t := ticks [1000; 500; 500]%Z
             (set_text "Autopilot On" 2
                {| text := EmptyString; seconds_left := 0; alpha := None |}) in
  text t = "Autopilot On"%string /\ seconds_left t == 0.
Proof.
  intros t.
  assert (H0 : 0 <= 2) by (vm_compute; discriminate).
  assert (Hall : Forall (fun ms => (0 <= ms)%Z) [1000; 500; 500]%Z)
    by (repeat constructor; lia).
  destruct (X22_a_notification_fades_out_on_time
              "Autopilot On" 2 [1000; 500; 500]%Z
              {| text := EmptyString; seconds_left := 0; alpha := None |}
              H0 Hall)
    as (Ht & _ & _ & _ & Hz).
  split; [exact Ht|]. apply Hz. vm_compute. discriminate.
Defined.

(** *** [next_weather] *)

Section Weather.
Import Weather.
Variable W : Type.

#[local] Arguments py_index : simpl never.
#[local] Arguments py_mod : simpl never.

(** [next_weather] in terms of the new index. *)
Lemma next_weather_eq (reverse : bool) (w : World W) :
  _weather_presets w <> [] ->
  let n := Z.of_nat (List.length (_weather_presets w)) in
  let i := ((_weather_index w + if reverse then -1 else 1) mod n)%Z in
  (0 <= i < n)%Z
  /\ exists preset,
       nth_error (_weather_presets w) (Z.to_nat i) = Some preset
       /\ next_weather reverse w
          = Ok (tt,
                {| _weather_presets := _weather_presets w;
                   _weather_index := i;
                   notified :=
                     notified w ++ [("Weather: " ++ snd preset)%string];
                   weather := Some (fst preset) |}).
Proof.
  intros Hne n i.
  assert (Hn : (0 < n)%Z).
  { unfold n. destruct (_weather_presets w); [contradiction|].
    cbn [List.length]. lia. }
  assert (Hi : (0 <= i < n)%Z) by (apply Z.mod_pos_bound; exact Hn).
  split; [exact Hi|].
  destruct (TrialMore.py_index_in_range (_weather_presets w) i Hi)
    as (preset & Ep & En).
  exists preset. split; [exact En|].
  destruct w as [presets idx notes cur]. cbn in *.
  unfold next_weather, bind, modify, gets, lift. cbn.
  unfold py_mod. fold n.
  destruct (Z.eqb_spec n 0) as [E0|_]; [lia|].
  cbn. fold i. rewrite Ep. reflexivity.
Qed.

(** X23.  The weather keys walk a ring of presets.  With no preset
    [next_weather] raises [ZeroDivisionError].  Otherwise it returns
    with the index moved one step, wrapped into the list, applies the
    preset at that index and notifies its name; a step the other way
    then brings the index back. *)
Theorem X23_weather_keys_walk_a_ring (reverse : bool) (w : World W) :
  (_weather_presets w = [] ->
   next_weather reverse w = Raise ZeroDivisionError)
  /\ (_weather_presets w <> [] ->
      let n := Z.of_nat (List.length (_weather_presets w)) in
      exists w' preset,
        next_weather reverse w = Ok (tt, w')
        /\ _weather_presets w' = _weather_presets w
        /\ _weather_index w'
           = ((_weather_index w + if reverse then -1 else 1) mod n)%Z
        /\ (0 <= _weather_index w' < n)%Z
        /\ nth_error (_weather_presets w) (Z.to_nat (_weather_index w'))
           = Some preset
        /\ weather w' = Some (fst preset)
        /\ notified w'
           = notified w ++ [("Weather: " ++ snd preset)%string]
        /\ ((0 <= _weather_index w < n)%Z ->
            exists w'',
              next_weather (negb reverse) w' = Ok (tt, w'')
              /\ _weather_index w'' = _weather_index w)).
Proof.
  split.
  - destruct w as [presets idx notes cur]. cbn. intros ->. reflexivity.
  - intros Hne n.
    destruct (next_weather_eq reverse w Hne) as (Hi & preset & En & E).
    eexists. exists preset.
    split; [exact E|]. cbn.
    split; [reflexivity|]. split; [reflexivity|].
    split; [exact Hi|]. split; [exact En|].
    split; [reflexivity|]. split; [reflexivity|].
    intros Hin.
    match type of E with
    | _ = Ok (tt, ?w1) =>
        destruct (next_weather_eq (negb reverse) w1 Hne)
          as (_ & preset2 & _ & E2)
    end.
    cbn in E2. eexists. split; [exact E2|]. cbn. fold n.
    destruct reverse; cbn.
    + rewrite Zplus_mod_idemp_l.
      replace (_weather_index w + -1 + 1)%Z with (_weather_index w) by lia.
      apply Z.mod_small. exact Hin.
    + rewrite Zplus_mod_idemp_l.
      replace (_weather_index w + 1 + -1)%Z with (_weather_index w) by lia.
      apply Z.mod_small. exact Hin.
Qed.

End Weather.

End HudFacts.

(** ** The collision sensor and its graph *)

Module CollisionFacts.
Import Control Collision.
Local Open Scope R_scope.

#[local] Arguments Nat.ltb : simpl never.
#[local] Arguments intensity : simpl never.

Lemma intensity_nonneg (e : CollisionEvent) : 0 <= intensity e.
Proof. unfold intensity. apply sqrt_pos. Qed.

Lemma in_skipn {A} (v : A) (n : nat) (l : list A) :
  In v (skipn n l) -> In v l.
Proof.
  intros H. rewrite <- (firstn_skipn n l). apply in_or_app. right. exact H.
Qed.

Lemma on_collision_history (e : CollisionEvent) (s : CollisionSensor) :
  (List.length (history s) <= 4000)%nat ->
  history (_on_collision e s)
  = skipn (List.length (history s) + 1 - 4000) (history s ++ [entry e])
  /\ (List.length (history (_on_collision e s)) <= 4000)%nat.
Proof.
  intros Hlen. unfold _on_collision. cbn [history]. fold (entry e).
  rewrite length_app. cbn [List.length].
  destruct (Nat.ltb_spec 4000 (List.length (history s) + 1)) as [Hfull|Hroom].
  - replace (List.length (history s) + 1 - 4000)%nat with 1%nat by lia.
    split; [reflexivity|].
    destruct (history s ++ [entry e]) as [|p rest] eqn:E.
    + cbn. lia.
    + apply (f_equal (@List.length _)) in E.
      rewrite length_app in E. cbn in E. cbn [tl]. lia.
  - replace (List.length (history s) + 1 - 4000)%nat with 0%nat by lia.
    split; [reflexivity|].
    rewrite length_app. cbn [List.length]. lia.
Qed.

Lemma collisions_history (events : list CollisionEvent) :
  forall s : CollisionSensor,
    (List.length (history s) <= 4000)%nat ->
    history (collisions events s)
    = skipn (List.length (history s) + List.length events - 4000)
        (history s ++ map entry events)
    /\ (List.length (history (collisions events s)) <= 4000)%nat
    /\ notified (collisions events s)
       = notified s ++ map other_actor events.
Proof.
  induction events as [|e rest IH]; intros s Hlen.
  - cbn [collisions fold_left map List.length].
    rewrite !app_nil_r.
    replace (List.length (history s) + 0 - 4000)%nat with 0%nat by lia.
    repeat split; [exact Hlen].
  - destruct (on_collision_history e s Hlen) as (H1 & L1).
    destruct (IH (_on_collision e s) L1) as (H2 & L2 & N2).
    change (collisions (e :: rest) s)
      with (collisions rest (_on_collision e s)).
    split; [|split; [exact L2|]].
    + rewrite H2, H1. cbn [map List.length].
      destruct (Nat.ltb_spec 4000 (List.length (history s) + 1))
        as [Hfull|Hroom].
      * assert (E4 : List.length (history s) = 4000%nat) by lia.
        replace (List.length (history s) + 1 - 4000)%nat with 1%nat by lia.
        rewrite length_skipn, length_app. cbn [List.length].
        replace (List.length (history s) + 1 - 1 + List.length rest - 4000)%nat
          with (List.length rest) by lia.
        replace (List.length (history s) + S (List.length rest) - 4000)%nat
          with (S (List.length rest)) by lia.
        destruct (history s) as [|p h]; [discriminate E4|].
        cbn [app skipn]. rewrite <- app_assoc. reflexivity.
      * replace (List.length (history s) + 1 - 4000)%nat with 0%nat by lia.
        cbn [skipn]. rewrite length_app. cbn [List.length].
        rewrite <- app_assoc. cbn [app].
        f_equal. lia.
    + rewrite N2. cbn [_on_collision notified map].
      rewrite <- app_assoc. reflexivity.
Qed.

(** X24.  The collision sensor keeps the latest 4000 collisions.
    After any run of collision events the history is the old history
    followed by the new entries, less what no longer fits at the
    front: it never has more than 4000 entries, and the newest event
    is always its last.  Every intensity in it is at least 0, and each
    event is notified to the HUD. *)
Theorem X24_collision_history_keeps_the_latest
    (events : list CollisionEvent) (s : CollisionSensor) :
  (List.length (history s) <= 4000)%nat ->
  let s' := collisions events s in
  history s'
  = skipn (List.length (history s) + List.length events - 4000)
      (history s ++ map entry events)
  /\ (List.length (history s') <= 4000)%nat
  /\ (forall earlier e,
      events = earlier ++ [e] -> last (history s') (entry e) = entry e)
  /\ (Forall (fun p => 0 <= snd p) (history s) ->
      Forall (fun p => 0 <= snd p) (history s'))
  /\ notified s' = notified s ++ map other_actor events.
Proof.
  intros Hlen s'.
  destruct (collisions_history events s Hlen) as (H & L & N).
  split; [exact H|]. split; [exact L|].
  split; [|split; [|exact N]].
  - intros pre e ->. fold s' in H. rewrite H.
    rewrite map_app, app_assoc. cbn [map].
    rewrite length_app. cbn [List.length].
    set (h := history s ++ map entry pre).
    assert (Hh : List.length h
                 = (List.length (history s) + List.length pre)%nat).
    { unfold h. rewrite length_app, length_map. reflexivity. }
    assert (Hk : (List.length (history s) + (List.length pre + 1) - 4000
                  <= List.length h)%nat) by lia.
    rewrite skipn_app.
    replace (List.length (history s) + (List.length pre + 1) - 4000
             - List.length h)%nat with 0%nat by lia.
    cbn [skipn]. apply last_last.
  - intros Hpos. fold s' in H. rewrite H.
    apply Forall_forall. intros p Hp.
    apply in_skipn in Hp.
    apply in_app_or in Hp. destruct Hp as [Hp|Hp].
    + rewrite Forall_forall in Hpos. apply Hpos. exact Hp.
    + apply in_map_iff in Hp. destruct Hp as (e & <- & _).
      apply intensity_nonneg.
Qed.

Lemma X24_collision_history_witness :
  let bump := {| frame := 7; other_actor := "Sedan";
                 normal_impulse := {| x := 3; y := 4; z := 0 |} |} in
  (List.length (history (collisions [bump; bump] new_sensor)) <= 4000)%nat
  /\ notified (collisions [bump; bump] new_sensor)
     = ["Sedan"; "Sedan"]%string.
Proof.
  intros bump.
  assert (Hlen : (List.length (history new_sensor) <= 4000)%nat)
    by (cbn; lia).
  destruct (X24_collision_history_keeps_the_latest
              [bump; bump] new_sensor Hlen)
    as (_ & L & _ & _ & N).
  split; [exact L | exact N].
Defined.

(** *** The graph *)

Lemma history_sum (h : list (Z * R)) :
  forall (acc : Z -> R) (k : Z),
    fold_left
      (fun (history : Z -> R) (entry : Z * R) =>
         let '(frame, intensity) := entry in
         fun k => if (k =? frame)%Z then history k + intensity
                  else history k)
      h acc k
    = acc k + total_at k h.
Proof.
  induction h as [|[f i] rest IH]; intros acc k.
  - unfold total_at. cbn. lra.
  - cbn [fold_left]. rewrite IH. unfold total_at. cbn [filter fst].
    rewrite (Z.eqb_sym f k).
    destruct (k =? f)%Z; cbn [map fold_right snd]; lra.
Qed.

Lemma total_at_nonneg (k : Z) (h : list (Z * R)) :
  Forall (fun p => 0 <= snd p) h -> 0 <= total_at k h.
Proof.
  unfold total_at. induction 1 as [|[f i] rest Hp _ IH]; cbn [filter fst].
  - cbn. lra.
  - destruct (f =? k)%Z; [|exact IH].
    cbn [map fold_right snd] in *. lra.
Qed.

Lemma fold_max_spec (rest : list R) :
  forall first : R,
    let m := fold_left (fun m v => if Rgtb v m then v else m) rest first in
    first <= m /\ Forall (fun v => v <= m) rest.
Proof.
  induction rest as [|v rest IH]; intros first; cbn [fold_left].
  - split; [lra | constructor].
  - cbn zeta. destruct (Rgtb v first) eqn:E; unfold Rgtb in E;
      destruct (Rlt_dec first v) as [L|L]; try discriminate E.
    + destruct (IH v) as (H1 & H2).
      split; [lra|]. constructor; [exact H1 | exact H2].
    + destruct (IH first) as (H1 & H2).
      split; [exact H1|]. constructor; [lra | exact H2].
Qed.

Lemma comprehension_div (c : R) (xs : list R) :
  c <> 0 ->
  comprehension (fun v => py_div v c) xs = Ok (map (fun v => v / c) xs).
Proof.
  intros Hc. induction xs as [|v rest IH]; cbn [comprehension map].
  - reflexivity.
  - unfold py_div at 1. destruct (Req_dec_T c 0); [contradiction|].
    rewrite IH. reflexivity.
Qed.

(** X25.  The collision graph of the HUD is always drawable.  The
    history read by [get_collision_history] gives for each frame the
    sum of the intensities recorded for it, 0 where none was; with no
    negative intensity in the history, the graph of the 200 frames
    before the current one is computed without a division by zero,
    has 200 values, each the frame's sum over a scale of at least 1,
    and every value lies between 0 and 1. *)
Theorem X25_collision_graph_is_always_drawable
    (s : CollisionSensor) (hud_frame : Z) :
  Forall (fun p => 0 <= snd p) (history s) ->
  let colhist := get_collision_history s in
  (forall k, colhist k = total_at k (history s) /\ 0 <= colhist k)
  /\ exists graph max_col,
       collision_graph colhist hud_frame = Ok graph
       /\ 1 <= max_col
       /\ graph
          = map (fun i => colhist (Z.of_nat i + hud_frame - 200)%Z / max_col)
              (seq 0 200)
       /\ List.length graph = 200%nat
       /\ Forall (fun v => 0 <= v <= 1) graph.
Proof.
  intros Hpos colhist.
  assert (Hcol : forall k,
             colhist k = total_at k (history s) /\ 0 <= colhist k).
  { intros k. unfold colhist, get_collision_history.
    rewrite history_sum. split; [lra|].
    pose proof (total_at_nonneg k _ Hpos). lra. }
  split; [exact Hcol|].
  unfold collision_graph.
  set (f := fun i : nat => colhist (Z.of_nat i + hud_frame - 200)%Z).
  change (seq 0 200) with (0%nat :: seq 1 199).
  cbn [map py_max_list].
  set (window := map f (seq 1 199)).
  destruct (fold_max_spec window (f 0%nat)) as (M0 & Mall).
  set (m := fold_left (fun m v => if Rgtb v m then v else m) window (f 0%nat))
    in *.
  assert (Hmax : 1 <= py_max 1 m /\ m <= py_max 1 m).
  { unfold py_max, Rgtb. destruct (Rlt_dec 1 m); lra. }
  destruct Hmax as (Hone & Hm).
  assert (Hne : py_max 1 m <> 0) by lra.
  exists (map (fun v => v / py_max 1 m) (f 0%nat :: window)), (py_max 1 m).
  split; [apply (comprehension_div _ (f 0%nat :: window) Hne)|].
  split; [exact Hone|].
  split.
  { unfold window. cbn [map]. rewrite map_map. reflexivity. }
  split.
  { unfold window. rewrite length_map. cbn [List.length].
    rewrite length_map, length_seq. reflexivity. }
  apply Forall_map.
  assert (Hin : Forall (fun v => 0 <= v <= m) (f 0%nat :: window)).
  { constructor.
    - split; [apply Hcol | exact M0].
    - unfold window in *. apply Forall_map. apply Forall_map in Mall.
      apply Forall_forall. intros i Hi. rewrite Forall_forall in Mall.
      split; [apply Hcol | apply Mall; exact Hi]. }
  eapply Forall_impl; [|exact Hin].
  cbn beta. intros v (Hv0 & Hvm). split.
  - apply Rmult_le_pos; [exact Hv0|].
    apply Rlt_le, Rinv_0_lt_compat. lra.
  - apply Rmult_le_reg_r with (r := py_max 1 m); [lra|].
    unfold Rdiv. rewrite Rmult_assoc, Rinv_l by exact Hne. lra.
Qed.

Lemma X25_collision_graph_witness :
  exists graph,
    collision_graph (get_collision_history new_sensor) 1000 = Ok graph
    /\ List.length graph = 200%nat.
Proof.
  destruct (X25_collision_graph_is_always_drawable new_sensor 1000)
    as (_ & graph & max_col & E & _ & _ & Hlen & _).
  - constructor.
  - exists graph. split; [exact E | exact Hlen].
Defined.

End CollisionFacts.

(** ** A trial driven from the keyboard *)

Module SessionFacts.
Import Trial Game Loop.
Local Open Scope py_scope.

Ltac run :=
  cbv [bind ret gets modify when raise lift attr assign on_host
       time_time get_transform record_event generate_code];
  cbn.

Ltac open_state s :=
  let o := fresh "o" in
  let h := fresh "h" in
  destruct s as [o h]; destruct o, h; cbn in *.












End SessionFacts.

(** ** The configured key bindings *)

Module ConfigFacts.
Import Config.
Local Open Scope string_scope.

Lemma substring_all (s : string) : substring 0 (String.length s) s = s.
Proof.
  induction s as [|c s IH]; cbn; [reflexivity | rewrite IH; reflexivity].
Qed.

Lemma from4_key (c : string) : from4 ("key_" ++ c) = c.
Proof.
  unfold from4. cbn [append String.length Nat.sub substring].
  rewrite Nat.sub_0_r. apply substring_all.
Qed.

Lemma prefix_key (o : string) :
  String.prefix "key_" o = true -> o = "key_" ++ from4 o.
Proof.
  intros H. apply prefix_correct in H. cbn [String.length] in H.
  destruct o as [|c1 [|c2 [|c3 [|c4 rest]]]]; cbn in H; try discriminate.
  injection H as -> -> -> ->.
  pose proof (from4_key rest) as F. cbn [append] in F.
  rewrite F. reflexivity.
Qed.

Lemma dict_get_set_same {V} (k : string) (v : V) (d : dict V) :
  dict_get k (dict_set k v d) = Ok v.
Proof.
  induction d as [|[k' v'] rest IH]; cbn.
  - rewrite String.eqb_refl. reflexivity.
  - destruct (String.eqb k k') eqn:E; cbn; rewrite E; [reflexivity | exact IH].
Qed.

Lemma dict_get_set_other {V} (k k0 : string) (v : V) (d : dict V) :
  k <> k0 -> dict_get k (dict_set k0 v d) = dict_get k d.
Proof.
  intros Hne. induction d as [|[k' v'] rest IH]; cbn.
  - destruct (String.eqb_spec k k0); [contradiction | reflexivity].
  - destruct (String.eqb_spec k0 k') as [<-|Hk]; cbn.
    + destruct (String.eqb_spec k k0); [contradiction | reflexivity].
    + rewrite IH. reflexivity.
Qed.

(** [key_mapping] holds exactly the [key_] options of the section. *)
Lemma load_key_mapping_get (options : list (string * string)) (c : string) :
  NoDup (map fst options) ->
  forall acc : dict string,
    dict_get c
      (fold_left
         (fun key_mapping (entry : string * string) =>
            let (option, value) := entry in
            if String.prefix "key_" option
            then dict_set (from4 option) value key_mapping
            else key_mapping)
         options acc)
    = match find (fun e => String.eqb (fst e) ("key_" ++ c)) options with
      | Some e => Ok (snd e)
      | None => dict_get c acc
      end.
Proof.
  induction options as [|[o v] rest IH]; intros Hnd acc.
  - reflexivity.
  - inversion Hnd as [|? ? Hnot Hrest]; subst.
    cbn [fold_left find fst snd]. rewrite (IH Hrest).
    destruct (String.eqb_spec o ("key_" ++ c)) as [->|Hne].
    + assert (Hfind : find (fun e => String.eqb (fst e) ("key_" ++ c)) rest
                      = None).
      { destruct (find _ rest) as [[o' v']|] eqn:E; [|reflexivity].
        apply find_some in E. destruct E as (Hin & Heq).
        apply String.eqb_eq in Heq. cbn in Heq. subst o'.
        exfalso. apply Hnot. cbn [map fst].
        apply (in_map fst) in Hin. exact Hin. }
      rewrite Hfind.
      assert (Hp : String.prefix "key_" ("key_" ++ c) = true).
      { apply prefix_correct. cbn. destruct c; reflexivity. }
      rewrite Hp, from4_key. apply dict_get_set_same.
    + destruct (find _ rest) as [e|]; [reflexivity|].
      destruct (String.prefix "key_" o) eqn:Hp; [|reflexivity].
      apply dict_get_set_other. intros ->.
      apply Hne. apply prefix_key. exact Hp.
Qed.

(** A missing entry met before any entry bound to the key. *)
Lemma meets_missing_at (pre post : list string) (c : string)
    (keys : Control.KeyMap.t) (key : Z) :
  dict_get c keys = Raise KeyError ->
  (forall c', In c' pre ->
              exists k, dict_get c' keys = Ok k
                        /\ Control.bound_to k key = false) ->
  Control.meets_missing (pre ++ c :: post) keys key = true.
Proof.
  intros Hc. induction pre as [|c0 pre IH]; intros Hpre.
  - cbn. rewrite Hc. reflexivity.
  - cbn [app Control.meets_missing].
    destruct (Hpre c0 (or_introl eq_refl)) as (k & -> & ->).
    apply IH. intros c' Hin. apply Hpre. right. exact Hin.
Qed.

Section Bindings.
Variable K : string -> option Z.

Lemma dict_get_resolve (c : string) (key_mapping : dict string) :
  dict_get c (resolve K key_mapping)
  = match dict_get c key_mapping with
    | Ok name => Ok (K name)
    | Raise e => Raise e
    end.
Proof.
  induction key_mapping as [|[c' name] rest IH]; cbn; [reflexivity|].
  destruct (String.eqb c c'); [reflexivity | exact IH].
Qed.

(** X27.  The configurable key bindings need their entries in the
    configuration file.  [load_config] puts into [key_mapping] exactly
    the [key_] options of the [KeyMapping] section, under their names
    without the prefix; with no such section [key_mapping] is empty.
    [_handle_key] takes the fixed keys first and then looks the four
    bindings up one after the other, in the order reverse, handbrake,
    hide_hud, toggle_headlights.  It raises [KeyError] exactly for a
    key that is not a fixed one and whose lookups meet a missing entry
    before an entry bound to the key, and returns for every other key.
    So a key raises when some entry is missing and none of the entries
    before it names the key; with no section, or no [key_reverse]
    option, every key but the fixed ones raises; and with the four
    options there no key raises. *)
Theorem X27_key_bindings_need_their_config_entries
    (options : list (string * string)) (key mods : Z) (s : Control.Cab) :
  NoDup (map fst options) ->
  let key_mapping := load_key_mapping (Some options) in
  let entry c := find (fun e => String.eqb (fst e) ("key_" ++ c)) options in
  Control.key_mapping (Control.controller s) = resolve K key_mapping ->
  (forall c,
      dict_get c key_mapping
      = match entry c with
        | Some e => Ok (snd e)
        | None => Raise KeyError
        end)
  /\ (Control.fixed_key key mods = false ->
      Control.meets_missing Control.bindings (resolve K key_mapping) key
      = true ->
      Control._handle_key key mods s = Raise KeyError)
  /\ (Control.fixed_key key mods
      || negb (Control.meets_missing Control.bindings
                 (resolve K key_mapping) key) = true ->
      exists s', Control._handle_key key mods s = Ok (tt, s'))
  /\ (forall pre c post,
         Control.bindings = (pre ++ c :: post)%list ->
         entry c = None ->
         (forall c', In c' pre ->
                     exists e, entry c' = Some e /\ K (snd e) <> Some key) ->
         Control.fixed_key key mods = false ->
         Control._handle_key key mods s = Raise KeyError)
  /\ (entry "reverse" = None ->
      Control.fixed_key key mods = false ->
      Control._handle_key key mods s = Raise KeyError)
  /\ ((forall c, In c Control.bindings -> entry c <> None) ->
      exists s', Control._handle_key key mods s = Ok (tt, s'))
  /\ (forall s0,
         Control.key_mapping (Control.controller s0)
         = resolve K (load_key_mapping None) ->
         Control.fixed_key key mods = false ->
         Control._handle_key key mods s0 = Raise KeyError).
Proof.
  intros Hnd key_mapping entry Hs.
  assert (Hget : forall c,
             dict_get c key_mapping
             = match entry c with
               | Some e => Ok (snd e)
               | None => Raise KeyError
               end).
  { intros c. unfold key_mapping, load_key_mapping.
    rewrite (load_key_mapping_get options c Hnd []). reflexivity. }
  assert (Hraise : forall s1 : Control.Cab,
             Control.fixed_key key mods = false ->
             Control.meets_missing Control.bindings
               (Control.key_mapping (Control.controller s1)) key = true ->
             Control._handle_key key mods s1 = Raise KeyError).
  { intros s1 Hf Hm.
    pose proof (ControlMore.handle_key_outcome key mods s1) as H.
    destruct (Control._handle_key key mods s1) as [[[] s']|e].
    - destruct H as (H & _). rewrite Hf, Hm in H. discriminate H.
    - destruct H as (-> & _). reflexivity. }
  assert (Hret : Control.fixed_key key mods
                 || negb (Control.meets_missing Control.bindings
                            (resolve K key_mapping) key) = true ->
                 exists s', Control._handle_key key mods s = Ok (tt, s')).
  { intros Hok.
    pose proof (ControlMore.handle_key_outcome key mods s) as H.
    destruct (Control._handle_key key mods s) as [[[] s']|e].
    - exists s'. reflexivity.
    - destruct H as (_ & Hf & Hm). rewrite Hs in Hm.
      rewrite Hf, Hm in Hok. discriminate Hok. }
  assert (Hat : forall pre c post,
             Control.bindings = (pre ++ c :: post)%list ->
             entry c = None ->
             (forall c', In c' pre ->
                         exists e, entry c' = Some e
                                   /\ K (snd e) <> Some key) ->
             Control.fixed_key key mods = false ->
             Control._handle_key key mods s = Raise KeyError).
  { intros pre c post Hb Hc Hpre Hf.
    apply Hraise; [exact Hf|]. rewrite Hs, Hb.
    apply meets_missing_at.
    - rewrite dict_get_resolve, Hget, Hc. reflexivity.
    - intros c' Hin. destruct (Hpre c' Hin) as (e & He & Hne).
      exists (K (snd e)). rewrite dict_get_resolve, Hget, He.
      split; [reflexivity|].
      unfold Control.bound_to. destruct (K (snd e)) as [code|];
        [|reflexivity].
      apply Z.eqb_neq. intros ->. apply Hne. reflexivity. }
  split; [exact Hget|].
  split; [intros Hf Hm; apply Hraise; [exact Hf | rewrite Hs; exact Hm]|].
  split; [exact Hret|].
  split; [exact Hat|].
  split.
  { intros Hnone Hf.
    apply (Hat [] "reverse" ["handbrake"; "hide_hud"; "toggle_headlights"]);
      [reflexivity | exact Hnone | intros c' [] | exact Hf]. }
  split.
  { intros Hall. apply Hret.
    rewrite (ControlMore.configured_meets_none _ key);
      [apply orb_true_r|].
    unfold Control.configured. apply forallb_forall. intros c Hin.
    rewrite dict_get_resolve, Hget.
    destruct (entry c) eqn:E; [reflexivity|].
    exfalso. exact (Hall c Hin E). }
  intros s0 Hs0 Hf. apply Hraise; [exact Hf|]. rewrite Hs0. reflexivity.
Qed.

End Bindings.

(** A section that binds reverse to X and the handbrake to B and has
    no option for the other two: the release of B toggles the
    handbrake, the release of Q raises. *)
Lemma X27_key_bindings_witness :
  let options := [("key_reverse", "x"); ("key_handbrake", "b");
                  ("speed_unit", "mph")] in
  let K := fun name : string =>
             if String.eqb name "x" then Some K_x
             else if String.eqb name "b" then Some K_b else None in
  let s := {| Control.controller :=
                Control.init false DemoCab.no_axes
                  (resolve K (load_key_mapping (Some options))) 0.5 1 1 false;
              Control.world := DemoCab.new_world |} in
  dict_get "handbrake" (load_key_mapping (Some options)) = Ok "b"
  /\ (exists s', Control._handle_key K_b 0 s = Ok (tt, s'))
  /\ Control._handle_key K_q 0 s = Raise KeyError.
Proof.
  intros options K s.
  assert (Hnd : NoDup (map fst options)).
  { repeat constructor; cbn; intuition discriminate. }
  split; [|split].
  - destruct (X27_key_bindings_need_their_config_entries
                K options K_b 0 s Hnd eq_refl) as (Hget & _).
    rewrite Hget. reflexivity.
  - destruct (X27_key_bindings_need_their_config_entries
                K options K_b 0 s Hnd eq_refl) as (_ & _ & Hret & _).
    apply Hret. reflexivity.
  - destruct (X27_key_bindings_need_their_config_entries
                K options K_q 0 s Hnd eq_refl) as (_ & Hraise & _).
    apply Hraise; reflexivity.
Defined.

End ConfigFacts.

(** ** The stored names, from session to session *)

Module NamesFacts.
Import Trial Names.
Local Open Scope py_scope.

Ltac run :=
  cbv [bind ret gets modify when raise lift attr assign on_host
       time_time get_transform record_event generate_code];
  cbn.

Ltac open_state s :=
  let o := fresh "o" in
  let h := fresh "h" in
  destruct s as [o h]; destruct o, h; cbn in *.

#[local] Arguments str_in : simpl never.
#[local] Arguments list_index : simpl never.
#[local] Arguments strip_nonempty : simpl never.
#[local] Arguments py_index : simpl never.
#[local] Arguments py_mod : simpl never.
#[local] Arguments collidepoint : simpl never.
#[local] Arguments Qgtb : simpl never.
#[local] Arguments Qgeb : simpl never.
#[local] Arguments py_div : simpl never.
#[local] Arguments py_max : simpl never.
#[local] Arguments py_min_inf : simpl never.
#[local] Arguments String.eqb : simpl never.
#[local] Arguments Z.eqb : simpl never.

Ltac split_all :=
  repeat match goal with
         | |- context [if ?b then _ else _] => destruct b; cbn
         | |- context [match ?x with _ => _ end] =>
             is_var x; destruct x; cbn
         end.

Lemma track_speed_keeps_names (v : Q) (s s' : Sim) :
  track_speed v s = Ok (tt, s') -> keeps_names s s'.
Proof.
  open_state s. unfold track_speed, check_violation, collect_data. run.
  split_all; try discriminate; intros [= <-]; split; reflexivity.
Qed.

Lemma start_trial_keeps_names (s s' : Sim) :
  start_trial s = Ok (tt, s') -> keeps_names s s'.
Proof.
  open_state s. unfold start_trial. run. intros [= <-]. split; reflexivity.
Qed.

Lemma initiate_trial_keeps_names (s s' : Sim) :
  initiate_trial s = Ok (tt, s') -> keeps_names s s'.
Proof.
  open_state s. unfold initiate_trial. run. intros [= <-].
  split; reflexivity.
Qed.

Lemma end_trial_keeps_names (s s' : Sim) :
  end_trial s = Ok (tt, s') -> keeps_names s s'.
Proof.
  open_state s. unfold end_trial, calculate_results, write_totals_to_csv.
  run.
  destruct start_time0 as [b|]; [|discriminate]. cbn.
  destruct violation_durations0 as [|d ds]; cbn.
  - intros [= <-]. split; reflexivity.
  - repeat match goal with
           | |- context [py_div ?a ?b] => destruct (py_div a b); cbn
           end;
      try discriminate; intros [= <-]; split; reflexivity.
Qed.

Lemma keeps_names_in_step (s s' : Sim) :
  keeps_names s s' -> in_step s -> in_step s'.
Proof.
  unfold keeps_names, in_step, load_user_names.
  intros (Hn & Hm). rewrite Hn, Hm. tauto.
Qed.

Lemma keeps_names_refl (s : Sim) : keeps_names s s.
Proof. split; reflexivity. Qed.

Lemma keeps_names_trans (s1 s2 s3 : Sim) :
  keeps_names s1 s2 -> keeps_names s2 s3 -> keeps_names s1 s3.
Proof.
  unfold keeps_names. intros (A & B) (C & D). split; congruence.
Qed.

(** Saving a name, whatever the name, keeps list and file in step. *)
Lemma save_user_name_in_step (name : string) (s s' : Sim) :
  save_user_name name s = Ok (tt, s') -> in_step s -> in_step s'.
Proof.
  open_state s. unfold in_step, load_user_names, save_user_name. run.
  destruct (negb (String.eqb name EmptyString)
            && negb (str_in name user_names0)); cbn.
  - destruct (list_index name (user_names0 ++ [name])); cbn;
      [|discriminate].
    intros [= <-] _. reflexivity.
  - destruct (list_index name user_names0); cbn; [|discriminate].
    intros [= <-] H. exact H.
Qed.

#[local] Arguments save_user_name : simpl never.
#[local] Arguments start_trial : simpl never.
#[local] Arguments initiate_trial : simpl never.
#[local] Arguments end_trial : simpl never.
#[local] Arguments track_speed : simpl never.

Lemma handle_trial_keys_keeps_names (key : Z) (s s' : Sim) (r : bool) :
  handle_trial_keys key s = Ok (r, s') -> keeps_names s s'.
Proof.
  unfold handle_trial_keys. open_state s. run.
  destruct (key =? K_RETURN)%Z; cbn.
  - destruct display_results0; cbn.
    + intros [= <- <-]. split; reflexivity.
    + destruct start_screen0; cbn.
      * match goal with
        | |- context [initiate_trial ?S] =>
            destruct (initiate_trial S) as [[[] s1]|] eqn:E; [|discriminate]
        end.
        intros [= <- <-]. exact (initiate_trial_keeps_names _ _ E).
      * intros [= <- <-]. split; reflexivity.
  - destruct ((key =? K_SPACE)%Z && trial_active0); cbn.
    + match goal with
      | |- context [end_trial ?S] =>
          destruct (end_trial S) as [[[] s1]|] eqn:E; [|discriminate]
      end.
      intros [= <- <-]. exact (end_trial_keeps_names _ _ E).
    + intros [= <- <-]. split; reflexivity.
Qed.

Lemma handle_name_keys_in_step (key : Z) (u : string) (s s' : Sim) :
  handle_name_keys key u s = Ok (tt, s') -> in_step s -> in_step s'.
Proof.
  unfold handle_name_keys. open_state s. run.
  destruct active_input0; cbn.
  - destruct (key =? K_RETURN)%Z; cbn.
    + destruct (strip_nonempty new_user_name0); cbn.
      * match goal with
        | |- context [save_user_name ?n ?S] =>
            destruct (save_user_name n S) as [[[] s1]|] eqn:E;
              [|discriminate]
        end.
        cbn. intros [= <-] H.
        pose proof (save_user_name_in_step _ _ _ E H) as H1.
        exact H1.
      * intros [= <-] H. exact H.
    + destruct (key =? K_BACKSPACE)%Z; cbn; intros [= <-] H; exact H.
  - destruct dropdown_open0; cbn; [|intros [= <-] H; exact H].
    destruct (key =? K_DOWN)%Z; cbn.
    + match goal with
      | |- context [py_mod ?a ?b] => destruct (py_mod a b) as [j|]; cbn
      end; [|discriminate].
      destruct (py_index user_names0 j); cbn; [|discriminate].
      intros [= <-] H. exact H.
    + destruct (key =? K_UP)%Z; cbn; [|intros [= <-] H; exact H].
      match goal with
      | |- context [py_mod ?a ?b] => destruct (py_mod a b) as [j|]; cbn
      end; [|discriminate].
      destruct (py_index user_names0 j); cbn; [|discriminate].
      intros [= <-] H. exact H.
Qed.

Lemma handle_mouse_in_step (pos : Z * Z) (s s' : Sim) :
  handle_mouse pos s = Ok (tt, s') -> in_step s -> in_step s'.
Proof.
  unfold handle_mouse. open_state s. run.
  destruct (collidepoint 540 410 200 32 pos); cbn;
    [intros [= <-] H; exact H|].
  destruct (collidepoint 750 410 80 32 pos); cbn.
  { destruct (strip_nonempty new_user_name0); cbn.
    - match goal with
      | |- context [save_user_name ?n ?S] =>
          destruct (save_user_name n S) as [[[] s1]|] eqn:E; [|discriminate]
      end.
      cbn. intros [= <-] H.
      exact (save_user_name_in_step _ _ _ E H).
    - intros [= <-] H. exact H. }
  match goal with
  | |- context [collidepoint ?a ?b ?c ?d pos] =>
      destruct (collidepoint a b c d pos); cbn
  end.
  - destruct dropdown_open0; cbn; [|intros [= <-] H; exact H].
    match goal with
    | |- context [py_index ?a ?b] => destruct (py_index a b); cbn
    end; [|discriminate].
    intros [= <-] H. exact H.
  - intros [= <-] H. exact H.
Qed.

Lemma handle_event_in_step (ev : Event) (s s' : Sim) :
  handle_event ev s = Ok (tt, s') -> in_step s -> in_step s'.
Proof.
  destruct ev as [key u|pos]; cbn [handle_event].
  - intros E H. apply GameMore.bind_inv in E.
    destruct E as (r & s1 & E1 & E2).
    pose proof (keeps_names_in_step _ _
                  (handle_trial_keys_keeps_names _ _ _ _ E1) H) as H1.
    destruct r.
    + injection E2 as <-. exact H1.
    + exact (handle_name_keys_in_step _ _ _ _ E2 H1).
  - apply handle_mouse_in_step.
Qed.

Lemma when_keeps_names (b : bool) (c : Py unit) (s s' : Sim) :
  (forall t t', c t = Ok (tt, t') -> keeps_names t t') ->
  when b c s = Ok (tt, s') -> keeps_names s s'.
Proof.
  intros Hc. destruct b; cbn.
  - apply Hc.
  - intros [= <-]. apply keeps_names_refl.
Qed.

Lemma poll_trial_keys_keeps_names (keys : Keys) (s s' : Sim) :
  poll_trial_keys keys s = Ok (tt, s') -> keeps_names s s'.
Proof.
  unfold poll_trial_keys. intros E.
  apply GameMore.bind_inv in E. destruct E as ([] & s1 & E1 & E).
  apply GameMore.bind_inv in E. destruct E as (armed & s2 & E2 & E).
  apply GameMore.bind_inv in E. destruct E as ([] & s3 & E3 & E).
  apply GameMore.bind_inv in E. destruct E as (active & s4 & E4 & E).
  apply GameMore.bind_inv in E. destruct E as ([] & s5 & E5 & E).
  apply GameMore.bind_inv in E. destruct E as (shown & s6 & E6 & E7).
  injection E2 as _ <-. injection E4 as _ <-. injection E6 as _ <-.
  apply (when_keeps_names _ _ _ _ start_trial_keeps_names) in E1.
  apply (when_keeps_names _ _ _ _ initiate_trial_keeps_names) in E3.
  apply (when_keeps_names _ _ _ _ end_trial_keeps_names) in E5.
  apply (when_keeps_names _ _ _ _ start_trial_keeps_names) in E7.
  eauto using keeps_names_trans.
Qed.

(** *** The loop *)

Lemma event_loop_in_step (evs : list Game.Event) :
  forall (s s' : Game.State) (b : bool),
    Game.event_loop evs s = Ok (b, s') ->
    in_step (Game.trial s) -> in_step (Game.trial s').
Proof.
  induction evs as [|ev rest IH]; intros s s' b E H.
  - injection E as _ <-. exact H.
  - rewrite GameMore.event_loop_cons in E. destruct ev.
    + injection E as _ <-. exact H.
    + apply GameMore.bind_inv in E. destruct E as ([] & s1 & E1 & E2).
      apply GameMore.in_cab_inv in E1. destruct E1 as (Et & _).
      apply (IH _ _ _ E2). rewrite Et. exact H.
    + destruct (Control._is_quit_shortcut key mods).
      * injection E as _ <-. exact H.
      * apply GameMore.bind_inv in E. destruct E as ([] & s1 & E1 & E2).
        apply GameMore.in_cab_inv in E1. destruct E1 as (Et & _).
        apply (IH _ _ _ E2). rewrite Et. exact H.
    + apply GameMore.bind_inv in E. destruct E as ([] & s1 & E1 & E2).
      apply GameMore.in_trial_inv in E1. destruct E1 as (_ & E1).
      apply (IH _ _ _ E2). exact (handle_event_in_step _ _ _ E1 H).
    + apply GameMore.bind_inv in E. destruct E as ([] & s1 & E1 & E2).
      apply GameMore.in_trial_inv in E1. destruct E1 as (_ & E1).
      apply (IH _ _ _ E2). exact (handle_event_in_step _ _ _ E1 H).
    + exact (IH _ _ _ E H).
Qed.

Lemma game_frame_in_step (f : Game.Frame) (s s' : Game.State) (b : bool) :
  Game.game_frame f s = Ok (b, s') ->
  in_step (Game.trial s) -> in_step (Game.trial s').
Proof.
  unfold Game.game_frame, Game.parse_events. intros E H.
  apply GameMore.bind_inv in E. destruct E as (q & s1 & E1 & E).
  apply GameMore.bind_inv in E1. destruct E1 as (q0 & s0 & E0 & E1).
  pose proof (event_loop_in_step _ _ _ _ E0 H) as H0.
  assert (H1 : in_step (Game.trial s1)).
  { destruct q0.
    - injection E1 as _ <-. exact H0.
    - apply GameMore.bind_inv in E1. destruct E1 as ([] & s2 & E1 & E2).
      injection E2 as _ <-.
      apply GameMore.in_cab_inv in E1. destruct E1 as (Et & _).
      rewrite Et. exact H0. }
  destruct q.
  - injection E as _ <-. exact H1.
  - apply GameMore.bind_inv in E. destruct E as ([] & s2 & E2 & E).
    apply GameMore.bind_inv in E. destruct E as ([] & s3 & E3 & E).
    apply GameMore.bind_inv in E. destruct E as ([] & s4 & E4 & E5).
    injection E5 as _ <-.
    apply GameMore.in_trial_inv in E2, E3, E4.
    destruct E2 as (_ & E2), E3 as (_ & E3), E4 as (_ & E4).
    apply poll_trial_keys_keeps_names in E2.
    apply track_speed_keeps_names in E4.
    assert (K3 : keeps_names (Game.trial s2) (Game.trial s3)).
    { revert E3. unfold on_host, modify. intros [= <-]. split; reflexivity. }
    eapply keeps_names_in_step; [|exact H1].
    eauto using keeps_names_trans.
Qed.

Lemma last_of_names (names : list string) :
  let last := (Z.of_nat (List.length names) - 1)%Z in
  (names = [] ->
   (if (0 <=? last)%Z then nth (Z.to_nat last) names EmptyString
    else EmptyString) = EmptyString)
  /\ (forall earlier name,
         names = earlier ++ [name] ->
         (if (0 <=? last)%Z then nth (Z.to_nat last) names EmptyString
          else EmptyString) = name).
Proof.
  intros last. split.
  - intros ->. reflexivity.
  - intros earlier name ->. unfold last.
    rewrite length_app. cbn [List.length].
    destruct (Z.leb_spec 0 (Z.of_nat (List.length earlier + 1) - 1));
      [|lia].
    replace (Z.to_nat (Z.of_nat (List.length earlier + 1) - 1))
      with (List.length earlier) by lia.
    rewrite app_nth2 by lia. rewrite Nat.sub_diag. reflexivity.
Qed.

(** X28.  The stored names survive the session.  The drop-down list
    and the memory file start a session with the same names, and
    whatever the loop does (clicks, typing, saving names, trials)
    they still hold the same names when it returns.  So the next
    session starts with exactly the names this one ended with, and
    selects the last of them: the name added last, not the name used
    last. *)
Theorem X28_the_stored_names_survive_the_session
    (fs : list Game.Frame) (s s' : Game.State) (limit : Q)
    (pose : Transform) :
  in_step (Game.trial s) ->
  Game.game_loop fs s = Ok (tt, s') ->
  let names := user_names (self (Game.trial s')) in
  let next := new_session limit pose (host (Game.trial s')) in
  in_step (Game.trial s')
  /\ in_step next
  /\ user_names (self next) = names
  /\ selected_name_index (self next)
     = (Z.of_nat (List.length names) - 1)%Z
  /\ (names = [] -> user_name (self next) = EmptyString)
  /\ (forall earlier name,
         names = earlier ++ [name] -> user_name (self next) = name).
Proof.
  intros H E names next.
  assert (H' : in_step (Game.trial s')).
  { clear names next. revert s H E.
    induction fs as [|f rest IH]; intros s H E.
    - injection E as <-. exact H.
    - cbn [Game.game_loop] in E. apply GameMore.bind_inv in E.
      destruct E as (q & s1 & E1 & E2).
      pose proof (game_frame_in_step _ _ _ _ E1 H) as H1.
      destruct q.
      + injection E2 as <-. exact H1.
      + exact (IH _ H1 E2). }
  assert (Hload : load_user_names (host (Game.trial s')) = names)
    by exact H'.
  split; [exact H'|].
  split.
  { unfold next, new_session, in_step, load_user_names.
    destruct (host (Game.trial s')); reflexivity. }
  split; [unfold next, new_session; cbn; exact Hload|].
  split; [unfold next, new_session; cbn; rewrite Hload; reflexivity|].
  destruct (last_of_names names) as (Hnil & Hlast).
  split.
  - intros Hn. unfold next, new_session. cbn. rewrite Hload.
    exact (Hnil Hn).
  - intros earlier name Hn. unfold next, new_session. cbn. rewrite Hload.
    exact (Hlast earlier name Hn).
Qed.

Lemma X28_the_stored_names_witness :
  let f := {| Game.events :=
                [Game.MOUSEBUTTONDOWN (600%Z, 420%Z);
                 Game.KEYDOWN K_a "a"; Game.KEYDOWN K_RETURN "r";
                 Game.QUIT];
              Game.pressed := no_keys; Game.milliseconds := 16;
              Game.jsInputs := []; Game.pose := Demo.start_pose;
              Game.speed := 0 |} in
  let s := {| Game.cab := DemoCab.keyboard_cab; Game.trial := Demo.idle |} in
  exists s',
    Game.game_loop [f] s = Ok (tt, s')
    /\ user_names
         (self (new_session 45 Demo.start_pose (host (Game.trial s'))))
       = ["a"%string].
Proof.
  intros f s. eexists.
  assert (E : Game.game_loop [f] s = Ok (tt, _)) by reflexivity.
  split; [exact E|].
  destruct (X28_the_stored_names_survive_the_session
              [f] s _ 45 Demo.start_pose eq_refl E)
    as (_ & _ & Hn & _).
  rewrite Hn. reflexivity.
Defined.

End NamesFacts.
